(** * claraG_direto: a delayed messaging funnel on a Telegram bot

    Shallow embedding of [claraG_direto.py] and verification of its
    funnel properties: the dispatch guard, the delivery helpers and their
    fallback chains, the combo / upsell / membership-polling jobs, the
    join-request handler and the start-up configuration loader.

    The coroutines of the source become computations of a state and
    exception monad over an explicit [World]: the ordered trace of gateway
    calls and timed waits, the printed log, the job queue's table, the
    per-chat data store and the process-wide set [COMBO_DISPATCHED_CHATS].
    The Telegram gateway is an arbitrary function from the history of
    calls and the current call to an outcome, so every theorem holds for
    every behaviour of the network.  Cancellation of a coroutine
    ([asyncio.CancelledError], a [BaseException]) is modelled in the
    start-up ([main]) only. *)

From stdpp Require Import gmap strings list pretty.
From Stdlib Require Import ZArith Ascii String.

Local Open Scope Z_scope.
Local Open Scope string_scope.
Local Open Scope list_scope.

(** ** Python values *)

(** The exception classes the source distinguishes in its [except]
    clauses, each with the text [str(exc)] yields.  [Forbidden] and
    [BadRequest] are the two [telegram.error] classes caught by the
    delivery helpers; [RuntimeError] is what [_load_settings] raises;
    [OtherError] stands for every other [Exception] (a network error, a
    time-out, ...). *)
Inductive exn : Type :=
| Forbidden (msg : string)
| BadRequest (msg : string)
| TypeError (msg : string)
| RuntimeError (msg : string)
| OtherError (msg : string).

Definition str (exc : exn) : string :=
  match exc with
  | Forbidden m | BadRequest m | TypeError m
  | RuntimeError m | OtherError m => m
  end.

(** [except (Forbidden, BadRequest)] *)
Definition is_Forbidden_or_BadRequest (exc : exn) : bool :=
  match exc with
  | Forbidden _ | BadRequest _ => true
  | _ => false
  end.

Definition is_Forbidden (exc : exn) : bool :=
  match exc with Forbidden _ => true | _ => false end.

Definition is_BadRequest (exc : exn) : bool :=
  match exc with BadRequest _ => true | _ => false end.

Definition is_TypeError (exc : exn) : bool :=
  match exc with TypeError _ => true | _ => false end.

Inductive Res (A : Type) : Type :=
| Ok (a : A)
| Raise (e : exn).
Arguments Ok {A} a.
Arguments Raise {A} e.

(** Truth value of an [Optional[str]] and of an [Optional[int]]. *)
Definition truthy_str (v : option string) : bool :=
  match v with
  | Some s => negb (String.eqb s "")
  | None => false
  end.

Definition truthy_int (v : option Z) : bool :=
  match v with
  | Some z => negb (Z.eqb z 0)
  | None => false
  end.

(** [s.lower()] on the ASCII letters; other bytes are kept.  Python
    folds letters outside ASCII as well (the Kelvin sign U+212A becomes
    [k]), so this is [str.lower] on texts of ASCII characters, and on any
    text it folds no more than [str.lower] does. *)
Definition lower_ascii (c : ascii) : ascii :=
  let n := nat_of_ascii c in
  if (Nat.leb 65 n && Nat.leb n 90)%bool then ascii_of_nat (n + 32) else c.

Fixpoint lower (s : string) : string :=
  match s with
  | EmptyString => EmptyString
  | String c s' => String (lower_ascii c) (lower s')
  end.

(** [needle in hay] *)
Fixpoint contains (needle hay : string) : bool :=
  if String.prefix needle hay then true
  else match hay with
       | EmptyString => false
       | String _ hay' => contains needle hay'
       end.

(** [s.lstrip('/')] *)
Fixpoint lstrip_slash (s : string) : string :=
  match s with
  | String "/"%char s' => lstrip_slash s'
  | _ => s
  end.

(** ** Telegram objects *)

Record User := { user_id : Z; is_bot : bool }.

Record Chat := { chat_id : Z; chat_type : string }.

(** A media argument: a durable content handle or URL ([str]), or raw
    bytes. *)
Inductive FileRef : Type :=
| FileStr (s : string)
| FileBytes (b : list Byte.byte).

Inductive InputMedia : Type :=
| InputMediaPhoto (media : string)
| InputMediaVideo (media : string).

(** An [InlineKeyboardMarkup]: rows of buttons (label, url). *)
Definition InlineKeyboardMarkup : Type := list (list (string * string)).

Definition InlineKeyboardButton (label url : string) : string * string :=
  (label, url).

(** What a gateway call hands back. *)
Inductive Reply : Type :=
| RMessage (message_id : Z)
| RMessages (message_ids : list Z)
| RFile (file_path : option string)
| RChatMember (status : option string) (is_member : bool)
| RTrue.

(** [getattr(tg_file, "file_path", None)] *)
Definition get_file_path (r : Reply) : option string :=
  match r with RFile p => p | _ => None end.

(** [getattr(member, "status", None)] *)
Definition get_status (r : Reply) : option string :=
  match r with RChatMember s _ => s | _ => None end.

(** [bool(getattr(member, "is_member", False))] *)
Definition get_is_member (r : Reply) : bool :=
  match r with RChatMember _ b => b | _ => false end.

(** Every effect a coroutine of the source performs on the outside: the
    gateway methods, with their keyword arguments in the source's order,
    and [asyncio.sleep]. *)
Inductive Call : Type :=
| ReplyText (message_id : Z) (text : string) (parse_mode : option string)
    (reply_markup : option InlineKeyboardMarkup) (bcid : option string)
| SendMessage (chat : Z) (text : string) (parse_mode : option string)
    (reply_markup : option InlineKeyboardMarkup) (bcid : option string)
| SendPhoto (chat : Z) (photo : FileRef) (caption parse_mode bcid : option string)
| SendVideo (chat : Z) (video : FileRef) (caption parse_mode bcid : option string)
| SendAudio (chat : Z) (audio : FileRef) (caption parse_mode bcid : option string)
| SendVoice (chat : Z) (voice : FileRef) (caption parse_mode bcid : option string)
| SendMediaGroup (chat : Z) (media : list InputMedia) (bcid : option string)
| GetFile (file_id : string)
| GetChatMember (chat : Z) (user : Z)
| ApproveJoinRequest (chat : option Z) (user : Z)
| Sleep (seconds : Z).

(** The gateway: the outcome of a call, given all the calls made before
    it. *)
Definition Bot : Type := list Call -> Call -> Res Reply.

Record Message := {
  message_id : Z;
  msg_chat : option Chat;
  from_user : option User;
  business_connection_id : option string;
  (* whether a bot is bound to the message ([get_bot()], [_bot]) *)
  msg_has_bot : bool
}.

Record ChatJoinRequest := { jr_chat : option Chat; jr_from_user : User }.

Record Update := {
  effective_message : option Message;
  effective_chat : option Chat;
  effective_user : option User;
  chat_join_request : option ChatJoinRequest
}.

(** ** Scheduler objects *)

(** The [data] dictionary of a job. *)
Record Payload := {
  p_chat_id : option Z;
  p_user_id : option Z;
  p_business_connection_id : option string;
  p_attempt : option Z
}.

Inductive Callback : Type :=
| combo_delivery_beatriz_job
| upsell_sequence_job
| group_check_job.

Inductive Trigger : Type :=
| RunOnce (when : Z)
| RunRepeating (interval first : Z).

Record Job := {
  job_callback : Callback;
  job_trigger : Trigger;
  job_name : string;
  job_data : Payload;
  job_removed : bool
}.

(** The handler context: the job being run (an index in the job table)
    and whether [context.job_queue] is available. *)
Record Context := { ctx_job : option nat; ctx_job_queue : bool }.

(** [context.chat_data] of one chat. *)
Record ChatData := {
  combo_dispatched : bool;
  cd_business_connection_id : option string
}.

Definition empty_chat_data : ChatData :=
  {| combo_dispatched := false; cd_business_connection_id := None |}.

Inductive LogLine : Type :=
| LogBlocked (user : option Z)
| LogJoinApproved (user : Z)
| LogJoinFailed (exc : exn).

(** ** The world and the monad *)

Record World := {
  trace : list Call;
  log : list LogLine;
  jobs : list Job;
  chat_data : gmap Z ChatData;
  COMBO_DISPATCHED_CHATS : gset Z
}.

Definition empty_world : World :=
  {| trace := []; log := []; jobs := []; chat_data := ∅;
     COMBO_DISPATCHED_CHATS := ∅ |}.

Definition set_trace (t : list Call) (w : World) : World :=
  {| trace := t; log := log w; jobs := jobs w; chat_data := chat_data w;
     COMBO_DISPATCHED_CHATS := COMBO_DISPATCHED_CHATS w |}.

Definition set_log (l : list LogLine) (w : World) : World :=
  {| trace := trace w; log := l; jobs := jobs w; chat_data := chat_data w;
     COMBO_DISPATCHED_CHATS := COMBO_DISPATCHED_CHATS w |}.

Definition set_jobs (j : list Job) (w : World) : World :=
  {| trace := trace w; log := log w; jobs := j; chat_data := chat_data w;
     COMBO_DISPATCHED_CHATS := COMBO_DISPATCHED_CHATS w |}.

Definition set_chat_data (d : gmap Z ChatData) (w : World) : World :=
  {| trace := trace w; log := log w; jobs := jobs w; chat_data := d;
     COMBO_DISPATCHED_CHATS := COMBO_DISPATCHED_CHATS w |}.

Definition set_dispatched (s : gset Z) (w : World) : World :=
  {| trace := trace w; log := log w; jobs := jobs w; chat_data := chat_data w;
     COMBO_DISPATCHED_CHATS := s |}.

(** A coroutine: from the world it starts in, its result or the exception
    it raises, and the world it leaves.  What was done before an exception
    stays done. *)
Definition M (A : Type) : Type := World -> Res A * World.

(** [return a] *)
Definition ret {A} (a : A) : M A := fun w => (Ok a, w).

(** [raise e] *)
Definition raise {A} (e : exn) : M A := fun w => (Raise e, w).

(** [x = await c] followed by [k x]: an exception of [c] ends the
    sequence. *)
Definition bind {A B} (c : M A) (k : A -> M B) : M B :=
  fun w =>
    match c w with
    | (Ok a, w') => k a w'
    | (Raise e, w') => (Raise e, w')
    end.

Notation "'await' x <- c ; k" := (bind c (fun x => k))
  (at level 10, x name, c at level 100, k at level 200).
Notation "'await_' c ; k" := (bind c (fun _ => k))
  (at level 10, c at level 100, k at level 200).

(** [try: body except ...: handler]: the handler says which exceptions
    it catches; the others propagate. *)
Definition try_except {A} (body : M A) (handler : exn -> option (M A)) : M A :=
  fun w =>
    match body w with
    | (Ok a, w') => (Ok a, w')
    | (Raise e, w') =>
        match handler e with
        | Some h => h w'
        | None => (Raise e, w')
        end
    end.

(** An awaited gateway call: recorded, and answered by the gateway. *)
Definition call (bot : Bot) (c : Call) : M Reply :=
  fun w => (bot (trace w) c, set_trace (trace w ++ [c]) w).

(** [await asyncio.sleep(seconds)] *)
Definition sleep (seconds : Z) : M unit :=
  fun w => (Ok tt, set_trace (trace w ++ [Sleep seconds]) w).

(** [print(...)] *)
Definition print (l : LogLine) : M unit :=
  fun w => (Ok tt, set_log (log w ++ [l]) w).

(** ** Settings *)

Record Settings := { token : string; group_id : Z }.

(** The content assets read from the environment when the module is
    loaded; [None] when the variable is not set. *)
Record Assets := {
  BEATRIZ_COMBO_FOTO_1 : option string;
  BEATRIZ_COMBO_FOTO_2 : option string;
  BEATRIZ_COMBO_FOTO_3 : option string;
  BEATRIZ_COMBO_FOTO_4 : option string;
  BEATRIZ_COMBO_FOTO_5 : option string;
  BEATRIZ_COMBO_FOTO_6 : option string;
  BEATRIZ_COMBO_FOTO_7 : option string;
  BEATRIZ_COMBO_FOTO_8 : option string;
  BEATRIZ_COMBO_FOTO_9 : option string;
  BEATRIZ_COMBO_FOTO_10 : option string;
  BEATRIZ_COMBO_VIDEO_1 : option string;
  BEATRIZ_COMBO_VIDEO_2 : option string;
  BEATRIZ_COMBO_VIDEO_3 : option string;
  BEATRIZ_COMBO_VIDEO_4 : option string;
  AUDIO_ENTREGA_COMBO : option string;
  AUDIO_POS_ENTREGA_COMBO : option string;
  AUDIO_OFERTANDO_UPSELL : option string;
  VIDEO_PREVIA_VIP : option string;
  AUDIO_REMARKETING_UPSELL : option string;
  AUDIO_REMARKETING_UPSELL_2 : option string
}.

Definition VIP_LINK_1_MES : string := "https://global.tribopay.com.br/jvvo3".
Definition VIP_LINK_6_MESES : string := "https://global.tribopay.com.br/kgwjs".
Definition VIP_LINK_1_ANO : string := "https://global.tribopay.com.br/1fhtd".
Definition EU_QUERO_LINK : string := "https://global.tribopay.com.br/zjvj6".

Definition AUTO_REPLY_DELAY_SECONDS : Z := 30.
Definition VIP_OFFER_DELAY_SECONDS : Z := 180.
Definition GROUP_CHECK_INTERVAL_SECONDS : Z := 60.
Definition GROUP_CHECK_MAX_ATTEMPTS : Z := 5.
Definition GROUP_APPROVED_MESSAGE : string :=
  "Te aceitei no grupo, espero que goste".

(** ** Delivery helpers *)

Definition _handle_blocking_exception (user : option Z) (exc : exn) : M unit :=
  let text := lower (str exc) in
  if existsb (fun x => contains x text)
       ["blocked"; "deactivated"; "chat not found"]
  then print (LogBlocked user)
  else ret tt.

(** The handler shared by the helpers:
    [except (Forbidden, BadRequest) as exc: ...; return None]. *)
Definition except_blocking (user : option Z) (exc : exn)
  : option (M (option Reply)) :=
  if is_Forbidden_or_BadRequest exc
  then Some (await_ _handle_blocking_exception user exc; ret None)
  else None.

(** [a or b] on optional integers *)
Definition or_int (a b : option Z) : option Z :=
  if truthy_int a then a else b.

Definition _safe_reply_text (bot : Bot) (message : Message) (text : string)
    (parse_mode : option string) (reply_markup : option InlineKeyboardMarkup)
  : M (option Reply) :=
  try_except
    (let bcid := business_connection_id message in
     await r <- call bot (ReplyText (message_id message) text parse_mode
                            reply_markup bcid);
     ret (Some r))
    (fun exc =>
       if is_TypeError exc then
         Some (try_except
                 (let bot_bound := msg_has_bot message in
                  let chat := msg_chat message in
                  let chat_id_ := or_int (chat_id <$> chat) (chat_id <$> chat) in
                  let bcid := business_connection_id message in
                  match bot_bound, chat_id_ with
                  | true, Some c =>
                      await r <- call bot (SendMessage c text parse_mode
                                             reply_markup bcid);
                      ret (Some r)
                  | _, _ => ret None
                  end)
                 (fun _ => Some (ret None)))
       else except_blocking (user_id <$> from_user message) exc).

Definition _safe_send_message (bot : Bot) (chat : Z) (user : option Z)
    (text : string) (parse_mode : option string)
    (reply_markup : option InlineKeyboardMarkup) (bcid : option string)
  : M (option Reply) :=
  try_except
    (await r <- call bot (SendMessage chat text parse_mode reply_markup bcid);
     ret (Some r))
    (except_blocking user).

Definition _safe_send_photo (bot : Bot) (chat : Z) (user : option Z)
    (photo : FileRef) (caption parse_mode bcid : option string)
  : M (option Reply) :=
  try_except
    (await r <- call bot (SendPhoto chat photo caption parse_mode bcid);
     ret (Some r))
    (except_blocking user).

Definition _safe_send_video (bot : Bot) (chat : Z) (user : option Z)
    (video : FileRef) (caption parse_mode bcid : option string)
  : M (option Reply) :=
  try_except
    (await r <- call bot (SendVideo chat video caption parse_mode bcid);
     ret (Some r))
    (except_blocking user).

Definition _safe_send_audio (bot : Bot) (chat : Z) (user : option Z)
    (audio : FileRef) (caption parse_mode bcid : option string)
  : M (option Reply) :=
  try_except
    (await r <- call bot (SendAudio chat audio caption parse_mode bcid);
     ret (Some r))
    (except_blocking user).

Definition _safe_send_media_group (bot : Bot) (chat : Z) (user : option Z)
    (media : list InputMedia) (bcid : option string)
  : M (option Reply) :=
  try_except
    (await r <- call bot (SendMediaGroup chat media bcid);
     ret (Some r))
    (except_blocking user).

(** The direct file URL built from a resolved [file_path]. *)
Definition file_url (SETTINGS : Settings) (file_path : string) : string :=
  "https://api.telegram.org/file/bot" +:+ token SETTINGS +:+ "/"
    +:+ lstrip_slash file_path.

(** The middle level of the voice chain: the body of the inner
    [try: ... except Exception: pass].  [Some r] is the [return] of the
    retried voice send; [None] falls through to the audio level. *)
Definition voice_url_retry (SETTINGS : Settings) (bot : Bot) (chat : Z)
    (voice : FileRef) (caption parse_mode bcid : option string)
  : M (option Reply) :=
  try_except
    (match voice with
     | FileStr v =>
         await tg_file <- call bot (GetFile v);
         let file_path := get_file_path tg_file in
         if truthy_str file_path then
           let url := file_url SETTINGS (default "" file_path) in
           try_except
             (await r <- call bot (SendVoice chat (FileStr url) caption
                                     parse_mode bcid);
              ret (Some r))
             (fun exc =>
                if is_Forbidden_or_BadRequest exc then Some (ret None)
                else None)
         else ret None
     | FileBytes _ => ret None
     end)
    (fun _ => Some (ret None)).

Definition _safe_send_voice_prefer (SETTINGS : Settings) (bot : Bot)
    (chat : Z) (user : option Z) (voice : FileRef)
    (caption parse_mode bcid : option string)
  : M (option Reply) :=
  try_except
    (await r <- call bot (SendVoice chat voice caption parse_mode bcid);
     ret (Some r))
    (fun exc =>
       if is_Forbidden_or_BadRequest exc then
         Some (await retried <- voice_url_retry SETTINGS bot chat voice caption
                                  parse_mode bcid;
               match retried with
               | Some r => ret (Some r)
               | None =>
                   try_except
                     (await r <- call bot (SendAudio chat voice caption
                                             parse_mode bcid);
                      ret (Some r))
                     (except_blocking user)
               end)
       else None).

(** ** The job queue *)

Definition empty_payload : Payload :=
  {| p_chat_id := None; p_user_id := None;
     p_business_connection_id := None; p_attempt := None |}.

(** [job = getattr(context, "job", None)]: the job object, with its place
    in the job table. *)
Definition get_job (context : Context) : M (option (nat * Job)) :=
  fun w =>
    (Ok (match ctx_job context with
         | Some i => (fun j => (i, j)) <$> (jobs w !! i)
         | None => None
         end), w).

(** [job_queue.run_once(callback, when=..., data=..., name=...)] *)
Definition run_once (callback : Callback) (when : Z) (data : Payload)
    (name : string) : M unit :=
  fun w =>
    (Ok tt,
     set_jobs (jobs w ++ [{| job_callback := callback;
                             job_trigger := RunOnce when;
                             job_name := name; job_data := data;
                             job_removed := false |}]) w).

(** [job_queue.run_repeating(callback, interval=..., first=..., name=...,
    data=...)] *)
Definition run_repeating (callback : Callback) (interval first : Z)
    (name : string) (data : Payload) : M unit :=
  fun w =>
    (Ok tt,
     set_jobs (jobs w ++ [{| job_callback := callback;
                             job_trigger := RunRepeating interval first;
                             job_name := name; job_data := data;
                             job_removed := false |}]) w).

Definition with_data (data : Payload) (j : Job) : Job :=
  {| job_callback := job_callback j; job_trigger := job_trigger j;
     job_name := job_name j; job_data := data;
     job_removed := job_removed j |}.

Definition with_removed (j : Job) : Job :=
  {| job_callback := job_callback j; job_trigger := job_trigger j;
     job_name := job_name j; job_data := job_data j;
     job_removed := true |}.

(** [job.data = data] *)
Definition set_job_data (i : nat) (data : Payload) : M unit :=
  fun w => (Ok tt, set_jobs (alter (with_data data) i (jobs w)) w).

(** [job.schedule_removal()] *)
Definition schedule_removal (i : nat) : M unit :=
  fun w => (Ok tt, set_jobs (alter with_removed i (jobs w)) w).

(** [if job: job.schedule_removal()] *)
Definition remove_if_job (job : option (nat * Job)) : M unit :=
  match job with
  | Some (i, _) => schedule_removal i
  | None => ret tt
  end.

(** [[x for x in ids if x]] *)
Definition configured (ids : list (option string)) : list string :=
  omap (fun x => if truthy_str x then x else None) ids.

(** An optional integer that passed a truth test. *)
Definition if_truthy (v : option Z) : option Z :=
  if truthy_int v then v else None.

Definition nl : string := String (ascii_of_nat 10) EmptyString.

(** ** The funnel *)

Section Funnel.

Variable SETTINGS : Settings.
Variable ASSETS : Assets.

Definition _send_remarketing (bot : Bot) (chat : Z) (user : option Z)
    (bcid : option string) : M unit :=
  await_ (if truthy_str (AUDIO_REMARKETING_UPSELL ASSETS) then
            await_ _safe_send_voice_prefer SETTINGS bot chat user
                     (FileStr (default "" (AUDIO_REMARKETING_UPSELL ASSETS)))
                     None None bcid;
            ret tt
          else ret tt);
  let desc_text :=
    "Okay babe, I've already applied the discount for you 😘" +:+ nl +:+
    "Take advantage now, because I'll delete this message later, just click here 👇" in
  let keyboard := [[InlineKeyboardButton "I WANT THIS 🔥" EU_QUERO_LINK]] in
  await_ _safe_send_message bot chat user desc_text None (Some keyboard) bcid;
  if truthy_str (AUDIO_REMARKETING_UPSELL_2 ASSETS) then
    (* [asyncio.sleep] raises no [Exception]: the [except] around it is
       never entered *)
    await_ sleep 45;
    await_ _safe_send_voice_prefer SETTINGS bot chat user
             (FileStr (default "" (AUDIO_REMARKETING_UPSELL_2 ASSETS)))
             None None bcid;
    ret tt
  else ret tt.

(** [status in {"member", "administrator", "creator"}] *)
Definition status_is_member (status : option string) : bool :=
  match status with
  | Some s => existsb (String.eqb s) ["member"; "administrator"; "creator"]
  | None => false
  end.

Definition _group_check_job (bot : Bot) (context : Context) : M unit :=
  await job <- get_job context;
  let data := match job with Some (_, j) => job_data j | None => empty_payload end in
  let chat_id_ := p_chat_id data in
  let user_id_ := p_user_id data in
  let bcid := p_business_connection_id data in
  (* [int(data.get("attempt", 0)) + 1] *)
  let attempt := default 0 (p_attempt data) + 1 in
  let data := {| p_chat_id := p_chat_id data; p_user_id := p_user_id data;
                 p_business_connection_id := p_business_connection_id data;
                 p_attempt := Some attempt |} in
  await_ (match job with
          | Some (i, _) => set_job_data i data
          | None => ret tt
          end);
  match if_truthy chat_id_, if_truthy user_id_ with
  | Some chat, Some user =>
      (* [None]: the [return] of [except Forbidden] *)
      await checked <-
        try_except
          (await member <- call bot (GetChatMember (group_id SETTINGS) user);
           let status := get_status member in
           ret (Some (status_is_member status || get_is_member member)))
          (fun exc =>
             if is_Forbidden exc then Some (ret None)
             else if is_BadRequest exc then Some (ret (Some false))
             else Some (ret (Some false)));
      match checked with
      | None => ret tt
      | Some is_member =>
          if is_member then
            await_ _safe_send_message bot chat (Some user)
                     GROUP_APPROVED_MESSAGE None None bcid;
            remove_if_job job
          else if attempt >=? GROUP_CHECK_MAX_ATTEMPTS then
            await_ remove_if_job job;
            _send_remarketing bot chat (Some user) bcid
          else ret tt
      end
  | _, _ => remove_if_job job
  end.

Definition upsell_text : string :=
  "Look at this little preview I sent you 🥰" +:+ nl +:+
  "Babe, what you really want is inside my VIP, look at everything you can see:" +:+ nl +:+ nl +:+
  "💎 Videos and photos just the way you like them..." +:+ nl +:+
  "💎 Exclusive videos for you, making you cum just the two of us" +:+ nl +:+
  "💎 My personal contact" +:+ nl +:+
  "💎 I always post new things" +:+ nl +:+
  "💎 And much more my dear..." +:+ nl +:+ nl +:+
  "Now choose a VIP option so you can see me in the best way and cumming for me 💦".

Definition vip_keyboard : InlineKeyboardMarkup :=
  [ [InlineKeyboardButton "[$10]1 MONTH🔥" VIP_LINK_1_MES];
    [InlineKeyboardButton "[$17]6 MONTHS+SURPRISE👀🔥" VIP_LINK_6_MESES];
    [InlineKeyboardButton "[$20]1 YEAR+EXCLUSIVE VIDEO+🎁" VIP_LINK_1_ANO] ].

Definition _upsell_sequence_job (bot : Bot) (context : Context) : M unit :=
  await job <- get_job context;
  let data := match job with Some (_, j) => job_data j | None => empty_payload end in
  let chat_id_ := p_chat_id data in
  let user_id_ := p_user_id data in
  let bcid := p_business_connection_id data in
  match if_truthy chat_id_ with
  | None => ret tt
  | Some chat =>
      await_ (if truthy_str (AUDIO_OFERTANDO_UPSELL ASSETS) then
                await_ _safe_send_voice_prefer SETTINGS bot chat user_id_
                         (FileStr (default "" (AUDIO_OFERTANDO_UPSELL ASSETS)))
                         None None bcid;
                ret tt
              else ret tt);
      await_ (if truthy_str (VIDEO_PREVIA_VIP ASSETS) then
                await_ _safe_send_video bot chat user_id_
                         (FileStr (default "" (VIDEO_PREVIA_VIP ASSETS)))
                         None None bcid;
                ret tt
              else ret tt);
      await_ _safe_send_message bot chat user_id_ upsell_text None None bcid;
      await_ _safe_send_message bot chat user_id_ "Choose your VIP below 👇"
               None (Some vip_keyboard) bcid;
      let jobq := ctx_job_queue context in
      if jobq && truthy_int user_id_ then
        run_repeating group_check_job GROUP_CHECK_INTERVAL_SECONDS
          GROUP_CHECK_INTERVAL_SECONDS
          ("group_check:" +:+ pretty chat)
          {| p_chat_id := Some chat; p_user_id := user_id_;
             p_business_connection_id := bcid; p_attempt := Some 0 |}
      else ret tt
  end.

Definition photos_ids : list (option string) :=
  [ BEATRIZ_COMBO_FOTO_1 ASSETS; BEATRIZ_COMBO_FOTO_2 ASSETS;
    BEATRIZ_COMBO_FOTO_3 ASSETS; BEATRIZ_COMBO_FOTO_4 ASSETS;
    BEATRIZ_COMBO_FOTO_5 ASSETS; BEATRIZ_COMBO_FOTO_6 ASSETS;
    BEATRIZ_COMBO_FOTO_7 ASSETS; BEATRIZ_COMBO_FOTO_8 ASSETS;
    BEATRIZ_COMBO_FOTO_9 ASSETS; BEATRIZ_COMBO_FOTO_10 ASSETS ].

Definition videos_ids : list (option string) :=
  [ BEATRIZ_COMBO_VIDEO_1 ASSETS; BEATRIZ_COMBO_VIDEO_2 ASSETS;
    BEATRIZ_COMBO_VIDEO_3 ASSETS; BEATRIZ_COMBO_VIDEO_4 ASSETS ].

(** The photo step of the combo delivery (source lines 396-413). *)
Definition send_photos (bot : Bot) (chat : Z) (user : option Z)
    (bcid : option string) : M unit :=
  let photos := configured photos_ids in
  if (2 <=? List.length photos)%nat then
    let media := InputMediaPhoto <$> photos in
    await_ _safe_send_media_group bot chat user media bcid;
    ret tt
  else if (List.length photos =? 1)%nat then
    match photos !! 0%nat with
    | Some photo =>
        await_ _safe_send_photo bot chat user (FileStr photo) None None bcid;
        ret tt
    | None => raise (OtherError "IndexError")
    end
  else ret tt.

(** The video step of the combo delivery (source lines 420-437). *)
Definition send_videos (bot : Bot) (chat : Z) (user : option Z)
    (bcid : option string) : M unit :=
  let videos := configured videos_ids in
  if (2 <=? List.length videos)%nat then
    let media_v := InputMediaVideo <$> videos in
    await_ _safe_send_media_group bot chat user media_v bcid;
    ret tt
  else if (List.length videos =? 1)%nat then
    match videos !! 0%nat with
    | Some video =>
        await_ _safe_send_video bot chat user (FileStr video) None None bcid;
        ret tt
    | None => raise (OtherError "IndexError")
    end
  else ret tt.

Definition _combo_delivery_beatriz_job (bot : Bot) (context : Context) : M unit :=
  await job <- get_job context;
  let data := match job with Some (_, j) => job_data j | None => empty_payload end in
  let chat_id_ := p_chat_id data in
  let user_id_ := p_user_id data in
  let bcid := p_business_connection_id data in
  match if_truthy chat_id_ with
  | None => ret tt
  | Some chat =>
      await_ _safe_send_message bot chat user_id_
               "Hi, sorry for the delay. I'll send everything" None None bcid;
      await_ (if truthy_str (AUDIO_ENTREGA_COMBO ASSETS) then
                await_ _safe_send_voice_prefer SETTINGS bot chat user_id_
                         (FileStr (default "" (AUDIO_ENTREGA_COMBO ASSETS)))
                         None None bcid;
                ret tt
              else ret tt);
      await_ send_photos bot chat user_id_ bcid;
      await_ send_videos bot chat user_id_ bcid;
      await_ (if truthy_str (AUDIO_POS_ENTREGA_COMBO ASSETS) then
                await_ _safe_send_voice_prefer SETTINGS bot chat user_id_
                         (FileStr (default "" (AUDIO_POS_ENTREGA_COMBO ASSETS)))
                         None None bcid;
                ret tt
              else
                await_ _safe_send_message bot chat user_id_
                         "Depois que olhar, me fala se gostou, tá bom? 🤍"
                         None None bcid;
                ret tt);
      let jobq := ctx_job_queue context in
      if jobq then
        run_once upsell_sequence_job VIP_OFFER_DELAY_SECONDS
          {| p_chat_id := Some chat; p_user_id := user_id_;
             p_business_connection_id := bcid; p_attempt := None |}
          ("upsell:beatriz:" +:+ pretty chat)
      else ret tt
  end.

End Funnel.

(** ** Inbound handlers *)

(** [context.chat_data] of the chat the update comes from; a chat never
    seen has an empty dictionary. *)
Definition get_chat_data (chat : Z) : M ChatData :=
  fun w => (Ok (default empty_chat_data (chat_data w !! chat)), w).

(** [context.chat_data["combo_dispatched"] = True] *)
Definition set_combo_dispatched (chat : Z) : M unit :=
  fun w =>
    let d := default empty_chat_data (chat_data w !! chat) in
    (Ok tt,
     set_chat_data
       (<[chat := {| combo_dispatched := true;
                     cd_business_connection_id :=
                       cd_business_connection_id d |}]> (chat_data w)) w).

(** [context.chat_data["business_connection_id"] = bcid] *)
Definition set_chat_bcid (chat : Z) (bcid : option string) : M unit :=
  fun w =>
    let d := default empty_chat_data (chat_data w !! chat) in
    (Ok tt,
     set_chat_data
       (<[chat := {| combo_dispatched := combo_dispatched d;
                     cd_business_connection_id := bcid |}]> (chat_data w)) w).

(** [chat_id in COMBO_DISPATCHED_CHATS] *)
Definition in_dispatched (chat : Z) : M bool :=
  fun w => (Ok (bool_decide (chat ∈ COMBO_DISPATCHED_CHATS w)), w).

(** [COMBO_DISPATCHED_CHATS.add(chat_id)] *)
Definition add_dispatched (chat : Z) : M unit :=
  fun w => (Ok tt, set_dispatched ({[chat]} ∪ COMBO_DISPATCHED_CHATS w) w).

Definition handle_text_message (bot : Bot) (update : Update)
    (context : Context) : M unit :=
  match effective_message update with
  | None => ret tt
  | Some message =>
      let user := effective_user update in
      match effective_chat update with
      | None => ret tt
      | Some chat =>
          if match from_user message with
             | Some from => is_bot from
             | None => false
             end
          then ret tt
          else
            let is_private := String.eqb (chat_type chat) "private" in
            let chat_id_ := chat_id chat in
            (* a [Chat] always has an [id]: [chat_id is None] is false *)
            if negb is_private then ret tt
            else
              await data <- get_chat_data chat_id_;
              await known <- in_dispatched chat_id_;
              let already_dispatched := combo_dispatched data || known in
              if already_dispatched then ret tt
              else
                await_ set_combo_dispatched chat_id_;
                await_ add_dispatched chat_id_;
                let bcid := business_connection_id message in
                await_ (if truthy_str bcid then set_chat_bcid chat_id_ bcid
                        else ret tt);
                let job_queue := ctx_job_queue context in
                if negb job_queue then
                  await_ sleep AUTO_REPLY_DELAY_SECONDS;
                  await_ _safe_reply_text bot message
                           "Hi, sorry for the delay. I'll send everything."
                           None None;
                  ret tt
                else
                  run_once combo_delivery_beatriz_job AUTO_REPLY_DELAY_SECONDS
                    {| p_chat_id := Some (chat_id chat);
                       p_user_id := user_id <$> user;
                       p_business_connection_id := bcid;
                       p_attempt := None |}
                    ("auto_reply:beatriz:" +:+ pretty (chat_id chat) +:+ ":"
                       +:+ pretty (message_id message))
      end
  end.

Definition handle_chat_join_request (SETTINGS : Settings) (bot : Bot)
    (update : Update) (context : Context) : M unit :=
  match chat_join_request update with
  | None => ret tt
  | Some join_request =>
      let chat := jr_chat join_request in
      let chat_id_ := chat_id <$> chat in
      if negb (bool_decide (chat_id_ = Some (group_id SETTINGS))) then ret tt
      else
        try_except
          (await_ call bot (ApproveJoinRequest chat_id_
                              (user_id (jr_from_user join_request)));
           print (LogJoinApproved (user_id (jr_from_user join_request))))
          (fun exc => Some (print (LogJoinFailed exc)))
  end.

(** ** Start-up configuration *)

Section Config.

(** Python's [int(str)]: [None] is the [ValueError]. *)
Variable int : string -> option Z.

Definition _getenv (env : gmap string string) (name : string) : option string :=
  env !! name.

(** [x or ""] *)
Definition or_empty (x : option string) : string :=
  if truthy_str x then default "" x else "".

Definition join_comma (l : list string) : string :=
  String.concat ", " l.

Definition _load_settings (env : gmap string string) : Res Settings :=
  let token_ := or_empty (_getenv env "TELEGRAM_BOT_TOKEN") in
  let raw_group_id := or_empty (_getenv env "ID_DO_GRUPO") in
  let missing :=
    ((if negb (truthy_str (Some token_)) then ["TELEGRAM_BOT_TOKEN"] else [])
     ++ (if negb (truthy_str (Some raw_group_id)) then ["ID_DO_GRUPO"] else []))%list in
  match missing with
  | _ :: _ => Raise (RuntimeError ("Variáveis faltando: " +:+ join_comma missing))
  | [] =>
      match int raw_group_id with
      | None =>
          Raise (RuntimeError
                   "ID_DO_GRUPO deve ser numérico (ex.: -1001234567890).")
      | Some gid => Ok {| token := token_; group_id := gid |}
      end
  end.

Definition load_assets (env : gmap string string) : Assets :=
  {| BEATRIZ_COMBO_FOTO_1 := _getenv env "BEATRIZ_COMBO_FOTO_1";
     BEATRIZ_COMBO_FOTO_2 := _getenv env "BEATRIZ_COMBO_FOTO_2";
     BEATRIZ_COMBO_FOTO_3 := _getenv env "BEATRIZ_COMBO_FOTO_3";
     BEATRIZ_COMBO_FOTO_4 := _getenv env "BEATRIZ_COMBO_FOTO_4";
     BEATRIZ_COMBO_FOTO_5 := _getenv env "BEATRIZ_COMBO_FOTO_5";
     BEATRIZ_COMBO_FOTO_6 := _getenv env "BEATRIZ_COMBO_FOTO_6";
     BEATRIZ_COMBO_FOTO_7 := _getenv env "BEATRIZ_COMBO_FOTO_7";
     BEATRIZ_COMBO_FOTO_8 := _getenv env "BEATRIZ_COMBO_FOTO_8";
     BEATRIZ_COMBO_FOTO_9 := _getenv env "BEATRIZ_COMBO_FOTO_9";
     BEATRIZ_COMBO_FOTO_10 := _getenv env "BEATRIZ_COMBO_FOTO_10";
     BEATRIZ_COMBO_VIDEO_1 := _getenv env "BEATRIZ_COMBO_VIDEO_1";
     BEATRIZ_COMBO_VIDEO_2 := _getenv env "BEATRIZ_COMBO_VIDEO_2";
     BEATRIZ_COMBO_VIDEO_3 := _getenv env "BEATRIZ_COMBO_VIDEO_3";
     BEATRIZ_COMBO_VIDEO_4 := _getenv env "BEATRIZ_COMBO_VIDEO_4";
     AUDIO_ENTREGA_COMBO := _getenv env "AUDIO_ENTREGA_COMBO";
     AUDIO_POS_ENTREGA_COMBO := _getenv env "AUDIO_POS_ENTREGA_COMBO";
     AUDIO_OFERTANDO_UPSELL := _getenv env "AUDIO_OFERTANDO_UPSELL";
     VIDEO_PREVIA_VIP := _getenv env "VIDEO_PREVIA_VIP";
     AUDIO_REMARKETING_UPSELL := _getenv env "AUDIO_REMARKETING_UPSELL";
     AUDIO_REMARKETING_UPSELL_2 := _getenv env "AUDIO_REMARKETING_UPSELL_2" |}.

(** The module-level statements in their order: [SETTINGS], the empty
    [COMBO_DISPATCHED_CHATS], then the assets.  A [Raise] is the failed
    import, with which the process ends. *)
Definition load_module (env : gmap string string)
  : Res (Settings * Assets * World) :=
  match _load_settings env with
  | Raise exc => Raise exc
  | Ok settings => Ok (settings, load_assets env, empty_world)
  end.

End Config.

(** A stand-in for [int] in the examples: an optional sign, then ASCII
    digits.  Python's [int] takes more than that (blanks around the
    number, underscores between digits, digits outside ASCII); the
    theorems have [int] as a parameter and do not rest on this reading. *)
Definition digit_of (c : ascii) : option Z :=
  let n := nat_of_ascii c in
  if (Nat.leb 48 n && Nat.leb n 57)%bool then Some (Z.of_nat (n - 48)) else None.

Fixpoint digits_value (acc : Z) (s : string) : option Z :=
  match s with
  | EmptyString => Some acc
  | String c s' =>
      match digit_of c with
      | Some d => digits_value (10 * acc + d) s'
      | None => None
      end
  end.

Definition decimal_int (s : string) : option Z :=
  match s with
  | EmptyString => None
  | String "-"%char (String c s') => Z.opp <$> digits_value 0 (String c s')
  | String "+"%char (String c s') => digits_value 0 (String c s')
  | String "-"%char EmptyString | String "+"%char EmptyString => None
  | _ => digits_value 0 s
  end.

(** ** The scheduler's and the application's side *)

Section Engine.

Variable SETTINGS : Settings.
Variable ASSETS : Assets.

Definition run_callback (callback : Callback) : Bot -> Context -> M unit :=
  match callback with
  | combo_delivery_beatriz_job => _combo_delivery_beatriz_job SETTINGS ASSETS
  | upsell_sequence_job => _upsell_sequence_job SETTINGS ASSETS
  | group_check_job => _group_check_job SETTINGS ASSETS
  end.

(** One firing of job [i] by the job queue.  A job that was removed is
    not run any more.  A one-shot job is removed once it has run; a
    repeating job stays scheduled until its removal is requested, also
    when the callback raised: the queue reports the exception and goes
    on. *)
Definition fire (bot : Bot) (i : nat) (w : World) : World :=
  match jobs w !! i with
  | Some j =>
      if job_removed j then w
      else
        let w' := (run_callback (job_callback j) bot
                     {| ctx_job := Some i; ctx_job_queue := true |} w).2 in
        match job_trigger j with
        | RunOnce _ => set_jobs (alter with_removed i (jobs w')) w'
        | RunRepeating _ _ => w'
        end
  | None => w
  end.

(** [n] consecutive due times of the repeating job [i]. *)
Fixpoint fire_n (n : nat) (bot : Bot) (i : nat) (w : World) : World :=
  match n with
  | O => w
  | S n' => fire_n n' bot i (fire bot i w)
  end.

(** What the process reacts to: an inbound private-chat message, a
    join request, the due time of a job. *)
Inductive Event : Type :=
| Inbound (update : Update) (context : Context)
| JoinRequest (update : Update) (context : Context)
| Due (i : nat).

Definition step (bot : Bot) (event : Event) (w : World) : World :=
  match event with
  | Inbound update context => (handle_text_message bot update context w).2
  | JoinRequest update context =>
      (handle_chat_join_request SETTINGS bot update context w).2
  | Due i => fire bot i w
  end.

Fixpoint run_events (bot : Bot) (events : list Event) (w : World) : World :=
  match events with
  | [] => w
  | event :: rest => run_events bot rest (step bot event w)
  end.

(** The application handing the private-chat updates to
    [handle_text_message], one after the other; an exception of the
    handler is reported and the next update is processed. *)
Fixpoint process_updates (bot : Bot) (updates : list (Update * Context))
    (w : World) : World :=
  match updates with
  | [] => w
  | (update, context) :: rest =>
      process_updates bot rest (handle_text_message bot update context w).2
  end.

End Engine.

(** ** Observations on a world *)

Definition is_combo_job (j : Job) : bool :=
  match job_callback j with combo_delivery_beatriz_job => true | _ => false end.

(** How many combo delivery jobs the job queue was given for [chat]. *)
Definition combo_jobs_for (chat : Z) (w : World) : nat :=
  List.length
    (List.filter
       (fun j => is_combo_job j
                 && bool_decide (p_chat_id (job_data j) = Some chat))
       (jobs w)).

Definition is_membership_check (c : Call) : bool :=
  match c with GetChatMember _ _ => true | _ => false end.

(** How many membership queries were made. *)
Definition checks (w : World) : nat :=
  List.length (List.filter is_membership_check (trace w)).

(** Whether the conversation is marked in both places. *)
Definition dispatched_in_chat_data (chat : Z) (w : World) : bool :=
  combo_dispatched (default empty_chat_data (chat_data w !! chat)).

Definition dispatched_in_set (chat : Z) (w : World) : bool :=
  bool_decide (chat ∈ COMBO_DISPATCHED_CHATS w).

(** The five plain send helpers as one family, with the gateway call each
    one makes. *)
Inductive Send : Type :=
| Text (text : string) (parse_mode : option string)
    (reply_markup : option InlineKeyboardMarkup)
| Photo (photo : FileRef) (caption parse_mode : option string)
| Video (video : FileRef) (caption parse_mode : option string)
| Audio (audio : FileRef) (caption parse_mode : option string)
| MediaGroup (media : list InputMedia).

Definition safe_send (bot : Bot) (chat : Z) (user : option Z)
    (bcid : option string) (s : Send) : M (option Reply) :=
  match s with
  | Text text pm rm => _safe_send_message bot chat user text pm rm bcid
  | Photo photo cap pm => _safe_send_photo bot chat user photo cap pm bcid
  | Video video cap pm => _safe_send_video bot chat user video cap pm bcid
  | Audio audio cap pm => _safe_send_audio bot chat user audio cap pm bcid
  | MediaGroup media => _safe_send_media_group bot chat user media bcid
  end.

Definition gateway_call (chat : Z) (bcid : option string) (s : Send) : Call :=
  match s with
  | Text text pm rm => SendMessage chat text pm rm bcid
  | Photo photo cap pm => SendPhoto chat photo cap pm bcid
  | Video video cap pm => SendVideo chat video cap pm bcid
  | Audio audio cap pm => SendAudio chat audio cap pm bcid
  | MediaGroup media => SendMediaGroup chat media bcid
  end.

(** Two worlds that differ in the trace and the log only. *)
Definition same_store (w w' : World) : Prop :=
  jobs w' = jobs w /\ chat_data w' = chat_data w
  /\ COMBO_DISPATCHED_CHATS w' = COMBO_DISPATCHED_CHATS w.

(** A run of [n] slashes. *)
Fixpoint slashes (n : nat) : string :=
  match n with
  | O => EmptyString
  | S n' => String "/" (slashes n')
  end.

(** The reference of the retried voice send, written out: the address of
    Telegram's file endpoint for the token, a slash, and the path that
    [get_file] gave without its leading slashes. *)
Definition retry_reference (SETTINGS : Settings) (rest : string) : FileRef :=
  FileStr ("https://api.telegram.org/file/bot" +:+ token SETTINGS +:+ "/"
           +:+ rest).

(** The voice fallback chain as the specification words it.  [url_level]
    is level (b) after the calls [h]: the calls it makes and the reply of
    a delivered retry.  The path of the resolved file is [k] slashes
    followed by [rest], which begins with no slash. *)
Inductive url_level (SETTINGS : Settings) (bot : Bot) (h : list Call)
    (chat : Z) (voice : FileRef) (caption parse_mode bcid : option string)
  : list Call -> option Reply -> Prop :=
| url_skipped_bytes b :
    voice = FileBytes b ->
    url_level SETTINGS bot h chat voice caption parse_mode bcid [] None
| url_unresolved v exc :
    voice = FileStr v ->
    bot h (GetFile v) = Raise exc ->
    url_level SETTINGS bot h chat voice caption parse_mode bcid [GetFile v] None
| url_no_path v tg_file :
    voice = FileStr v ->
    bot h (GetFile v) = Ok tg_file ->
    truthy_str (get_file_path tg_file) = false ->
    url_level SETTINGS bot h chat voice caption parse_mode bcid [GetFile v] None
| url_retry_fails v tg_file k rest exc :
    voice = FileStr v ->
    bot h (GetFile v) = Ok tg_file ->
    get_file_path tg_file = Some (slashes k +:+ rest) ->
    slashes k +:+ rest <> "" ->
    String.prefix "/" rest = false ->
    bot (h ++ [GetFile v])
        (SendVoice chat (retry_reference SETTINGS rest) caption parse_mode bcid)
      = Raise exc ->
    url_level SETTINGS bot h chat voice caption parse_mode bcid
      [GetFile v;
       SendVoice chat (retry_reference SETTINGS rest) caption parse_mode bcid]
      None
| url_retry_delivers v tg_file k rest r :
    voice = FileStr v ->
    bot h (GetFile v) = Ok tg_file ->
    get_file_path tg_file = Some (slashes k +:+ rest) ->
    slashes k +:+ rest <> "" ->
    String.prefix "/" rest = false ->
    bot (h ++ [GetFile v])
        (SendVoice chat (retry_reference SETTINGS rest) caption parse_mode bcid)
      = Ok r ->
    url_level SETTINGS bot h chat voice caption parse_mode bcid
      [GetFile v;
       SendVoice chat (retry_reference SETTINGS rest) caption parse_mode bcid]
      (Some r).

(** The whole chain after the calls [h]: the calls made, in order, and
    what the helper hands back. *)
Inductive voice_chain (SETTINGS : Settings) (bot : Bot) (h : list Call)
    (chat : Z) (voice : FileRef) (caption parse_mode bcid : option string)
  : list Call -> Res (option Reply) -> Prop :=
| chain_native r :
    bot h (SendVoice chat voice caption parse_mode bcid) = Ok r ->
    voice_chain SETTINGS bot h chat voice caption parse_mode bcid
      [SendVoice chat voice caption parse_mode bcid] (Ok (Some r))
| chain_native_unclassified exc :
    bot h (SendVoice chat voice caption parse_mode bcid) = Raise exc ->
    is_Forbidden_or_BadRequest exc = false ->
    voice_chain SETTINGS bot h chat voice caption parse_mode bcid
      [SendVoice chat voice caption parse_mode bcid] (Raise exc)
| chain_url exc calls r :
    bot h (SendVoice chat voice caption parse_mode bcid) = Raise exc ->
    is_Forbidden_or_BadRequest exc = true ->
    url_level SETTINGS bot (h ++ [SendVoice chat voice caption parse_mode bcid])
      chat voice caption parse_mode bcid calls (Some r) ->
    voice_chain SETTINGS bot h chat voice caption parse_mode bcid
      (SendVoice chat voice caption parse_mode bcid :: calls) (Ok (Some r))
| chain_audio exc calls :
    bot h (SendVoice chat voice caption parse_mode bcid) = Raise exc ->
    is_Forbidden_or_BadRequest exc = true ->
    url_level SETTINGS bot (h ++ [SendVoice chat voice caption parse_mode bcid])
      chat voice caption parse_mode bcid calls None ->
    voice_chain SETTINGS bot h chat voice caption parse_mode bcid
      (SendVoice chat voice caption parse_mode bcid :: calls
         ++ [SendAudio chat voice caption parse_mode bcid])
      (match bot (h ++ SendVoice chat voice caption parse_mode bcid :: calls)
               (SendAudio chat voice caption parse_mode bcid) with
       | Ok r => Ok (Some r)
       | Raise exc2 =>
           if is_Forbidden_or_BadRequest exc2 then Ok None else Raise exc2
       end).

(** A computation all of whose gateway calls satisfy [P], and which
    leaves the job table and the dispatch state alone. *)
Definition emits {A : Type} (P : Call -> bool) (m : M A) : Prop :=
  forall w, exists calls,
    trace (m w).2 = trace w ++ calls
    /\ forallb P calls = true
    /\ same_store w (m w).2.

(** The calls of the voice chain. *)
Definition is_voice_chain_call (c : Call) : bool :=
  match c with
  | SendVoice _ _ _ _ _ | GetFile _ | SendAudio _ _ _ _ _ => true
  | _ => false
  end.

(** Whether the removal of job [i] was requested, and its attempt
    counter. *)
Definition removed (i : nat) (w : World) : bool :=
  match jobs w !! i with
  | Some j => job_removed j
  | None => false
  end.

Definition attempt_of (i : nat) (w : World) : option Z :=
  match jobs w !! i with
  | Some j => p_attempt (job_data j)
  | None => None
  end.

(** The payload of a polling job after an invocation counted itself. *)
Definition counted (data : Payload) : Payload :=
  {| p_chat_id := p_chat_id data; p_user_id := p_user_id data;
     p_business_connection_id := p_business_connection_id data;
     p_attempt := Some (default 0 (p_attempt data) + 1) |}.

(** The world of a polling invocation of job [j], at place [i], once it
    has counted itself and put its membership query for [user]. *)
Definition after_query (SETTINGS : Settings) (i : nat) (j : Job) (user : Z)
    (w : World) : World :=
  set_trace (trace w ++ [GetChatMember (group_id SETTINGS) user])
    (set_jobs (alter (with_data (counted (job_data j))) i (jobs w)) w).

(** Whether the next invocation of the polling job [i] settles the loop
    once the attempts are used up: its membership query does not end in
    [Forbidden] and, when it finds a member, the approval text does not
    raise past its helper. *)
Definition conclusive (SETTINGS : Settings) (bot : Bot) (i : nat) (w : World)
  : bool :=
  match jobs w !! i with
  | Some j =>
      match if_truthy (p_chat_id (job_data j)),
            if_truthy (p_user_id (job_data j)) with
      | Some chat, Some user =>
          let query := GetChatMember (group_id SETTINGS) user in
          match bot (trace w) query with
          | Raise exc => negb (is_Forbidden exc)
          | Ok member =>
              if status_is_member (get_status member) || get_is_member member
              then
                match bot (trace w ++ [query])
                        (SendMessage chat GROUP_APPROVED_MESSAGE None None
                           (p_business_connection_id (job_data j))) with
                | Ok _ => true
                | Raise exc => is_Forbidden_or_BadRequest exc
                end
              else true
          end
      | _, _ => true
      end
  | None => true
  end.

(** Job [i] is a membership polling job for [chat] and [user]. *)
Definition polling (i : nat) (chat user : Z) (w : World) : Prop :=
  exists j,
    jobs w !! i = Some j
    /\ job_callback j = group_check_job
    /\ job_trigger j = RunRepeating GROUP_CHECK_INTERVAL_SECONDS
                         GROUP_CHECK_INTERVAL_SECONDS
    /\ if_truthy (p_chat_id (job_data j)) = Some chat
    /\ if_truthy (p_user_id (job_data j)) = Some user.

(** ** Concrete worlds and gateways for the examples *)

Definition demo_settings : Settings :=
  {| token := "123:abc"; group_id := -1001234567890 |}.

(** No content asset configured. *)
Definition no_assets : Assets := load_assets ∅.

(** The polling job of chat 5 and user 7, as the upsell job schedules
    it, alone in the job table. *)
Definition polling_job : Job :=
  {| job_callback := group_check_job;
     job_trigger := RunRepeating GROUP_CHECK_INTERVAL_SECONDS
                      GROUP_CHECK_INTERVAL_SECONDS;
     job_name := "group_check:5";
     job_data := {| p_chat_id := Some 5; p_user_id := Some 7;
                    p_business_connection_id := None;
                    p_attempt := Some 0 |};
     job_removed := false |}.

Definition polling_world : World := set_jobs [polling_job] empty_world.

(** A gateway on which every send succeeds and the user has left the
    group. *)
Definition bot_not_member : Bot :=
  fun _ c =>
    match c with
    | GetChatMember _ _ => Ok (RChatMember (Some "left") false)
    | _ => Ok (RMessage 1)
    end.

(** The same, but from the fifth membership query on the bot is no longer
    allowed to look into the group. *)
Definition bot_then_forbidden : Bot :=
  fun h c =>
    match c with
    | GetChatMember _ _ =>
        if (4 <=? List.length (List.filter is_membership_check h))%nat
        then Raise (Forbidden "Forbidden: bot was kicked from the supergroup chat")
        else Ok (RChatMember (Some "left") false)
    | _ => Ok (RMessage 1)
    end.

(** A gateway that may not look into the group at all. *)
Definition bot_forbidden : Bot :=
  fun _ c =>
    match c with
    | GetChatMember _ _ =>
        Raise (Forbidden "Forbidden: bot is not a member of the supergroup chat")
    | _ => Ok (RMessage 1)
    end.






(** The polling job the upsell job schedules. *)
Definition polling_job_for (chat : Z) (user : option Z) (bcid : option string)
  : Job :=
  {| job_callback := group_check_job;
     job_trigger := RunRepeating GROUP_CHECK_INTERVAL_SECONDS
                      GROUP_CHECK_INTERVAL_SECONDS;
     job_name := "group_check:" +:+ pretty chat;
     job_data := {| p_chat_id := Some chat; p_user_id := user;
                    p_business_connection_id := bcid;
                    p_attempt := Some 0 |};
     job_removed := false |}.



(** The combo delivery job of chat 5, as the message handler schedules
    it. *)
Definition combo_job : Job :=
  {| job_callback := combo_delivery_beatriz_job;
     job_trigger := RunOnce AUTO_REPLY_DELAY_SECONDS;
     job_name := "auto_reply:beatriz:5:1";
     job_data := {| p_chat_id := Some 5; p_user_id := Some 7;
                    p_business_connection_id := None; p_attempt := None |};
     job_removed := false |}.

Definition combo_world : World := set_jobs [combo_job] empty_world.

(** Three photos and one video configured, with gaps. *)
Definition some_assets : Assets :=
  load_assets
    {[ "BEATRIZ_COMBO_FOTO_2" := "photo-b"; "BEATRIZ_COMBO_FOTO_5" := "photo-e";
       "BEATRIZ_COMBO_FOTO_9" := "photo-i"; "BEATRIZ_COMBO_FOTO_10" := "";
       "BEATRIZ_COMBO_VIDEO_3" := "video-c" ]}.

(** The calls of the photo step and of the video step, by the configured
    assets. *)
Definition photo_calls (ASSETS : Assets) (chat : Z) (bcid : option string)
  : list Call :=
  match configured (photos_ids ASSETS) with
  | [] => []
  | [photo] => [SendPhoto chat (FileStr photo) None None bcid]
  | photos => [SendMediaGroup chat (InputMediaPhoto <$> photos) bcid]
  end.

Definition video_calls (ASSETS : Assets) (chat : Z) (bcid : option string)
  : list Call :=
  match configured (videos_ids ASSETS) with
  | [] => []
  | [video] => [SendVideo chat (FileStr video) None None bcid]
  | videos => [SendMediaGroup chat (InputMediaVideo <$> videos) bcid]
  end.

(** The file path of a resolved file as the gateway library hands it
    back: the whole download address already. *)
Definition resolved_file_path : string :=
  "https://api.telegram.org/file/bot123:abc/voice/file_7.oga".

(** A gateway that takes a voice only by its download address: a voice
    send with any other reference is a [BadRequest]; [get_file] resolves
    every handle to [resolved_file_path]; every other call succeeds. *)
Definition bot_voice_by_url : Bot :=
  fun _ c =>
    match c with
    | SendVoice _ (FileStr s) _ _ _ =>
        if String.eqb s resolved_file_path then Ok (RMessage 2)
        else Raise (BadRequest "Bad Request: wrong file identifier/HTTP URL specified")
    | SendVoice _ (FileBytes _) _ _ _ =>
        Raise (BadRequest "Bad Request: VOICE_MESSAGES_FORBIDDEN")
    | GetFile _ => Ok (RFile (Some resolved_file_path))
    | _ => Ok (RMessage 1)
    end.

(** The claim's words: a membership result counts as member when its
    status is one of member, administrator, creator, or its [is_member]
    flag is set. *)
Definition counts_as_member (result : Reply) : Prop :=
  exists status flag,
    result = RChatMember status flag
    /\ (status = Some "member" \/ status = Some "administrator"
        \/ status = Some "creator" \/ flag = true).

(** A gateway on which every send succeeds and the user is the creator of
    the group. *)
Definition bot_creator : Bot :=
  fun _ c =>
    match c with
    | GetChatMember _ _ => Ok (RChatMember (Some "creator") false)
    | _ => Ok (RMessage 1)
    end.




(** An inbound private-chat message of the conversation [chat] from a
    sender that is no bot. *)
Definition is_private_message_of (chat : Z) (update : Update) : bool :=
  match effective_message update, effective_chat update with
  | Some message, Some c =>
      negb (match from_user message with
            | Some from => is_bot from
            | None => false
            end)
      && String.eqb (chat_type c) "private"
      && Z.eqb (chat_id c) chat
  | _, _ => false
  end.

(** The combo delivery job the handler schedules for an update. *)
Definition combo_job_for (update : Update) : list Job :=
  match effective_message update, effective_chat update with
  | Some message, Some c =>
      [{| job_callback := combo_delivery_beatriz_job;
          job_trigger := RunOnce AUTO_REPLY_DELAY_SECONDS;
          job_name := "auto_reply:beatriz:" +:+ pretty (chat_id c) +:+ ":"
                        +:+ pretty (message_id message);
          job_data := {| p_chat_id := Some (chat_id c);
                         p_user_id := user_id <$> effective_user update;
                         p_business_connection_id :=
                           business_connection_id message;
                         p_attempt := None |};
          job_removed := false |}]
  | _, _ => []
  end.

(** The marking of an admitted conversation (source lines 659-666). *)
Definition mark_dispatched (chat : Z) (bcid : option string) : M unit :=
  await_ set_combo_dispatched chat;
  await_ add_dispatched chat;
  if truthy_str bcid then set_chat_bcid chat bcid else ret tt.

(** A first message of chat 5, from user 7. *)
Definition hello : Update :=
  let chat := {| chat_id := 5; chat_type := "private" |} in
  let user := {| user_id := 7; is_bot := false |} in
  {| effective_message :=
       Some {| message_id := 1; msg_chat := Some chat; from_user := Some user;
               business_connection_id := None; msg_has_bot := true |};
     effective_chat := Some chat;
     effective_user := Some user;
     chat_join_request := None |}.

Definition with_queue : Context := {| ctx_job := None; ctx_job_queue := true |}.
Definition without_queue : Context := {| ctx_job := None; ctx_job_queue := false |}.

(** An environment variable that is not set, or set to nothing. *)
Definition absent (v : option string) : Prop := v = None \/ v = Some "".

(** A gateway whose user has blocked the bot. *)
Definition bot_blocked : Bot :=
  fun _ _ => Raise (Forbidden "Forbidden: bot was blocked by the user").

(** The apology of the handler when there is no job queue, and the direct
    send that replaces the reply when the reply met a [TypeError]. *)
Definition apology : string := "Hi, sorry for the delay. I'll send everything.".

Definition reply_fallback (bot : Bot) (h : list Call) (message : Message)
    (text : string) : list Call :=
  match bot h (ReplyText (message_id message) text None None
                 (business_connection_id message)) with
  | Raise exc =>
      if is_TypeError exc then
        match msg_has_bot message, chat_id <$> msg_chat message with
        | true, Some c =>
            [SendMessage c text None None (business_connection_id message)]
        | _, _ => []
        end
      else []
  | Ok _ => []
  end.

(** What the dispatch guard rests on, for one conversation: its combo
    delivery jobs, the per-chat data and the global set. *)
Definition marks (chat : Z) (w : World)
  : nat * gmap Z ChatData * gset Z :=
  (combo_jobs_for chat w, chat_data w, COMBO_DISPATCHED_CHATS w).

(** A computation that leaves an observation of the world as it is. *)
Definition preserves {A X : Type} (obs : World -> X) (m : M A) : Prop :=
  forall w, obs (m w).2 = obs w.

(** ** Further code: the start-up transport, the attachment handler, the
    webhook endpoint *)

(** [a or b] on optional strings *)
Definition or_str (a b : option string) : option string :=
  if truthy_str a then a else b.

(** [s.lstrip(chars)] and [s.rstrip(chars)], for the characters that
    satisfy [p]. *)
Fixpoint lstrip_with (p : ascii -> bool) (s : string) : string :=
  match s with
  | EmptyString => EmptyString
  | String c s' => if p c then lstrip_with p s' else s
  end.

Fixpoint rstrip_with (p : ascii -> bool) (s : string) : string :=
  match s with
  | EmptyString => EmptyString
  | String c s' =>
      match rstrip_with p s' with
      | EmptyString => if p c then EmptyString else String c EmptyString
      | r => String c r
      end
  end.

Definition is_slash (c : ascii) : bool := Ascii.eqb c "/".

(** The ASCII characters Python counts as whitespace: tab to carriage
    return, the four separators, the space. *)
Definition is_space (c : ascii) : bool :=
  let n := nat_of_ascii c in
  (Nat.leb 9 n && Nat.leb n 13) || (Nat.leb 28 n && Nat.leb n 32).

(** [s.strip()] on the ASCII whitespace; other bytes are kept. *)
Definition strip (s : string) : string :=
  lstrip_with is_space (rstrip_with is_space s).

(** The base of the webhook URL as [main] settles it (source lines
    795-802), from [TELEGRAM_WEBHOOK_URL] or else from the Railway
    domain. *)
Definition webhook_base (env : gmap string string) : option string :=
  let webhook_base := env !! "TELEGRAM_WEBHOOK_URL" in
  if negb (truthy_str webhook_base) then
    let rw_domain := or_str (env !! "RAILWAY_PUBLIC_DOMAIN")
                       (env !! "RAILWAY_URL") in
    if truthy_str rw_domain then
      if negb (String.prefix "http" (default "" rw_domain))
      then Some ("https://" +:+ default "" rw_domain)
      else rw_domain
    else webhook_base
  else webhook_base.

(** [os.getenv("TELEGRAM_WEBHOOK_PATH", "/telegram/webhook")], in
    [_build_web_app] and in [main]. *)
Definition webhook_path (env : gmap string string) : string :=
  default "/telegram/webhook" (env !! "TELEGRAM_WEBHOOK_PATH").

(** The handlers [_build_application] registers, in its order:
    [BusinessConnectionHandler(business_connection_handler)],
    [ChatJoinRequestHandler(handle_chat_join_request)],
    [MessageHandler(filters.ChatType.PRIVATE, handle_text_message)],
    [MessageHandler(filters.ATTACHMENT, handle_attachment)]. *)
Inductive Handler : Type :=
| BusinessConnectionHandler
| ChatJoinRequestHandler
| PrivateMessageHandler
| AttachmentHandler.

(** The library calls of [_build_application], [_build_web_app] and
    [main].  [SetWebhook], [DeleteWebhook] and [StartPolling] are made
    with [allowed_updates=Update.ALL_TYPES] and
    [drop_pending_updates=True]; [SleepLoop] is
    [while True: await asyncio.sleep(3600)]. *)
Inductive Setup : Type :=
| ApplicationBuild (token : string)
| AddHandler (handler : Handler)
| WebApplication
| AddGet (path : string)
| AddPost (path : string)
| AppRunner
| RunnerSetup
| TCPSite (host : string) (port : Z)
| SiteStart
| Initialize
| SetWebhook (url : string)
| DeleteWebhook
| Start
| StartPolling
| SleepLoop
| UpdaterStop
| Stop
| Shutdown
| RunnerCleanup.

(** What ends a coroutine early: [asyncio.CancelledError], which no
    [except Exception] catches, or an [Exception]. *)
Inductive Raised : Type :=
| CancelledError
| Exception (exc : exn).

(** The libraries behind [main]: what each call raises, if anything,
    given the calls made before it; what ends the sleep loop, which does
    not return by itself (a run in which nothing ever ends it is not
    described); whether the application has an updater. *)
Record Library := {
  answers : list Setup -> Setup -> option Raised;
  loop_ends : list Setup -> Raised;
  updater : bool
}.

Inductive Outcome (A : Type) : Type :=
| Done (a : A)
| Stopped (r : Raised).

Arguments Done {A} a.
Arguments Stopped {A} r.

(** Start-up code: the calls made so far are threaded through. *)
Definition L (A : Type) : Type := list Setup -> Outcome A * list Setup.

Definition l_ret {A} (a : A) : L A := fun h => (Done a, h).

Definition l_raise {A} (r : Raised) : L A := fun h => (Stopped r, h).

Definition l_bind {A B} (m : L A) (k : A -> L B) : L B :=
  fun h =>
    match m h with
    | (Done a, h') => k a h'
    | (Stopped r, h') => (Stopped r, h')
    end.

Definition perform (lib : Library) (c : Setup) : L unit :=
  fun h =>
    match answers lib h c with
    | None => (Done tt, h ++ [c])
    | Some r => (Stopped r, h ++ [c])
    end.

(** Calls made one after the other. *)
Fixpoint perform_all (lib : Library) (cs : list Setup) : L unit :=
  match cs with
  | [] => l_ret tt
  | c :: cs' => l_bind (perform lib c) (fun _ => perform_all lib cs')
  end.

(** [try: m except Exception: pass] *)
Definition except_Exception_pass (m : L unit) : L unit :=
  fun h =>
    match m h with
    | (Stopped (Exception _), h') => (Done tt, h')
    | other => other
    end.

(** [try: m except asyncio.CancelledError: pass] *)
Definition except_CancelledError_pass (m : L unit) : L unit :=
  fun h =>
    match m h with
    | (Stopped CancelledError, h') => (Done tt, h')
    | other => other
    end.

(** [try: body finally: cleanup] *)
Definition finally (body cleanup : L unit) : L unit :=
  fun h =>
    match body h with
    | (Done _, h') => cleanup h'
    | (Stopped r, h') =>
        match cleanup h' with
        | (Done _, h'') => (Stopped r, h'')
        | (Stopped r', h'') => (Stopped r', h'')
        end
    end.

Definition sleep_loop (lib : Library) : L unit :=
  fun h => (Stopped (loop_ends lib h), h ++ [SleepLoop]).

Definition _build_application (SETTINGS : Settings) (lib : Library) : L unit :=
  perform_all lib
    [ ApplicationBuild (token SETTINGS);
      AddHandler BusinessConnectionHandler;
      AddHandler ChatJoinRequestHandler;
      AddHandler PrivateMessageHandler;
      AddHandler AttachmentHandler ].

Definition _build_web_app (env : gmap string string) (lib : Library) : L unit :=
  perform_all lib
    [ WebApplication; AddGet "/healthz"; AddPost (webhook_path env) ].

(** [main].  [int] is Python's [int(str)], [None] its [ValueError]. *)
Definition main (int : string -> option Z) (env : gmap string string)
    (SETTINGS : Settings) (lib : Library) : L unit :=
  match int (default "8080" (env !! "PORT")) with
  | None => l_raise (Exception (OtherError "ValueError"))
  | Some port =>
      l_bind (_build_application SETTINGS lib) (fun _ =>
      l_bind (_build_web_app env lib) (fun _ =>
      l_bind (perform_all lib
                [ AppRunner; RunnerSetup; TCPSite "0.0.0.0" port; SiteStart;
                  Initialize ]) (fun _ =>
      let webhook_base := webhook_base env in
      let webhook_path := webhook_path env in
      finally
        (if truthy_str webhook_base then
           let full_webhook_url :=
             rstrip_with is_slash (default "" webhook_base) +:+ webhook_path in
           l_bind (perform lib (SetWebhook full_webhook_url)) (fun _ =>
           l_bind (perform lib Start) (fun _ =>
           except_CancelledError_pass (sleep_loop lib)))
         else
           l_bind (except_Exception_pass (perform lib DeleteWebhook)) (fun _ =>
           l_bind (perform lib Start) (fun _ =>
           except_CancelledError_pass
             (l_bind (if updater lib then perform lib StartPolling
                      else l_raise (Exception (OtherError "AttributeError")))
                     (fun _ => sleep_loop lib)))))
        (l_bind (except_Exception_pass
                   (if updater lib then perform lib UpdaterStop else l_ret tt))
                (fun _ =>
         l_bind (except_Exception_pass (perform lib Stop)) (fun _ =>
         l_bind (except_Exception_pass (perform lib Shutdown)) (fun _ =>
         except_Exception_pass (perform lib RunnerCleanup))))))))
  end.

(** The attributes of a message that [handle_attachment] reads, beside the
    message itself: the file ids of what is attached ([photo]: one per
    size, smallest first). *)
Record AttachmentMessage := {
  base_message : Message;
  caption : option string;
  text : option string;
  document : option string;
  photo : list string;
  video : option string;
  audio : option string;
  voice : option string;
  animation : option string
}.

(** [[label + file_id] if attachment else []] *)
Definition reply_line (label : string) (file_id : option string) : list string :=
  match file_id with
  | Some f => [label +:+ f]
  | None => []
  end.

Definition attachment_replies (message : AttachmentMessage) : list string :=
  reply_line "Documento: " (document message)
  ++ reply_line "Foto: " (last (photo message))
  ++ reply_line "Vídeo: " (video message)
  ++ reply_line "Áudio: " (audio message)
  ++ reply_line "Voice: " (voice message)
  ++ reply_line "GIF: " (animation message).

Definition trigger_text (message : AttachmentMessage) : string :=
  lower (strip (default "" (or_str (or_str (caption message) (text message))
                              (Some "")))).

(** [handle_attachment], on [update.effective_message]. *)
Definition handle_attachment (bot : Bot) (message : option AttachmentMessage)
  : M unit :=
  match message with
  | None => ret tt
  | Some message =>
      if negb (contains "file_id" (trigger_text message)) then ret tt
      else
        let replies := attachment_replies message in
        match replies with
        | [] => ret tt
        | _ :: _ =>
            await_ _safe_reply_text bot (base_message message)
                     (String.concat nl replies) None None;
            ret tt
        end
  end.

(** The answer of the webhook endpoint. *)
Inductive WebResponse : Type :=
| json_response (ok : bool) (error : option string) (status : Z).

Section Endpoint.

(** The parsed body of a request and the update object made of it; the
    two parsers may raise. *)
Variables Json Upd : Type.
Variable de_json : Json -> Res Upd.

(** [_telegram_update_handler]: [body] is the outcome of [request.json()],
    [queue] the application's update queue. *)
Definition _telegram_update_handler (body : Res Json) (queue : list Upd)
  : WebResponse * list Upd :=
  match body with
  | Raise _ => (json_response false (Some "invalid_json") 400, queue)
  | Ok data =>
      match de_json data with
      | Raise _ => (json_response false (Some "invalid_update") 400, queue)
      | Ok update => (json_response true None 200, queue ++ [update])
      end
  end.

(** The endpoint handling requests one after the other, in the order in
    which their handlers run. *)
Fixpoint serve (bodies : list (Res Json)) (queue : list Upd)
  : list WebResponse * list Upd :=
  match bodies with
  | [] => ([], queue)
  | body :: rest =>
      let (response, queue') := _telegram_update_handler body queue in
      let (responses, queue'') := serve rest queue' in
      (response :: responses, queue'')
  end.

(** The update a body gives, if it is accepted. *)
Definition accepted (body : Res Json) : option Upd :=
  match body with
  | Ok data => match de_json data with Ok update => Some update | Raise _ => None end
  | Raise _ => None
  end.

(** The answer the endpoint gives to a body. *)
Definition answer_of (body : Res Json) : WebResponse :=
  match body with
  | Raise _ => json_response false (Some "invalid_json") 400
  | Ok data =>
      match de_json data with
      | Raise _ => json_response false (Some "invalid_update") 400
      | Ok _ => json_response true None 200
      end
  end.

End Endpoint.

(** ** Further observations *)

(** [needle] occurs in [hay]. *)
Definition infix_of (needle hay : string) : Prop :=
  exists before after : string, hay = before +:+ needle +:+ after.

Definition blocking_words : list string :=
  ["blocked"; "deactivated"; "chat not found"].

(** The upsell job the combo delivery schedules. *)
Definition upsell_job_for (chat : Z) (user : option Z) (bcid : option string)
  : Job :=
  {| job_callback := upsell_sequence_job;
     job_trigger := RunOnce VIP_OFFER_DELAY_SECONDS;
     job_name := "upsell:beatriz:" +:+ pretty chat;
     job_data := {| p_chat_id := Some chat; p_user_id := user;
                    p_business_connection_id := bcid; p_attempt := None |};
     job_removed := false |}.

(** The discount text of the remarketing, and how often it is in the
    trace. *)
Definition remarketing_text : string :=
  "Okay babe, I've already applied the discount for you 😘" +:+ nl +:+
  "Take advantage now, because I'll delete this message later, just click here 👇".

Definition is_remarketing_text (c : Call) : bool :=
  match c with
  | SendMessage _ t _ _ _ => String.eqb t remarketing_text
  | _ => false
  end.

(** How many calls of the trace satisfy [q]. *)
Definition count_calls (q : Call -> bool) (w : World) : nat :=
  List.length (List.filter q (trace w)).

Definition remarketing_texts (w : World) : nat :=
  count_calls is_remarketing_text w.

(** The two messages that close a polling loop: the approval text and the
    discount text of the remarketing. *)
Definition is_verdict (c : Call) : bool :=
  match c with
  | SendMessage _ t _ _ _ =>
      String.eqb t GROUP_APPROVED_MESSAGE || String.eqb t remarketing_text
  | _ => false
  end.

Definition verdicts (w : World) : nat := count_calls is_verdict w.

(** A gateway all of whose failures are [Forbidden] or [BadRequest]. *)
Definition classifiable_failures (bot : Bot) : Prop :=
  forall h c exc, bot h c = Raise exc -> is_Forbidden_or_BadRequest exc = true.

(** A computation that raises in no world. *)
Definition returns {A : Type} (m : M A) : Prop :=
  forall w, exists a, (m w).1 = Ok a.

(** The payload a job callback reads: that of [context.job], or the empty
    dictionary when there is no job. *)
Definition payload_of (context : Context) (w : World) : Payload :=
  match ctx_job context with
  | Some i =>
      match jobs w !! i with
      | Some j => job_data j
      | None => empty_payload
      end
  | None => empty_payload
  end.

(** A message of a group chat. *)
Definition group_message : Update :=
  let chat := {| chat_id := -1001234567890; chat_type := "supergroup" |} in
  let user := {| user_id := 7; is_bot := false |} in
  {| effective_message :=
       Some {| message_id := 9; msg_chat := Some chat; from_user := Some user;
               business_connection_id := None; msg_has_bot := true |};
     effective_chat := Some chat;
     effective_user := Some user;
     chat_join_request := None |}.

(** Whether all characters of a string satisfy a test. *)
Fixpoint all_chars (p : ascii -> bool) (s : string) : bool :=
  match s with
  | EmptyString => true
  | String c s' => p c && all_chars p s'
  end.

(** A text of ASCII characters only. *)
Definition is_ascii (s : string) : bool :=
  all_chars (fun c => Nat.ltb (nat_of_ascii c) 128) s.

(** The last character of a string, if any. *)
Fixpoint last_char (s : string) : option ascii :=
  match s with
  | EmptyString => None
  | String c EmptyString => Some c
  | String _ s' => last_char s'
  end.

(** The discount message of the remarketing. *)
Definition remarketing_call (chat : Z) (bcid : option string) : Call :=
  SendMessage chat remarketing_text None
    (Some [[InlineKeyboardButton "I WANT THIS 🔥" EU_QUERO_LINK]]) bcid.

(** Both remarketing clips configured, nothing else. *)
Definition remarketing_assets : Assets :=
  load_assets
    {[ "AUDIO_REMARKETING_UPSELL" := "clip-1";
       "AUDIO_REMARKETING_UPSELL_2" := "clip-2" ]}.

(** A photo sent to a group with the caption that asks for its id. *)
Definition photo_with_caption : AttachmentMessage :=
  {| base_message :=
       {| message_id := 9;
          msg_chat := Some {| chat_id := -1001234567890;
                              chat_type := "supergroup" |};
          from_user := Some {| user_id := 7; is_bot := false |};
          business_connection_id := None; msg_has_bot := true |};
     caption := Some "  File_ID please ";
     text := None;
     document := None;
     photo := ["small-id"; "large-id"];
     video := None; audio := None; voice := None; animation := None |}.

(** The Railway domain with its scheme (source lines 799-802). *)
Definition with_scheme (rw_domain : string) : string :=
  if negb (String.prefix "http" rw_domain)
  then "https://" +:+ rw_domain
  else rw_domain.

(** A variable set to something: its value when it is set and not
    empty. *)
Definition set_to (v : option string) : option string :=
  match v with
  | Some (String c s) => Some (String c s)
  | _ => None
  end.

(** The base of the webhook in words: [TELEGRAM_WEBHOOK_URL] as it is
    when set to something; else [RAILWAY_PUBLIC_DOMAIN], else
    [RAILWAY_URL], with its scheme; else none. *)
Definition chosen_base (env : gmap string string) : option string :=
  match set_to (env !! "TELEGRAM_WEBHOOK_URL") with
  | Some url => Some url
  | None =>
      match set_to (env !! "RAILWAY_PUBLIC_DOMAIN") with
      | Some domain => Some (with_scheme domain)
      | None =>
          match set_to (env !! "RAILWAY_URL") with
          | Some domain => Some (with_scheme domain)
          | None => None
          end
      end
  end.

(** The calls of the start-up up to the choice of the transport, in
    their order. *)
Definition startup_calls (SETTINGS : Settings) (env : gmap string string)
    (port : Z) : list Setup :=
  [ ApplicationBuild (token SETTINGS);
    AddHandler BusinessConnectionHandler;
    AddHandler ChatJoinRequestHandler;
    AddHandler PrivateMessageHandler;
    AddHandler AttachmentHandler;
    WebApplication; AddGet "/healthz"; AddPost (webhook_path env);
    AppRunner; RunnerSetup; TCPSite "0.0.0.0" port; SiteStart; Initialize ].

(** The call that settles the transport, and the calls that may not
    follow it. *)
Definition registration (env : gmap string string) : Setup :=
  match chosen_base env with
  | Some base => SetWebhook (rstrip_with is_slash base +:+ webhook_path env)
  | None => DeleteWebhook
  end.

Definition is_registration (c : Setup) : bool :=
  match c with
  | SetWebhook _ | DeleteWebhook => true
  | _ => false
  end.

Definition is_start_polling (c : Setup) : bool :=
  match c with StartPolling => true | _ => false end.

(** * Verification *)

(** ** The monad *)

Ltac unfold_monad :=
  unfold bind, ret, raise, try_except, call, sleep, print, except_blocking,
    _handle_blocking_exception in *; cbn [fst snd] in *.

Lemma same_store_refl w : same_store w w.
Proof. by repeat split. Qed.

Lemma same_store_trans w1 w2 w3 :
  same_store w1 w2 -> same_store w2 w3 -> same_store w1 w3.
Proof.
  intros (Hj & Hc & Hd) (Hj' & Hc' & Hd').
  repeat split; congruence.
Qed.

(** ** C6: classifiable delivery failures are swallowed *)

(** C6.  Whenever the gateway answers the call of a send helper (text,
    photo, video, audio, media group) with [Forbidden] or [BadRequest],
    the helper hands back [None] and raises nothing; the call is in the
    trace, the job table and the dispatch state are as before, and any
    continuation of the surrounding stage runs next, on [None]. *)
Theorem safe_send_swallows_classifiable_failure
    (bot : Bot) (w : World) (chat : Z) (user : option Z)
    (bcid : option string) (s : Send) (exc : exn) :
  is_Forbidden_or_BadRequest exc = true ->
  bot (trace w) (gateway_call chat bcid s) = Raise exc ->
  exists w',
    safe_send bot chat user bcid s w = (Ok None, w')
    /\ trace w' = trace w ++ [gateway_call chat bcid s]
    /\ same_store w w'
    /\ forall (B : Type) (k : option Reply -> M B),
         bind (safe_send bot chat user bcid s) k w = k None w'.
Proof.
  intros Hexc Hbot.
  destruct s; cbn [safe_send gateway_call] in *;
    unfold _safe_send_message, _safe_send_photo, _safe_send_video,
      _safe_send_audio, _safe_send_media_group;
    unfold_monad; rewrite Hbot, Hexc;
    destruct (existsb _ _); eexists; (split; [reflexivity|]);
    (split; [reflexivity|]); (split; [apply same_store_refl || by repeat split|]);
    intros B k; reflexivity.
Qed.

(** A photo for a user who blocked the bot: the helper hands back
    [None], and the call is in the trace. *)
Lemma safe_send_swallows_classifiable_failure_witness :
  exists w',
    _safe_send_photo bot_blocked 5 (Some 7) (FileStr "photo-b") None None None
      empty_world = (Ok None, w')
    /\ trace w' = [SendPhoto 5 (FileStr "photo-b") None None None].
Proof.
  destruct (safe_send_swallows_classifiable_failure bot_blocked empty_world 5
              (Some 7) None (Photo (FileStr "photo-b") None None)
              (Forbidden "Forbidden: bot was blocked by the user")
              eq_refl eq_refl) as (w' & Hrun & Htrace & _).
  exists w'. split; [exact Hrun | exact Htrace].
Defined.

(** ** C5: the voice fallback chain *)

Lemma lstrip_slash_slashes (k : nat) (rest : string) :
  String.prefix "/" rest = false ->
  lstrip_slash (slashes k +:+ rest) = rest.
Proof.
  intros Hrest. induction k as [|k IH]; [|exact IH].
  cbn. destruct rest as [|c rest]; [done|].
  destruct c as [[] [] [] [] [] [] [] []]; try reflexivity.
  destruct rest; discriminate.
Qed.

(** Every path is some slashes followed by a rest that begins with no
    slash. *)
Lemma slashes_split (path : string) :
  exists k rest,
    path = slashes k +:+ rest /\ String.prefix "/" rest = false.
Proof.
  induction path as [|c path (k & rest & Hpath & Hrest)]; [by exists 0%nat, ""|].
  destruct (Ascii.ascii_dec c "/") as [->|Hc].
  - exists (S k), rest. split; [|done]. by subst path.
  - exists 0%nat, (String c path). split; [done|].
    change (String.prefix "/" (String c path))
      with (if Ascii.ascii_dec "/" c then String.prefix "" path else false).
    by destruct (Ascii.ascii_dec "/" c) as [<-|_].
Qed.

Lemma file_url_retry_reference (SETTINGS : Settings) (k : nat) (rest : string) :
  String.prefix "/" rest = false ->
  FileStr (file_url SETTINGS (slashes k +:+ rest))
  = retry_reference SETTINGS rest.
Proof.
  intros Hrest. unfold file_url, retry_reference.
  by rewrite lstrip_slash_slashes.
Qed.

Lemma url_level_run (SETTINGS : Settings) (bot : Bot) (w : World) (chat : Z)
    (voice : FileRef) (caption parse_mode bcid : option string) :
  exists calls retried w',
    voice_url_retry SETTINGS bot chat voice caption parse_mode bcid w
      = (Ok retried, w')
    /\ trace w' = trace w ++ calls
    /\ log w' = log w
    /\ same_store w w'
    /\ url_level SETTINGS bot (trace w) chat voice caption parse_mode bcid
         calls retried.
Proof.
  unfold voice_url_retry. destruct voice as [v|b]; unfold_monad.
  - destruct (bot (trace w) (GetFile v)) as [tg_file|exc] eqn:Hget.
    + destruct (truthy_str (get_file_path tg_file)) eqn:Hpath.
      * destruct (get_file_path tg_file) as [path|] eqn:Hp; [|discriminate].
        assert (path <> "") as Hne.
        { intros ->. discriminate. }
        destruct (slashes_split path) as (k & rest & -> & Hrest).
        cbn [default from_option id set_trace trace].
        rewrite (file_url_retry_reference SETTINGS k rest Hrest).
        destruct (bot (trace w ++ [GetFile v]) _) as [r|exc] eqn:Hvoice.
        -- eexists _, (Some r), _. split; [reflexivity|].
           cbn [trace set_trace log]. rewrite <- app_assoc.
           repeat split. eapply url_retry_delivers; eauto.
        -- assert (exists w',
                     (if is_Forbidden_or_BadRequest exc
                      then (Ok (@None Reply),
                            set_trace ((trace w ++ [GetFile v]) ++
                              [SendVoice chat
                                 (retry_reference SETTINGS rest)
                                 caption parse_mode bcid])
                              (set_trace (trace w ++ [GetFile v]) w))
                      else (Ok None,
                            set_trace ((trace w ++ [GetFile v]) ++
                              [SendVoice chat
                                 (retry_reference SETTINGS rest)
                                 caption parse_mode bcid])
                              (set_trace (trace w ++ [GetFile v]) w)))
                     = (Ok None, w')
                     /\ trace w' = trace w ++ [GetFile v;
                          SendVoice chat (retry_reference SETTINGS rest)
                            caption parse_mode bcid]
                     /\ log w' = log w /\ same_store w w') as (w' & Hrun & Ht & Hl & Hs).
           { destruct (is_Forbidden_or_BadRequest exc);
               eexists; (split; [reflexivity|]); cbn; rewrite <- app_assoc;
               repeat split. }
           exists [GetFile v;
                   SendVoice chat (retry_reference SETTINGS rest)
                     caption parse_mode bcid], None, w'.
           split.
           { destruct (is_Forbidden_or_BadRequest exc); exact Hrun. }
           repeat split; try apply Hs; auto.
           eapply url_retry_fails; eauto.
      * eexists [GetFile v], None, _. split; [reflexivity|].
        repeat split. eapply url_no_path; eauto.
    + eexists [GetFile v], None, _. split; [reflexivity|].
      repeat split. eapply url_unresolved; eauto.
  - eexists [], None, _. split; [reflexivity|].
    cbn. rewrite app_nil_r. repeat split. eapply url_skipped_bytes; eauto.
Qed.

(** What the chain relation implies: at most four calls, the native send
    first; an empty result only after the audio send was made and failed
    with a classifiable error; an exception past the helper only when it
    is not classifiable. *)
Lemma voice_chain_facts SETTINGS bot h chat voice caption parse_mode bcid
    calls res :
  voice_chain SETTINGS bot h chat voice caption parse_mode bcid calls res ->
  (List.length calls <= 4)%nat
  /\ head calls = Some (SendVoice chat voice caption parse_mode bcid)
  /\ (res = Ok None ->
      exists before exc,
        calls = before ++ [SendAudio chat voice caption parse_mode bcid]
        /\ bot (h ++ before) (SendAudio chat voice caption parse_mode bcid)
           = Raise exc
        /\ is_Forbidden_or_BadRequest exc = true)
  /\ (forall exc, res = Raise exc -> is_Forbidden_or_BadRequest exc = false).
Proof.
  intros Hchain. destruct Hchain as [r Hn|exc Hn Hexc|exc calls r Hn Hexc Hurl
                                    |exc calls Hn Hexc Hurl].
  - repeat split; [cbn; lia|discriminate|discriminate].
  - repeat split; [cbn; lia|discriminate|]. by intros exc' [= <-].
  - split; [|repeat split; discriminate].
    inversion Hurl; subst; cbn; lia.
  - split.
    { rewrite app_comm_cons, length_app. inversion Hurl; subst; cbn; lia. }
    split; [done|].
    destruct (bot (h ++ SendVoice chat voice caption parse_mode bcid :: calls)
                (SendAudio chat voice caption parse_mode bcid))
      as [r|exc2] eqn:Haudio.
    + split; discriminate.
    + destruct (is_Forbidden_or_BadRequest exc2) eqn:Hexc2.
      * split; [|discriminate]. intros _.
        exists (SendVoice chat voice caption parse_mode bcid :: calls), exc2.
        by rewrite app_comm_cons.
      * split; [discriminate|]. by intros exc' [= <-].
Qed.

(** Every run of the voice helper is a run of the chain relation. *)
Lemma voice_chain_run
    (SETTINGS : Settings) (bot : Bot) (w : World) (chat : Z)
    (user : option Z) (voice : FileRef) (caption parse_mode bcid : option string) :
  exists calls res w',
    _safe_send_voice_prefer SETTINGS bot chat user voice caption parse_mode
      bcid w = (res, w')
    /\ trace w' = trace w ++ calls
    /\ same_store w w'
    /\ voice_chain SETTINGS bot (trace w) chat voice caption parse_mode bcid
         calls res.
Proof.
  unfold _safe_send_voice_prefer.
  unfold bind at 1. unfold try_except at 1. unfold call at 1. unfold ret at 1.
  destruct (bot (trace w) (SendVoice chat voice caption parse_mode bcid))
    as [r|exc] eqn:Hnative.
  - eexists _, _, _. split; [reflexivity|]. repeat split.
    by apply chain_native.
  - destruct (is_Forbidden_or_BadRequest exc) eqn:Hexc.
    + set (w1 := set_trace _ w).
      destruct (url_level_run SETTINGS bot w1 chat voice caption parse_mode bcid)
        as (calls & retried & w2 & Hrun & Ht & Hl & (Hj & Hc & Hd) & Hlevel).
      unfold bind at 1. rewrite Hrun.
      destruct retried as [r|].
      * exists (SendVoice chat voice caption parse_mode bcid :: calls),
          (Ok (Some r)), w2.
        split; [reflexivity|]. rewrite Ht. subst w1. cbn [trace set_trace].
        rewrite <- app_assoc. repeat split; auto.
        eapply chain_url; eauto.
      * unfold_monad. rewrite Ht. subst w1. cbn [trace set_trace] in *.
        rewrite <- app_assoc. cbn [app].
        pose proof (chain_audio SETTINGS bot (trace w) chat voice caption
                      parse_mode bcid exc calls Hnative Hexc Hlevel) as Hchain.
        destruct (bot (trace w ++ SendVoice chat voice caption parse_mode bcid
                         :: calls)
                    (SendAudio chat voice caption parse_mode bcid))
          as [r|exc2] eqn:Haudio.
        -- eexists _, _, _. split; [reflexivity|].
           cbn [trace set_trace]. rewrite <- !app_assoc. cbn [app].
           split; [reflexivity|]. split; [|exact Hchain].
           repeat split; cbn; auto.
        -- destruct (is_Forbidden_or_BadRequest exc2) eqn:Hexc2.
           ++ destruct (existsb _ _); eexists _, _, _;
                (split; [reflexivity|]);
                cbn [trace set_trace set_log]; rewrite <- !app_assoc;
                cbn [app]; (split; [reflexivity|]);
                (split; [|exact Hchain]); repeat split; cbn; auto.
           ++ eexists _, _, _. split; [reflexivity|].
              cbn [trace set_trace]. rewrite <- !app_assoc. cbn [app].
              split; [reflexivity|]. split; [|exact Hchain].
              repeat split; cbn; auto.
    + eexists _, _, _. split; [reflexivity|]. repeat split.
      by apply chain_native_unclassified.
Qed.

(** Every run of [_safe_send_voice_prefer] is a run of the three-level
    chain: the native voice send first and once; only after a
    classifiable failure of it and only for a string handle, the
    [get_file] resolution and one retry whose reference is
    [https://api.telegram.org/file/bot], the token, a slash and the
    resolved path without its leading slashes; the audio send, once,
    whenever neither voice level delivered; the audio's reply when it
    succeeds, and [None] without an exception when it fails with a
    classifiable error.  In particular the run makes at most four calls,
    hands back an empty result only after the audio send was made and
    failed with a classifiable error, and raises only what is not
    classifiable.  Nothing but the trace and the log changes. *)
Theorem voice_fallback_chain
    (SETTINGS : Settings) (bot : Bot) (w : World) (chat : Z)
    (user : option Z) (voice : FileRef) (caption parse_mode bcid : option string) :
  exists calls res w',
    _safe_send_voice_prefer SETTINGS bot chat user voice caption parse_mode
      bcid w = (res, w')
    /\ trace w' = trace w ++ calls
    /\ same_store w w'
    /\ voice_chain SETTINGS bot (trace w) chat voice caption parse_mode bcid
         calls res
    /\ (List.length calls <= 4)%nat
    /\ head calls = Some (SendVoice chat voice caption parse_mode bcid)
    /\ (res = Ok None ->
        exists before exc,
          calls = before ++ [SendAudio chat voice caption parse_mode bcid]
          /\ bot (trace w ++ before)
                 (SendAudio chat voice caption parse_mode bcid) = Raise exc
          /\ is_Forbidden_or_BadRequest exc = true)
    /\ (forall exc, res = Raise exc -> is_Forbidden_or_BadRequest exc = false).
Proof.
  destruct (voice_chain_run SETTINGS bot w chat user voice caption parse_mode
              bcid) as (calls & res & w' & Hrun & Htrace & Hstore & Hchain).
  exists calls, res, w'. repeat (split; [done|]).
  by apply (voice_chain_facts SETTINGS bot (trace w)).
Qed.

(** C5, where the code misses it.  The gateway library hands back the
    path of a resolved file as the whole download address.  The helper
    puts the address of the file endpoint and the token before it once
    more: after the native send of the voice ["voice-handle"] was refused,
    the retry goes out with a reference that is no file address, is
    refused as well, and the delivery ends in the audio send.  The
    download address [get_file] gave, which this gateway would have
    taken, is never tried. *)
Theorem voice_retry_reference_is_doubled :
  trace (_safe_send_voice_prefer demo_settings bot_voice_by_url 5 (Some 7)
           (FileStr "voice-handle") None None None empty_world).2
  = [ SendVoice 5 (FileStr "voice-handle") None None None;
      GetFile "voice-handle";
      SendVoice 5
        (FileStr "https://api.telegram.org/file/bot123:abc/https://api.telegram.org/file/bot123:abc/voice/file_7.oga")
        None None None;
      SendAudio 5 (FileStr "voice-handle") None None None ]
  /\ (_safe_send_voice_prefer demo_settings bot_voice_by_url 5 (Some 7)
        (FileStr "voice-handle") None None None empty_world).1
     = Ok (Some (RMessage 1))
  /\ bot_voice_by_url
       [ SendVoice 5 (FileStr "voice-handle") None None None;
         GetFile "voice-handle" ]
       (SendVoice 5 (FileStr resolved_file_path) None None None)
     = Ok (RMessage 2).
Proof. vm_compute. repeat split. Qed.

(** ** Frame lemmas: what the helpers can touch *)

Lemma emits_ret {A} P (a : A) : emits P (ret a).
Proof.
  intros w. exists []. cbn. rewrite app_nil_r. repeat split.
Qed.

Lemma emits_print P l : emits P (print l).
Proof.
  intros w. exists []. cbn. rewrite app_nil_r. repeat split.
Qed.

Lemma emits_call P bot c : P c = true -> emits P (call bot c).
Proof.
  intros HP w. exists [c]. cbn. rewrite HP. repeat split.
Qed.

Lemma emits_sleep P s : P (Sleep s) = true -> emits P (sleep s).
Proof.
  intros HP w. exists [Sleep s]. cbn. rewrite HP. repeat split.
Qed.

Lemma emits_bind {A B} P (m : M A) (k : A -> M B) :
  emits P m -> (forall a, emits P (k a)) -> emits P (bind m k).
Proof.
  intros Hm Hk w. unfold bind.
  destruct (Hm w) as (c1 & Ht1 & HP1 & Hs1).
  destruct (m w) as [[a|e] w1]; cbn [snd] in *.
  - destruct (Hk a w1) as (c2 & Ht2 & HP2 & Hs2).
    exists (c1 ++ c2). rewrite Ht2, Ht1, app_assoc, forallb_app, HP1, HP2.
    split; [done|]. split; [done|]. eapply same_store_trans; eauto.
  - exists c1. done.
Qed.

Lemma emits_try_except {A} P (body : M A) handler :
  emits P body ->
  (forall e h, handler e = Some h -> emits P h) ->
  emits P (try_except body handler).
Proof.
  intros Hm Hh w. unfold try_except.
  destruct (Hm w) as (c1 & Ht1 & HP1 & Hs1).
  destruct (body w) as [[a|e] w1]; cbn [snd] in *.
  - exists c1. done.
  - destruct (handler e) as [h|] eqn:Hhe.
    + destruct (Hh e h Hhe w1) as (c2 & Ht2 & HP2 & Hs2).
      exists (c1 ++ c2). rewrite Ht2, Ht1, app_assoc, forallb_app, HP1, HP2.
      split; [done|]. split; [done|]. eapply same_store_trans; eauto.
    + exists c1. done.
Qed.

Lemma emits_weaken {A} (P Q : Call -> bool) (m : M A) :
  (forall c, P c = true -> Q c = true) -> emits P m -> emits Q m.
Proof.
  intros HPQ Hm w. destruct (Hm w) as (calls & Ht & HP & Hs).
  exists calls. repeat split; try apply Hs; auto.
  apply forallb_forall. intros c Hc.
  apply HPQ. eapply forallb_forall in HP; eauto.
Qed.

Lemma emits_blocking P user exc h :
  except_blocking user exc = Some h -> emits P h.
Proof.
  unfold except_blocking, _handle_blocking_exception.
  destruct (is_Forbidden_or_BadRequest exc); [|discriminate].
  intros [= <-]. apply emits_bind; [|intros; apply emits_ret].
  match goal with |- emits _ (if ?b then _ else _) => destruct b end;
    [apply emits_print | apply emits_ret].
Qed.

Lemma emits_safe_send P bot chat user bcid s :
  P (gateway_call chat bcid s) = true ->
  emits P (safe_send bot chat user bcid s).
Proof.
  intros HP.
  destruct s; cbn [safe_send gateway_call] in *;
    (apply emits_try_except;
     [ apply emits_bind; [by apply emits_call | intros; apply emits_ret]
     | intros e h; apply emits_blocking ]).
Qed.

Lemma emits_safe_send_message P bot chat user text pm rm bcid :
  P (SendMessage chat text pm rm bcid) = true ->
  emits P (_safe_send_message bot chat user text pm rm bcid).
Proof. apply (emits_safe_send P bot chat user bcid (Text text pm rm)). Qed.


Lemma emits_voice_prefer P SETTINGS bot chat user voice cap pm bcid :
  (forall c, is_voice_chain_call c = true -> P c = true) ->
  emits P (_safe_send_voice_prefer SETTINGS bot chat user voice cap pm bcid).
Proof.
  intros HP. apply emits_weaken with (P := is_voice_chain_call); [done|].
  unfold _safe_send_voice_prefer, voice_url_retry.
  apply emits_try_except.
  { apply emits_bind; [by apply emits_call | intros; apply emits_ret]. }
  intros e h. destruct (is_Forbidden_or_BadRequest e); [|discriminate].
  intros [= <-]. apply emits_bind.
  - apply emits_try_except.
    + destruct voice; [|apply emits_ret].
      apply emits_bind; [by apply emits_call|]. intros tg_file.
      destruct (truthy_str _); [|apply emits_ret].
      apply emits_try_except.
      * apply emits_bind; [by apply emits_call | intros; apply emits_ret].
      * intros e' h'. destruct (is_Forbidden_or_BadRequest e'); [|discriminate].
        intros [= <-]. apply emits_ret.
    + intros e' h' [= <-]. apply emits_ret.
  - intros [r|]; [apply emits_ret|].
    apply emits_try_except.
    + apply emits_bind; [by apply emits_call | intros; apply emits_ret].
    + intros e' h'. apply emits_blocking.
Qed.

Lemma emits_send_remarketing P SETTINGS ASSETS bot chat user bcid :
  (forall c, is_voice_chain_call c = true -> P c = true) ->
  (forall text pm rm, P (SendMessage chat text pm rm bcid) = true) ->
  P (Sleep 45) = true ->
  emits P (_send_remarketing SETTINGS ASSETS bot chat user bcid).
Proof.
  intros Hv Hm Hs. unfold _send_remarketing.
  apply emits_bind.
  { destruct (truthy_str _); [|apply emits_ret].
    apply emits_bind; [by apply emits_voice_prefer | intros; apply emits_ret]. }
  intros _. apply emits_bind; [by apply emits_safe_send_message|].
  intros _. destruct (truthy_str _); [|apply emits_ret].
  apply emits_bind; [by apply emits_sleep|].
  intros _.
  apply emits_bind; [by apply emits_voice_prefer | intros; apply emits_ret].
Qed.

(** The calls a computation adds keep the number of membership queries. *)
Lemma emits_checks {A} (m : M A) (w : World) :
  emits (fun c => negb (is_membership_check c)) m ->
  checks (m w).2 = checks w.
Proof.
  intros Hm. destruct (Hm w) as (calls & Ht & HP & _).
  unfold checks. rewrite Ht, List.filter_app, length_app.
  assert (List.filter is_membership_check calls = []) as ->; [|cbn; lia].
  clear Ht. induction calls as [|c calls IH]; [done|].
  cbn in *. apply andb_prop in HP as [Hc HP].
  destruct (is_membership_check c); [done|]. by apply IH.
Qed.

(** ** C3: one polling invocation *)

Lemma status_is_member_spec (status : option string) :
  status_is_member status = true
  <-> status = Some "member" \/ status = Some "administrator"
      \/ status = Some "creator".
Proof.
  destruct status as [s|]; cbn.
  - rewrite !orb_true_iff, !String.eqb_eq. split.
    + intros [->|[->|[->|?]]]; auto. discriminate.
    + intros [[= ->]|[[= ->]|[= ->]]]; auto.
  - split; [discriminate|]. intros [?|[?|?]]; discriminate.
Qed.

(** The run of one invocation, by the outcome of its membership query. *)
Lemma group_check_run
    (SETTINGS : Settings) (ASSETS : Assets) (bot : Bot) (w : World)
    (i : nat) (j : Job) (chat user : Z) (job_queue : bool) :
  jobs w !! i = Some j ->
  if_truthy (p_chat_id (job_data j)) = Some chat ->
  if_truthy (p_user_id (job_data j)) = Some user ->
  let bcid := p_business_connection_id (job_data j) in
  let w1 := after_query SETTINGS i j user w in
  let not_member_branch :=
    (if default 0 (p_attempt (job_data j)) + 1 >=? GROUP_CHECK_MAX_ATTEMPTS then
       await_ schedule_removal i;
       _send_remarketing SETTINGS ASSETS bot chat (Some user) bcid
     else ret tt) in
  _group_check_job SETTINGS ASSETS bot
    {| ctx_job := Some i; ctx_job_queue := job_queue |} w
  = match bot (trace w) (GetChatMember (group_id SETTINGS) user) with
    | Ok member =>
        if status_is_member (get_status member) || get_is_member member
        then (await_ _safe_send_message bot chat (Some user)
                       GROUP_APPROVED_MESSAGE None None bcid;
              schedule_removal i) w1
        else not_member_branch w1
    | Raise exc =>
        if is_Forbidden exc then (Ok tt, w1) else not_member_branch w1
    end.
Proof.
  intros Hjob Hchat Huser bcid w1 not_member_branch.
  unfold _group_check_job, get_job.
  unfold bind at 1. cbn [ctx_job]. rewrite Hjob.
  cbn [fmap option_fmap option_map].
  unfold ret at 1. unfold bind at 1. unfold set_job_data at 1.
  rewrite Hchat, Huser.
  unfold bind at 1. unfold try_except at 1. unfold bind at 1.
  unfold call at 1. cbn [trace set_jobs].
  destruct (bot (trace w) (GetChatMember (group_id SETTINGS) user))
    as [member|exc]; cbn [ret].
  - unfold ret at 1. cbn [remove_if_job].
    destruct (status_is_member (get_status member) || get_is_member member);
      reflexivity.
  - destruct (is_Forbidden exc); [reflexivity|].
    destruct (is_BadRequest exc); reflexivity.
Qed.

(** ** C2: the polling loop *)

Lemma checks_after_query SETTINGS i j user w :
  checks (after_query SETTINGS i j user w) = S (checks w).
Proof.
  unfold checks, after_query. cbn [trace set_trace].
  rewrite List.filter_app, length_app. cbn. lia.
Qed.

Lemma no_check_text chat text pm rm bcid :
  negb (is_membership_check (SendMessage chat text pm rm bcid)) = true.
Proof. reflexivity. Qed.

Lemma no_check_voice c :
  is_voice_chain_call c = true -> negb (is_membership_check c) = true.
Proof. by destruct c. Qed.

Lemma safe_send_message_result bot chat user text pm rm bcid w :
  (_safe_send_message bot chat user text pm rm bcid w).1
  = match bot (trace w) (SendMessage chat text pm rm bcid) with
    | Ok r => Ok (Some r)
    | Raise exc => if is_Forbidden_or_BadRequest exc then Ok None else Raise exc
    end.
Proof.
  unfold _safe_send_message. unfold_monad.
  destruct (bot (trace w) _) as [r|exc]; [done|].
  destruct (is_Forbidden_or_BadRequest exc); [|done].
  by destruct (existsb _ _).
Qed.

(** What one invocation does to the job table and to the number of
    membership queries. *)
Lemma group_check_effect
    (SETTINGS : Settings) (ASSETS : Assets) (bot : Bot) (w : World)
    (i : nat) (j : Job) (chat user : Z) (job_queue : bool) :
  jobs w !! i = Some j ->
  if_truthy (p_chat_id (job_data j)) = Some chat ->
  if_truthy (p_user_id (job_data j)) = Some user ->
  let w' := (_group_check_job SETTINGS ASSETS bot
               {| ctx_job := Some i; ctx_job_queue := job_queue |} w).2 in
  let counted_jobs := alter (with_data (counted (job_data j))) i (jobs w) in
  checks w' = S (checks w)
  /\ (jobs w' = counted_jobs \/ jobs w' = alter with_removed i counted_jobs)
  /\ (GROUP_CHECK_MAX_ATTEMPTS <= default 0 (p_attempt (job_data j)) + 1 ->
      conclusive SETTINGS bot i w = true ->
      jobs w' = alter with_removed i counted_jobs).
Proof.
  intros Hjob Hchat Huser w' counted_jobs. subst w'.
  rewrite (group_check_run SETTINGS ASSETS bot w i j chat user job_queue
             Hjob Hchat Huser).
  cbv zeta. unfold conclusive. rewrite Hjob, Hchat, Huser.
  set (w1 := after_query SETTINGS i j user w).
  set (bcid := p_business_connection_id (job_data j)).
  assert (jobs w1 = counted_jobs) as Hjobs1 by reflexivity.
  assert (trace w1 = trace w ++ [GetChatMember (group_id SETTINGS) user])
    as Htrace1 by reflexivity.
  pose proof (checks_after_query SETTINGS i j user w) as Hchecks1.
  fold w1 in Hchecks1.
  (* the not-member branch *)
  assert (let w' := ((if default 0 (p_attempt (job_data j)) + 1
                          >=? GROUP_CHECK_MAX_ATTEMPTS
                      then await_ schedule_removal i;
                           _send_remarketing SETTINGS ASSETS bot chat
                             (Some user) bcid
                      else ret tt) w1).2 in
          checks w' = S (checks w)
          /\ (jobs w' = counted_jobs \/ jobs w' = alter with_removed i counted_jobs)
          /\ (GROUP_CHECK_MAX_ATTEMPTS <= default 0 (p_attempt (job_data j)) + 1 ->
              jobs w' = alter with_removed i counted_jobs)) as Hnot.
  { cbv zeta.
    destruct (default 0 (p_attempt (job_data j)) + 1 >=? GROUP_CHECK_MAX_ATTEMPTS)
      eqn:Hmax.
    - set (w2 := set_jobs (alter with_removed i (jobs w1)) w1).
      assert ((await_ schedule_removal i;
               _send_remarketing SETTINGS ASSETS bot chat (Some user) bcid) w1
              = _send_remarketing SETTINGS ASSETS bot chat (Some user) bcid w2)
        as -> by reflexivity.
      pose proof (emits_send_remarketing (fun c => negb (is_membership_check c))
                    SETTINGS ASSETS bot chat (Some user) bcid no_check_voice
                    (fun text pm rm => no_check_text chat text pm rm bcid)
                    eq_refl) as Hem.
      rewrite (emits_checks _ w2 Hem).
      destruct (Hem w2) as (calls & _ & _ & Hj & _).
      rewrite Hj. subst w2. cbn [jobs set_jobs]. rewrite Hjobs1.
      split; [exact Hchecks1|]. split; [by right|]. done.
    - cbn. split; [exact Hchecks1|]. split; [by left|].
      rewrite Z.geb_leb in Hmax. apply Z.leb_gt in Hmax. lia. }
  cbv zeta in Hnot.
  destruct (bot (trace w) (GetChatMember (group_id SETTINGS) user))
    as [member|exc].
  - destruct (status_is_member (get_status member) || get_is_member member).
    + set (m := _safe_send_message bot chat (Some user) GROUP_APPROVED_MESSAGE
                  None None bcid).
      assert ((await_ m; schedule_removal i) w1
              = match m w1 with
                | (Ok _, w2) =>
                    (Ok tt, set_jobs (alter with_removed i (jobs w2)) w2)
                | (Raise e, w2) => (Raise e, w2)
                end) as -> by reflexivity.
      pose proof (emits_safe_send_message (fun c => negb (is_membership_check c))
                    bot chat (Some user) GROUP_APPROVED_MESSAGE None None bcid
                    eq_refl) as Hem.
      fold m in Hem.
      pose proof (emits_checks _ w1 Hem) as Hch.
      destruct (Hem w1) as (calls & _ & _ & Hj & _).
      pose proof (safe_send_message_result bot chat (Some user)
                    GROUP_APPROVED_MESSAGE None None bcid w1) as Hres.
      fold m in Hres. rewrite Htrace1 in Hres.
      destruct (m w1) as [[o|exc] w2]; cbn [fst snd] in *.
      * change (checks (set_jobs (alter with_removed i (jobs w2)) w2))
          with (checks w2).
        cbn [jobs set_jobs]. rewrite Hj, Hjobs1.
        split; [lia|]. split; [by right|]. done.
      * rewrite Hj, Hjobs1. split; [lia|]. split; [by left|].
        intros _ Hc.
        destruct (bot _ (SendMessage _ _ _ _ _)) as [r|exc']; [done|].
        destruct (is_Forbidden_or_BadRequest exc'); [done|discriminate].
    + destruct Hnot as (H1 & H2 & H3). split; [done|]. split; [done|].
      intros Hmax _. by apply H3.
  - destruct (is_Forbidden exc).
    + cbn [snd]. split; [exact Hchecks1|]. split; [by left|].
      intros _ Hc. discriminate.
    + destruct Hnot as (H1 & H2 & H3). split; [done|]. split; [done|].
      intros Hmax _. by apply H3.
Qed.

Section PollingLoop.

Variable SETTINGS : Settings.
Variable ASSETS : Assets.
Variable bot : Bot.
Variable i : nat.
Variables chat user : Z.

Lemma fire_polling_step (w : World) (a : Z) :
  polling i chat user w -> removed i w = false -> attempt_of i w = Some a ->
  let w' := fire SETTINGS ASSETS bot i w in
  polling i chat user w'
  /\ attempt_of i w' = Some (a + 1)
  /\ checks w' = S (checks w)
  /\ (GROUP_CHECK_MAX_ATTEMPTS <= a + 1 ->
      conclusive SETTINGS bot i w = true -> removed i w' = true).
Proof.
  intros (j & Hjob & Hcb & Htr & Hc & Hu) Hlive Hatt w'. subst w'.
  unfold removed in Hlive. unfold attempt_of in Hatt. rewrite Hjob in Hlive, Hatt.
  unfold fire. rewrite Hjob, Hlive, Hcb, Htr. cbn [run_callback].
  destruct (group_check_effect SETTINGS ASSETS bot w i j chat user true
              Hjob Hc Hu) as (Hch & Hjobs & Hconc).
  cbv zeta in *.
  set (w' := (_group_check_job SETTINGS ASSETS bot _ w).2) in *.
  rewrite Hatt in Hconc. cbn [default] in Hconc.
  assert (exists j', jobs w' !! i = Some j'
                     /\ job_callback j' = group_check_job
                     /\ job_trigger j' = job_trigger j
                     /\ job_data j' = counted (job_data j)
                     /\ (jobs w' = alter with_removed i
                                     (alter (with_data (counted (job_data j))) i
                                        (jobs w))
                         -> job_removed j' = true))
    as (j' & Hj' & Hcb' & Htr' & Hd' & Hrm').
  { destruct Hjobs as [-> | ->].
    - exists (with_data (counted (job_data j)) j).
      rewrite list_lookup_alter_eq, Hjob. repeat split; [done|].
      intros Heq. apply (f_equal (fun l => l !! i)) in Heq.
      rewrite !list_lookup_alter_eq, Hjob in Heq. cbn in Heq.
      injection Heq as Heq. rewrite Hlive in Heq. discriminate.
    - exists (with_removed (with_data (counted (job_data j)) j)).
      rewrite !list_lookup_alter_eq, Hjob. done. }
  split.
  { exists j'. rewrite Hd', Htr'. done. }
  unfold attempt_of, removed. rewrite Hj', Hd'. cbn [p_attempt counted].
  rewrite Hatt. cbn [default].
  split; [done|]. split; [done|].
  intros Hmax Hcon. apply Hrm'. by apply Hconc.
Qed.

Lemma fire_removed (w : World) :
  removed i w = true -> fire SETTINGS ASSETS bot i w = w.
Proof.
  unfold removed, fire. destruct (jobs w !! i) as [j|]; [|done].
  by intros ->.
Qed.

Lemma fire_n_S_r (n : nat) (w : World) :
  fire_n SETTINGS ASSETS (S n) bot i w
  = fire SETTINGS ASSETS bot i (fire_n SETTINGS ASSETS n bot i w).
Proof.
  revert w. induction n as [|n IH]; intros w; [done|].
  cbn [fire_n] in *. by rewrite IH.
Qed.

Lemma fire_n_removed (n : nat) (w : World) :
  removed i w = true -> fire_n SETTINGS ASSETS n bot i w = w.
Proof.
  intros Hr. induction n as [|n IH]; [done|].
  cbn [fire_n]. by rewrite fire_removed.
Qed.

Lemma fire_n_add (n m : nat) (w : World) :
  fire_n SETTINGS ASSETS (n + m) bot i w
  = fire_n SETTINGS ASSETS m bot i (fire_n SETTINGS ASSETS n bot i w).
Proof.
  revert w. induction n as [|n IH]; intros w; [done|].
  cbn [fire_n Nat.add]. by rewrite IH.
Qed.

(** After [k] due times the job either was removed, after at most [k]
    queries, or is live after exactly [k] queries, with [k] as its
    attempt counter. *)
Lemma polling_progress (w0 : World) (k : nat) :
  polling i chat user w0 -> removed i w0 = false ->
  attempt_of i w0 = Some 0 ->
  let w := fire_n SETTINGS ASSETS k bot i w0 in
  polling i chat user w
  /\ (exists a, attempt_of i w = Some a /\ 0 <= a <= Z.of_nat k
                /\ (removed i w = true -> 1 <= a))
  /\ (checks w <= checks w0 + k)%nat
  /\ (removed i w = false ->
      checks w = (checks w0 + k)%nat /\ attempt_of i w = Some (Z.of_nat k)).
Proof.
  intros Hp Hlive Hatt. induction k as [|k IH]; cbv zeta in *.
  - cbn [fire_n]. split; [done|]. split.
    + exists 0. rewrite Hlive. repeat split; [done|lia|lia|done].
    + split; [lia|]. intros _. split; [lia|done].
  - rewrite fire_n_S_r.
    set (w := fire_n SETTINGS ASSETS k bot i w0) in *.
    destruct IH as (Hpw & (a & Ha & Hrange & Hone) & Hle & Hlivek).
    destruct (removed i w) eqn:Hr.
    + rewrite fire_removed by done. rewrite Hr.
      split; [done|]. split.
      * exists a. repeat split; [done|lia|lia|auto].
      * split; [lia|]. discriminate.
    + destruct (Hlivek eq_refl) as (Hck & Hak).
      destruct (fire_polling_step w (Z.of_nat k) Hpw Hr Hak)
        as (Hp' & Ha' & Hc' & _).
      split; [done|]. split.
      * exists (Z.of_nat k + 1). repeat split; [done|lia|lia|lia].
      * split; [lia|]. intros _. split; [lia|].
        rewrite Ha'. f_equal. lia.
Qed.

End PollingLoop.

(** C2, as stated, fails: with four negative answers and an authorization
    failure from the fifth query on, six due times make six membership
    queries, the sixth with the attempt counter at 6, and the job is still
    scheduled. *)
Lemma sixth_check_after_forbidden :
  checks (fire_n demo_settings no_assets 6 bot_then_forbidden 0 polling_world)
    = 6%nat
  /\ attempt_of 0
       (fire_n demo_settings no_assets 6 bot_then_forbidden 0 polling_world)
     = Some 6
  /\ removed 0
       (fire_n demo_settings no_assets 6 bot_then_forbidden 0 polling_world)
     = false
  /\ GROUP_CHECK_MAX_ATTEMPTS = 5.
Proof. vm_compute. repeat split. Qed.

(** C2, amended.  A polling job scheduled with attempt 0 makes one
    membership query per due time and counts it.  If the invocation
    number [K], for a [K] from [GROUP_CHECK_MAX_ATTEMPTS] on, is
    conclusive (its query does not end in [Forbidden] and an approval
    text does not raise past its helper) or the job was removed before
    it, then whatever the earlier invocations met (member, not member,
    bad request, authorization failure) the loop makes at most [K]
    queries, the job is removed by the [K]-th due time, and the attempt
    counter stays between 1 and [K] once an invocation has run.  With
    [K = GROUP_CHECK_MAX_ATTEMPTS] this is the bound of five. *)
Theorem polling_bounded_when_conclusive
    (SETTINGS : Settings) (ASSETS : Assets) (bot : Bot) (i : nat)
    (chat user : Z) (w0 : World) (K : nat) :
  polling i chat user w0 ->
  removed i w0 = false ->
  attempt_of i w0 = Some 0 ->
  (Z.to_nat GROUP_CHECK_MAX_ATTEMPTS <= K)%nat ->
  removed i (fire_n SETTINGS ASSETS (K - 1) bot i w0)
  || conclusive SETTINGS bot i (fire_n SETTINGS ASSETS (K - 1) bot i w0) = true ->
  forall n,
    let w := fire_n SETTINGS ASSETS n bot i w0 in
    (checks w <= checks w0 + K)%nat
    /\ ((K <= n)%nat -> removed i w = true)
    /\ exists a, attempt_of i w = Some a
                 /\ 0 <= a <= Z.of_nat K /\ a <= Z.of_nat n
                 /\ ((1 <= n)%nat -> 1 <= a).
Proof.
  intros Hp Hlive Hatt HK Hconc.
  assert (Z.to_nat GROUP_CHECK_MAX_ATTEMPTS = 5%nat) as Hmax by reflexivity.
  assert (K = S (K - 1)) as HKS by lia.
  (* the job is removed by the K-th due time *)
  assert (removed i (fire_n SETTINGS ASSETS K bot i w0) = true) as HremK.
  { rewrite HKS, fire_n_S_r.
    destruct (polling_progress SETTINGS ASSETS bot i chat user w0 (K - 1)
                Hp Hlive Hatt) as (Hpw & _ & _ & Hlivek).
    cbv zeta in *.
    set (w := fire_n SETTINGS ASSETS (K - 1) bot i w0) in *.
    destruct (removed i w) eqn:Hr.
    - by rewrite fire_removed.
    - destruct (Hlivek eq_refl) as (_ & Hak). cbn [orb] in Hconc.
      destruct (fire_polling_step SETTINGS ASSETS bot i chat user w
                  (Z.of_nat (K - 1)) Hpw Hr Hak) as (_ & _ & _ & Hrm).
      apply Hrm; [|done]. unfold GROUP_CHECK_MAX_ATTEMPTS. lia. }
  intros n.
  destruct (polling_progress SETTINGS ASSETS bot i chat user w0 K Hp Hlive Hatt)
    as (_ & (aK & HaK & HrangeK & HoneK) & HleK & _).
  destruct (polling_progress SETTINGS ASSETS bot i chat user w0 n Hp Hlive Hatt)
    as (_ & (a & Ha & Hrange & Hone) & Hle & Hliven).
  cbv zeta in *.
  destruct (decide (n <= K)%nat) as [Hn|Hn].
  - split; [lia|]. split.
    + intros HKn. by replace n with K by lia.
    + exists a. split; [done|]. split; [lia|]. split; [lia|].
      intros Hn1. destruct (removed i (fire_n SETTINGS ASSETS n bot i w0)) eqn:Hr.
      * by apply Hone.
      * destruct (Hliven eq_refl) as (_ & Han).
        rewrite Han in Ha. injection Ha as <-. lia.
  - replace n with (K + (n - K))%nat by lia.
    rewrite fire_n_add, fire_n_removed by done.
    split; [lia|]. split; [done|].
    exists aK. split; [done|]. split; [lia|]. split; [lia|].
    intros _. by apply HoneK.
Qed.

(** The amended bound at work: on a gateway that keeps answering "left",
    seven due times make five queries and the job is removed. *)
Lemma polling_bounded_when_conclusive_witness :
  (checks (fire_n demo_settings no_assets 7 bot_not_member 0 polling_world)
   <= checks polling_world + 5)%nat
  /\ removed 0 (fire_n demo_settings no_assets 7 bot_not_member 0 polling_world)
     = true.
Proof.
  assert (polling 0 5 7 polling_world) as Hp.
  { exists polling_job. repeat split. }
  destruct (polling_bounded_when_conclusive demo_settings no_assets
              bot_not_member 0%nat 5 7 polling_world 5%nat Hp eq_refl eq_refl
              (le_n 5) eq_refl 7%nat) as (Hchecks & Hremoved & _).
  split; [exact Hchecks|]. apply Hremoved. repeat constructor.
Defined.

(** ** Running a stage step by step *)

Lemma bind_ok_inv {A B} (m : M A) (k : A -> M B) (w : World) (b : B) :
  (bind m k w).1 = Ok b ->
  exists a w1, m w = (Ok a, w1) /\ bind m k w = k a w1.
Proof.
  unfold bind. destruct (m w) as [[a|e] w1]; [|discriminate].
  intros _. by exists a, w1.
Qed.

(** A plain send helper makes its one call, whatever the answer. *)
Lemma safe_send_trace bot chat user bcid s w :
  trace (safe_send bot chat user bcid s w).2
    = trace w ++ [gateway_call chat bcid s]
  /\ same_store w (safe_send bot chat user bcid s w).2.
Proof.
  destruct s; cbn [safe_send gateway_call];
    unfold _safe_send_message, _safe_send_photo, _safe_send_video,
      _safe_send_audio, _safe_send_media_group; unfold_monad;
    (destruct (bot (trace w) _) as [r|exc];
     [ |destruct (is_Forbidden_or_BadRequest exc); [destruct (existsb _ _)|]]);
    done.
Qed.


(** ** C3: the classification of the membership result *)

(** C3.  A polling invocation on a job with a chat and a user counts
    itself and puts one membership query.  When the result counts as
    member (its status is one of member, administrator, creator, or its
    [is_member] flag is set) the invocation sends the approval text to the
    chat and requests the removal of the job, the removal being skipped
    only when the approval send raises an unclassifiable error.  On any
    other result, and on a [BadRequest] or any other error but
    [Forbidden], it goes on to the test of the counted attempt against the
    maximum: below it nothing more happens, from it on the removal is
    requested and the remarketing runs.  On [Forbidden] it returns at
    once: the world is the one right after the counted query, nothing
    sent, the job scheduled as before. *)
Theorem group_check_classification
    (SETTINGS : Settings) (ASSETS : Assets) (bot : Bot) (w : World)
    (i : nat) (j : Job) (chat user : Z) (job_queue : bool) :
  jobs w !! i = Some j ->
  if_truthy (p_chat_id (job_data j)) = Some chat ->
  if_truthy (p_user_id (job_data j)) = Some user ->
  let context := {| ctx_job := Some i; ctx_job_queue := job_queue |} in
  let query := GetChatMember (group_id SETTINGS) user in
  let attempt := default 0 (p_attempt (job_data j)) + 1 in
  let bcid := p_business_connection_id (job_data j) in
  let approval := SendMessage chat GROUP_APPROVED_MESSAGE None None bcid in
  let w1 := after_query SETTINGS i j user w in
  let not_member :=
    if attempt >=? GROUP_CHECK_MAX_ATTEMPTS
    then _send_remarketing SETTINGS ASSETS bot chat (Some user) bcid
           (set_jobs (alter with_removed i (jobs w1)) w1)
    else (Ok tt, w1) in
  let run := _group_check_job SETTINGS ASSETS bot context w in
  (trace w1 = trace w ++ [query]
   /\ removed i w1 = job_removed j
   /\ attempt_of i w1 = Some attempt
   /\ log w1 = log w)
  /\ (forall result,
        bot (trace w) query = Ok result -> counts_as_member result ->
        trace run.2 = trace w ++ [query; approval]
        /\ attempt_of i run.2 = Some attempt
        /\ match bot (trace w ++ [query]) approval with
           | Ok _ => run.1 = Ok tt /\ removed i run.2 = true
           | Raise exc =>
               if is_Forbidden_or_BadRequest exc
               then run.1 = Ok tt /\ removed i run.2 = true
               else run.1 = Raise exc /\ removed i run.2 = job_removed j
           end)
  /\ (forall result,
        bot (trace w) query = Ok result -> ~ counts_as_member result ->
        run = not_member)
  /\ (forall exc,
        bot (trace w) query = Raise exc ->
        (forall msg, exc <> Forbidden msg) ->
        run = not_member)
  /\ (forall msg,
        bot (trace w) query = Raise (Forbidden msg) -> run = (Ok tt, w1))
  /\ removed i not_member.2
     = (job_removed j || (attempt >=? GROUP_CHECK_MAX_ATTEMPTS)).
Proof.
  intros Hjob Hchat Huser context query attempt bcid approval w1 not_member
    run.
  pose proof (group_check_run SETTINGS ASSETS bot w i j chat user job_queue
                Hjob Hchat Huser) as Hrun.
  cbv zeta in Hrun. fold bcid attempt w1 in Hrun. subst run context query.
  assert (jobs w1 !! i = Some (with_data (counted (job_data j)) j)) as Hj1.
  { unfold w1, after_query. cbn [jobs set_trace set_jobs].
    by rewrite list_lookup_alter_eq, Hjob. }
  assert (removed i w1 = job_removed j) as Hremoved.
  { unfold removed. by rewrite Hj1. }
  assert ((if attempt >=? GROUP_CHECK_MAX_ATTEMPTS
           then await_ schedule_removal i;
                _send_remarketing SETTINGS ASSETS bot chat (Some user) bcid
           else ret tt) w1 = not_member) as Hbranch.
  { subst not_member. by destruct (attempt >=? GROUP_CHECK_MAX_ATTEMPTS). }
  split; [|split; [|split; [|split; [|split]]]].
  - repeat split; [exact Hremoved|]. unfold attempt_of. by rewrite Hj1.
  - intros result Hq (status & flag & -> & Hmember).
    rewrite Hrun, Hq. cbn [get_status get_is_member].
    assert (status_is_member status || flag = true) as ->.
    { destruct Hmember as [-> | [-> | [-> | ->]]]; try done. apply orb_true_r. }
    destruct (safe_send_trace bot chat (Some user) bcid
                (Text GROUP_APPROVED_MESSAGE None None) w1) as (Ht & Hjobs & _).
    pose proof (safe_send_message_result bot chat (Some user)
                  GROUP_APPROVED_MESSAGE None None bcid w1) as Hres.
    cbn [safe_send gateway_call] in Ht, Hjobs.
    change (trace w1) with (trace w ++ [GetChatMember (group_id SETTINGS) user])
      in Ht, Hres.
    fold approval in Ht, Hres. rewrite <- app_assoc in Ht. cbn [app] in Ht.
    unfold bind.
    destruct (_safe_send_message bot chat (Some user) GROUP_APPROVED_MESSAGE
                None None bcid w1) as [[x|e] w2]; cbn [fst snd] in *.
    + unfold schedule_removal. cbn [fst snd].
      split; [exact Ht|]. split.
      { unfold attempt_of. cbn [jobs set_jobs].
        by rewrite Hjobs, list_lookup_alter_eq, Hj1. }
      assert (removed i (set_jobs (alter with_removed i (jobs w2)) w2) = true)
        as Hrem.
      { unfold removed. cbn [jobs set_jobs].
        by rewrite Hjobs, list_lookup_alter_eq, Hj1. }
      destruct (bot (trace w ++ [GetChatMember (group_id SETTINGS) user])
                  approval) as [r|exc]; [done|].
      destruct (is_Forbidden_or_BadRequest exc); [done|discriminate].
    + split; [exact Ht|]. split.
      { unfold attempt_of. by rewrite Hjobs, Hj1. }
      destruct (bot (trace w ++ [GetChatMember (group_id SETTINGS) user])
                  approval) as [r|exc]; [discriminate|].
      destruct (is_Forbidden_or_BadRequest exc); [discriminate|].
      injection Hres as ->. split; [done|].
      unfold removed. by rewrite Hjobs, Hj1.
  - intros result Hq Hnot. rewrite Hrun, Hq.
    assert (status_is_member (get_status result) || get_is_member result
            = false) as ->; [|exact Hbranch].
    destruct result as [| | |status flag|]; try done.
    cbn [get_status get_is_member].
    destruct (status_is_member status) eqn:Hstatus.
    { exfalso. apply Hnot. exists status, flag. split; [done|].
      apply status_is_member_spec in Hstatus. tauto. }
    destruct flag; [|done].
    exfalso. apply Hnot. exists status, true. split; [done|]. tauto.
  - intros exc Hq Hnot. rewrite Hrun, Hq.
    assert (is_Forbidden exc = false) as ->; [|exact Hbranch].
    destruct exc; try done. exfalso. by eapply Hnot.
  - intros msg Hq. by rewrite Hrun, Hq.
  - subst not_member.
    destruct (attempt >=? GROUP_CHECK_MAX_ATTEMPTS); cbn [snd].
    + destruct (emits_send_remarketing (fun _ => true) SETTINGS ASSETS bot chat
                  (Some user) bcid (fun _ _ => eq_refl)
                  (fun _ _ _ => eq_refl) eq_refl
                  (set_jobs (alter with_removed i (jobs w1)) w1))
        as (calls & _ & _ & Hjobs & _).
      unfold removed. rewrite Hjobs. cbn [jobs set_jobs].
      rewrite list_lookup_alter_eq, Hj1. cbn. by rewrite orb_true_r.
    + by rewrite Hremoved, orb_false_r.
Qed.

(** On a gateway that reports the user as the creator of the group, the
    polling job of chat 5 puts its query, sends the approval text and is
    removed. *)
Lemma group_check_classification_witness :
  let run := _group_check_job demo_settings no_assets bot_creator
               {| ctx_job := Some 0%nat; ctx_job_queue := true |}
               polling_world in
  trace run.2
  = trace polling_world
      ++ [GetChatMember (group_id demo_settings) 7;
          SendMessage 5 GROUP_APPROVED_MESSAGE None None None]
  /\ run.1 = Ok tt
  /\ removed 0 run.2 = true.
Proof.
  destruct (group_check_classification demo_settings no_assets bot_creator
              polling_world 0%nat polling_job 5 7 true eq_refl eq_refl eq_refl)
    as (_ & Hmember & _).
  destruct (Hmember (RChatMember (Some "creator") false) eq_refl)
    as (Htrace & _ & Hresult).
  { exists (Some "creator"), false. split; [reflexivity|]. tauto. }
  split; [exact Htrace|]. exact Hresult.
Defined.

(** ** C7: the upsell job starts the polling only for a known user *)

Lemma upsell_run
    (SETTINGS : Settings) (ASSETS : Assets) (bot : Bot) (w : World)
    (i : nat) (j : Job) (chat : Z) (job_queue : bool) :
  jobs w !! i = Some j ->
  if_truthy (p_chat_id (job_data j)) = Some chat ->
  let user := p_user_id (job_data j) in
  let bcid := p_business_connection_id (job_data j) in
  _upsell_sequence_job SETTINGS ASSETS bot
    {| ctx_job := Some i; ctx_job_queue := job_queue |} w
  = (await_ (if truthy_str (AUDIO_OFERTANDO_UPSELL ASSETS) then
               await_ _safe_send_voice_prefer SETTINGS bot chat user
                        (FileStr (default "" (AUDIO_OFERTANDO_UPSELL ASSETS)))
                        None None bcid;
               ret tt
             else ret tt);
     await_ (if truthy_str (VIDEO_PREVIA_VIP ASSETS) then
               await_ _safe_send_video bot chat user
                        (FileStr (default "" (VIDEO_PREVIA_VIP ASSETS)))
                        None None bcid;
               ret tt
             else ret tt);
     await_ _safe_send_message bot chat user upsell_text None None bcid;
     await_ _safe_send_message bot chat user "Choose your VIP below 👇"
              None (Some vip_keyboard) bcid;
     if job_queue && truthy_int user then
       run_repeating group_check_job GROUP_CHECK_INTERVAL_SECONDS
         GROUP_CHECK_INTERVAL_SECONDS ("group_check:" +:+ pretty chat)
         {| p_chat_id := Some chat; p_user_id := user;
            p_business_connection_id := bcid; p_attempt := Some 0 |}
     else ret tt) w.
Proof.
  intros Hjob Hchat user bcid.
  unfold _upsell_sequence_job, get_job.
  unfold bind at 1. cbn [ctx_job]. rewrite Hjob.
  cbn [fmap option_fmap option_map]. unfold ret at 1.
  rewrite Hchat. reflexivity.
Qed.



(** ** C4: the grouping threshold *)

Lemma combo_run
    (SETTINGS : Settings) (ASSETS : Assets) (bot : Bot) (w : World)
    (i : nat) (j : Job) (chat : Z) (job_queue : bool) :
  jobs w !! i = Some j ->
  if_truthy (p_chat_id (job_data j)) = Some chat ->
  let user := p_user_id (job_data j) in
  let bcid := p_business_connection_id (job_data j) in
  _combo_delivery_beatriz_job SETTINGS ASSETS bot
    {| ctx_job := Some i; ctx_job_queue := job_queue |} w
  = (await_ _safe_send_message bot chat user
              "Hi, sorry for the delay. I'll send everything" None None bcid;
     await_ (if truthy_str (AUDIO_ENTREGA_COMBO ASSETS) then
               await_ _safe_send_voice_prefer SETTINGS bot chat user
                        (FileStr (default "" (AUDIO_ENTREGA_COMBO ASSETS)))
                        None None bcid;
               ret tt
             else ret tt);
     await_ send_photos ASSETS bot chat user bcid;
     await_ send_videos ASSETS bot chat user bcid;
     await_ (if truthy_str (AUDIO_POS_ENTREGA_COMBO ASSETS) then
               await_ _safe_send_voice_prefer SETTINGS bot chat user
                        (FileStr (default "" (AUDIO_POS_ENTREGA_COMBO ASSETS)))
                        None None bcid;
               ret tt
             else
               await_ _safe_send_message bot chat user
                        "Depois que olhar, me fala se gostou, tá bom? 🤍"
                        None None bcid;
               ret tt);
     if job_queue then
       run_once upsell_sequence_job VIP_OFFER_DELAY_SECONDS
         {| p_chat_id := Some chat; p_user_id := user;
            p_business_connection_id := bcid; p_attempt := None |}
         ("upsell:beatriz:" +:+ pretty chat)
     else ret tt) w.
Proof.
  intros Hjob Hchat user bcid.
  unfold _combo_delivery_beatriz_job, get_job.
  unfold bind at 1. cbn [ctx_job]. rewrite Hjob.
  cbn [fmap option_fmap option_map]. unfold ret at 1.
  rewrite Hchat. reflexivity.
Qed.

(** The photo step makes exactly the calls of [photo_calls]. *)
Lemma send_photos_trace ASSETS bot chat user bcid w :
  trace (send_photos ASSETS bot chat user bcid w).2
    = trace w ++ photo_calls ASSETS chat bcid
  /\ same_store w (send_photos ASSETS bot chat user bcid w).2.
Proof.
  unfold send_photos, photo_calls.
  destruct (configured (photos_ids ASSETS)) as [|p1 [|p2 photos]];
    cbn [List.length Nat.leb Nat.eqb lookup list_lookup].
  - cbn. rewrite app_nil_r. repeat split.
  - destruct (safe_send_trace bot chat user bcid (Photo (FileStr p1) None None) w)
      as (Ht & Hs).
    cbn [safe_send gateway_call] in Ht, Hs. unfold bind.
    destruct (_safe_send_photo bot chat user (FileStr p1) None None bcid w)
      as [[r|e] w1]; done.
  - destruct (safe_send_trace bot chat user bcid
                (MediaGroup (InputMediaPhoto <$> p1 :: p2 :: photos)) w)
      as (Ht & Hs).
    cbn [safe_send gateway_call] in Ht, Hs. unfold bind.
    destruct (_safe_send_media_group bot chat user _ bcid w)
      as [[r|e] w1]; done.
Qed.

Lemma send_videos_trace ASSETS bot chat user bcid w :
  trace (send_videos ASSETS bot chat user bcid w).2
    = trace w ++ video_calls ASSETS chat bcid
  /\ same_store w (send_videos ASSETS bot chat user bcid w).2.
Proof.
  unfold send_videos, video_calls.
  destruct (configured (videos_ids ASSETS)) as [|v1 [|v2 videos]];
    cbn [List.length Nat.leb Nat.eqb lookup list_lookup].
  - cbn. rewrite app_nil_r. repeat split.
  - destruct (safe_send_trace bot chat user bcid (Video (FileStr v1) None None) w)
      as (Ht & Hs).
    cbn [safe_send gateway_call] in Ht, Hs. unfold bind.
    destruct (_safe_send_video bot chat user (FileStr v1) None None bcid w)
      as [[r|e] w1]; done.
  - destruct (safe_send_trace bot chat user bcid
                (MediaGroup (InputMediaVideo <$> v1 :: v2 :: videos)) w)
      as (Ht & Hs).
    cbn [safe_send gateway_call] in Ht, Hs. unfold bind.
    destruct (_safe_send_media_group bot chat user _ bcid w)
      as [[r|e] w1]; done.
Qed.











(** ** C10: join requests *)

(** C10.  The join-request handler never raises and leaves the job table
    and the dispatch state alone.  For a request whose chat is the
    configured group it makes exactly one approve call and prints one
    line: the approval, or the failure when the call raised, whatever the
    exception.  For a request of any other chat, or an update without a
    request, it changes nothing and calls nothing. *)
Theorem join_request_approved_only_for_group
    (SETTINGS : Settings) (bot : Bot) (update : Update) (context : Context)
    (w : World) :
  let run := handle_chat_join_request SETTINGS bot update context w in
  run.1 = Ok tt
  /\ same_store w run.2
  /\ match chat_join_request update with
     | Some join_request =>
         let approve :=
           ApproveJoinRequest (Some (group_id SETTINGS))
             (user_id (jr_from_user join_request)) in
         if bool_decide (chat_id <$> jr_chat join_request
                         = Some (group_id SETTINGS))
         then trace run.2 = trace w ++ [approve]
              /\ log run.2
                 = log w ++ [match bot (trace w) approve with
                             | Ok _ => LogJoinApproved
                                         (user_id (jr_from_user join_request))
                             | Raise exc => LogJoinFailed exc
                             end]
         else run.2 = w
     | None => run.2 = w
     end.
Proof.
  cbv zeta. unfold handle_chat_join_request.
  destruct (chat_join_request update) as [join_request|]; [|done].
  destruct (bool_decide (chat_id <$> jr_chat join_request
                         = Some (group_id SETTINGS))) eqn:Hgroup; [|done].
  apply bool_decide_eq_true in Hgroup. rewrite Hgroup.
  cbn [negb]. unfold_monad.
  destruct (bot (trace w) _) as [r|exc]; done.
Qed.

(** ** C8: start-up configuration *)

Lemma or_empty_absent (v : option string) :
  absent v -> or_empty v = "".
Proof. by intros [-> | ->]. Qed.

Lemma or_empty_present (v : option string) (x : string) :
  v = Some x -> x <> "" -> or_empty v = x /\ truthy_str (Some x) = true.
Proof.
  intros -> Hx. unfold or_empty. cbn.
  destruct (String.eqb_spec x ""); done.
Qed.

Lemma absent_dec (v : option string) :
  absent v \/ exists x, v = Some x /\ x <> "".
Proof.
  destruct v as [x|]; [|left; by left].
  destruct (decide (x = "")) as [->|Hx]; [left; by right|].
  right. by exists x.
Qed.

(** C8.  [_load_settings] raises exactly when the token is absent, the
    group identifier is absent, or the group identifier is not read as an
    integer by [int]; with both present and the identifier numeric it
    hands back the settings with that token and that integer, and only
    then; its outcome depends on no other variable of the environment, so
    no content asset, set or not, can make it fail; and loading the
    module fails exactly when [_load_settings] does. *)
Theorem load_settings_fails_iff_missing_or_not_numeric
    (int : string -> option Z) (env : gmap string string) :
  ((exists exc, _load_settings int env = Raise exc)
   <-> absent (env !! "TELEGRAM_BOT_TOKEN")
       \/ absent (env !! "ID_DO_GRUPO")
       \/ exists raw, env !! "ID_DO_GRUPO" = Some raw /\ int raw = None)
  /\ (forall tok raw gid,
        env !! "TELEGRAM_BOT_TOKEN" = Some tok -> tok <> "" ->
        env !! "ID_DO_GRUPO" = Some raw -> raw <> "" ->
        int raw = Some gid ->
        _load_settings int env = Ok {| token := tok; group_id := gid |})
  /\ (forall settings,
        _load_settings int env = Ok settings ->
        env !! "TELEGRAM_BOT_TOKEN" = Some (token settings)
        /\ exists raw, env !! "ID_DO_GRUPO" = Some raw
                       /\ int raw = Some (group_id settings))
  /\ (forall env' : gmap string string,
        env' !! "TELEGRAM_BOT_TOKEN" = env !! "TELEGRAM_BOT_TOKEN" ->
        env' !! "ID_DO_GRUPO" = env !! "ID_DO_GRUPO" ->
        _load_settings int env' = _load_settings int env)
  /\ (forall name,
        name <> "TELEGRAM_BOT_TOKEN" -> name <> "ID_DO_GRUPO" ->
        _load_settings int (delete name env) = _load_settings int env)
  /\ ((exists exc, load_module int env = Raise exc)
      <-> exists exc, _load_settings int env = Raise exc).
Proof.
  assert (forall env' : gmap string string,
            env' !! "TELEGRAM_BOT_TOKEN" = env !! "TELEGRAM_BOT_TOKEN" ->
            env' !! "ID_DO_GRUPO" = env !! "ID_DO_GRUPO" ->
            _load_settings int env' = _load_settings int env) as Hframe.
  { intros env' Ht Hg. unfold _load_settings, _getenv. by rewrite Ht, Hg. }
  assert (forall tok raw gid,
            env !! "TELEGRAM_BOT_TOKEN" = Some tok -> tok <> "" ->
            env !! "ID_DO_GRUPO" = Some raw -> raw <> "" ->
            int raw = Some gid ->
            _load_settings int env = Ok {| token := tok; group_id := gid |})
    as Hok.
  { intros tok raw gid Ht Htne Hg Hgne Hint.
    unfold _load_settings, _getenv.
    destruct (or_empty_present _ _ Ht Htne) as (-> & ->).
    destruct (or_empty_present _ _ Hg Hgne) as (-> & ->).
    cbn. by rewrite Hint. }
  assert (absent (env !! "TELEGRAM_BOT_TOKEN") ->
          exists exc, _load_settings int env = Raise exc) as Hnotoken.
  { intros Ha. unfold _load_settings, _getenv.
    rewrite (or_empty_absent _ Ha).
    destruct (negb (truthy_str (Some (or_empty (env !! "ID_DO_GRUPO")))));
      cbn; eauto. }
  assert (absent (env !! "ID_DO_GRUPO") ->
          exists exc, _load_settings int env = Raise exc) as Hnogroup.
  { intros Ha. unfold _load_settings, _getenv.
    rewrite (or_empty_absent _ Ha).
    destruct (negb (truthy_str (Some (or_empty (env !! "TELEGRAM_BOT_TOKEN")))));
      cbn; eauto. }
  assert (forall tok raw,
            env !! "TELEGRAM_BOT_TOKEN" = Some tok -> tok <> "" ->
            env !! "ID_DO_GRUPO" = Some raw -> raw <> "" ->
            int raw = None ->
            exists exc, _load_settings int env = Raise exc) as Hnan.
  { intros tok raw Ht Htne Hg Hgne Hint.
    unfold _load_settings, _getenv.
    destruct (or_empty_present _ _ Ht Htne) as (-> & ->).
    destruct (or_empty_present _ _ Hg Hgne) as (-> & ->).
    cbn. rewrite Hint. eauto. }
  split; [|split; [exact Hok|split; [|split; [exact Hframe|split]]]].
  - split.
    + intros (exc & Hraise).
      destruct (absent_dec (env !! "TELEGRAM_BOT_TOKEN"))
        as [Ha|(tok & Ht & Htne)]; [by left|].
      destruct (absent_dec (env !! "ID_DO_GRUPO"))
        as [Ha|(raw & Hg & Hgne)]; [right; by left|].
      right. right. exists raw. split; [done|].
      destruct (int raw) as [gid|] eqn:Hint; [|done].
      rewrite (Hok tok raw gid Ht Htne Hg Hgne Hint) in Hraise. discriminate.
    + intros [Ha|[Ha|(raw & Hg & Hint)]]; [by apply Hnotoken|by apply Hnogroup|].
      destruct (absent_dec (env !! "TELEGRAM_BOT_TOKEN"))
        as [Ha|(tok & Ht & Htne)]; [by apply Hnotoken|].
      destruct (decide (raw = "")) as [->|Hgne].
      * apply Hnogroup. by right.
      * eapply Hnan; eauto.
  - intros settings Hload.
    destruct (absent_dec (env !! "TELEGRAM_BOT_TOKEN"))
      as [Ha|(tok & Ht & Htne)].
    { destruct (Hnotoken Ha) as (exc & Hraise). congruence. }
    destruct (absent_dec (env !! "ID_DO_GRUPO"))
      as [Ha|(raw & Hg & Hgne)].
    { destruct (Hnogroup Ha) as (exc & Hraise). congruence. }
    destruct (int raw) as [gid|] eqn:Hint.
    + rewrite (Hok tok raw gid Ht Htne Hg Hgne Hint) in Hload.
      injection Hload as <-. cbn. split; [done|]. by exists raw.
    + destruct (Hnan tok raw Ht Htne Hg Hgne Hint) as (exc & Hraise).
      congruence.
  - intros name Hn1 Hn2. apply Hframe; by rewrite lookup_delete_ne.
  - unfold load_module.
    destruct (_load_settings int env) as [settings|exc]; split;
      intros (exc' & H); try discriminate; eauto.
Qed.

(** ** C1 and C9: the dispatch guard *)

Lemma private_message_inv (chat : Z) (update : Update) :
  is_private_message_of chat update = true ->
  exists message c,
    effective_message update = Some message
    /\ effective_chat update = Some c
    /\ match from_user message with
       | Some from => is_bot from
       | None => false
       end = false
    /\ String.eqb (chat_type c) "private" = true
    /\ chat_id c = chat.
Proof.
  unfold is_private_message_of.
  destruct (effective_message update) as [message|]; [|discriminate].
  destruct (effective_chat update) as [c|]; [|discriminate].
  intros [[Hbot Hpriv]%andb_prop Hid%Z.eqb_eq]%andb_prop.
  apply negb_true_iff in Hbot. by exists message, c.
Qed.

(** A marked conversation: the handler returns at the guard. *)
Lemma handle_blocked (bot : Bot) (chat : Z) (update : Update)
    (context : Context) (w : World) :
  dispatched_in_chat_data chat w || dispatched_in_set chat w = true ->
  is_private_message_of chat update = true ->
  handle_text_message bot update context w = (Ok tt, w).
Proof.
  intros Hflag (message & c & Hm & Hc & Hbot & Hpriv & <-)%private_message_inv.
  unfold handle_text_message. rewrite Hm, Hc, Hbot, Hpriv. cbn [negb].
  unfold bind at 1. unfold get_chat_data at 1.
  unfold bind at 1. unfold in_dispatched at 1.
  unfold dispatched_in_chat_data, dispatched_in_set in Hflag.
  by rewrite Hflag.
Qed.

(** A fresh conversation: the handler marks it and goes on. *)
Lemma handle_admits (bot : Bot) (chat : Z) (update : Update)
    (context : Context) (w : World) :
  dispatched_in_chat_data chat w = false ->
  dispatched_in_set chat w = false ->
  is_private_message_of chat update = true ->
  exists message,
    effective_message update = Some message
    /\ handle_text_message bot update context w
       = (await_ mark_dispatched chat (business_connection_id message);
          if negb (ctx_job_queue context) then
            await_ sleep AUTO_REPLY_DELAY_SECONDS;
            await_ _safe_reply_text bot message apology None None;
            ret tt
          else
            fun w' => (Ok tt, set_jobs (jobs w' ++ combo_job_for update) w')) w.
Proof.
  intros Hdata Hset
    (message & c & Hm & Hc & Hbot & Hpriv & <-)%private_message_inv.
  exists message. split; [done|].
  unfold handle_text_message, combo_job_for. rewrite Hm, Hc, Hbot, Hpriv.
  cbn [negb].
  unfold bind at 1. unfold get_chat_data at 1.
  unfold bind at 1. unfold in_dispatched at 1.
  unfold dispatched_in_chat_data, dispatched_in_set in Hdata, Hset.
  rewrite Hdata, Hset. cbn [orb].
  unfold mark_dispatched, bind, set_combo_dispatched, add_dispatched.
  cbn [fst snd].
  destruct (truthy_str (business_connection_id message));
    destruct (ctx_job_queue context); reflexivity.
Qed.

Lemma mark_dispatched_effect (chat : Z) (bcid : option string) (w : World) :
  let w' := (mark_dispatched chat bcid w).2 in
  (mark_dispatched chat bcid w).1 = Ok tt
  /\ dispatched_in_chat_data chat w' = true
  /\ dispatched_in_set chat w' = true
  /\ jobs w' = jobs w /\ trace w' = trace w /\ log w' = log w
  /\ COMBO_DISPATCHED_CHATS w' = {[chat]} ∪ COMBO_DISPATCHED_CHATS w.
Proof.
  unfold mark_dispatched, bind, set_combo_dispatched, add_dispatched,
    set_chat_bcid, ret, dispatched_in_chat_data, dispatched_in_set.
  cbn [fst snd].
  destruct (truthy_str bcid); cbn;
    rewrite ?lookup_insert_eq; cbn; rewrite ?lookup_insert_eq; cbn;
    (repeat split; try done); apply bool_decide_eq_true; set_solver.
Qed.

(** The reply helper makes its reply call and, after a [TypeError] only,
    the direct send. *)
Lemma safe_reply_text_trace (bot : Bot) (message : Message) (text : string)
    (w : World) :
  let w' := (_safe_reply_text bot message text None None w).2 in
  trace w'
  = trace w ++ ReplyText (message_id message) text None None
                 (business_connection_id message)
               :: reply_fallback bot (trace w) message text
  /\ same_store w w'.
Proof.
  unfold _safe_reply_text, reply_fallback. unfold_monad.
  destruct (bot (trace w) (ReplyText _ _ _ _ _)) as [r|exc]; [done|].
  destruct (is_TypeError exc) eqn:Htype.
  - unfold or_int.
    destruct (msg_has_bot message); [|done].
    destruct (msg_chat message) as [c|]; [|done].
    cbn [fmap option_fmap option_map].
    assert ((if truthy_int (Some (chat_id c)) then Some (chat_id c)
             else Some (chat_id c)) = Some (chat_id c)) as ->
      by (by destruct (truthy_int _)).
    cbn [trace set_trace].
    destruct (bot _ (SendMessage _ _ _ _ _)) as [r|exc'];
      cbn; rewrite <- app_assoc; done.
  - destruct (is_Forbidden_or_BadRequest exc); [|done].
    by destruct (existsb _ _).
Qed.

Lemma process_updates_blocked (bot : Bot) (chat : Z)
    (updates : list (Update * Context)) (w : World) :
  dispatched_in_chat_data chat w || dispatched_in_set chat w = true ->
  Forall (fun uc => is_private_message_of chat uc.1 = true) updates ->
  process_updates bot updates w = w.
Proof.
  intros Hflag Hall. induction Hall as [|[update context] rest Hu _ IH]; [done|].
  cbn [process_updates]. by rewrite (handle_blocked bot chat).
Qed.


(** What the first message of a fresh conversation does, with or without
    a job queue. *)
Lemma first_message_effect (bot : Bot) (chat : Z) (update : Update)
    (context : Context) (w : World) :
  dispatched_in_chat_data chat w = false ->
  dispatched_in_set chat w = false ->
  is_private_message_of chat update = true ->
  let w1 := (handle_text_message bot update context w).2 in
  dispatched_in_chat_data chat w1 = true
  /\ dispatched_in_set chat w1 = true
  /\ jobs w1
     = jobs w ++ (if ctx_job_queue context then combo_job_for update else [])
  /\ COMBO_DISPATCHED_CHATS w1 = {[chat]} ∪ COMBO_DISPATCHED_CHATS w
  /\ exists message,
       effective_message update = Some message
       /\ trace w1
          = trace w
              ++ (if ctx_job_queue context then []
                  else Sleep AUTO_REPLY_DELAY_SECONDS
                       :: ReplyText (message_id message) apology None None
                            (business_connection_id message)
                       :: reply_fallback bot
                            (trace w ++ [Sleep AUTO_REPLY_DELAY_SECONDS])
                            message apology).
Proof.
  intros Hdata Hset Hpriv.
  destruct (handle_admits bot chat update context w Hdata Hset Hpriv)
    as (message & Hm & ->).
  cbv zeta.
  destruct (mark_dispatched_effect chat (business_connection_id message) w)
    as (Hok & Hd & Hs & Hj & Ht & _ & Hset').
  cbv zeta in Hd, Hs, Hj, Ht, Hset'.
  set (k := if negb (ctx_job_queue context)
            then await_ sleep AUTO_REPLY_DELAY_SECONDS;
                 await_ _safe_reply_text bot message apology None None;
                 ret tt
            else fun w' =>
                   (Ok tt, set_jobs (jobs w' ++ combo_job_for update) w')).
  assert ((await_ mark_dispatched chat (business_connection_id message); k) w
          = k (mark_dispatched chat (business_connection_id message) w).2)
    as ->.
  { unfold bind.
    destruct (mark_dispatched chat (business_connection_id message) w)
      as [[r|e] wm']; [done|discriminate]. }
  set (wm := (mark_dispatched chat (business_connection_id message) w).2) in *.
  subst k. destruct (ctx_job_queue context); cbn [negb].
  - cbn [snd jobs set_jobs trace]. rewrite Hj, Ht, app_nil_r.
    repeat split; try done. by exists message.
  - set (ws := set_trace (trace wm ++ [Sleep AUTO_REPLY_DELAY_SECONDS]) wm).
    destruct (safe_reply_text_trace bot message apology ws)
      as (Htr & Hjr & Hcr & Hsr).
    cbv zeta in Htr, Hjr, Hcr, Hsr.
    assert (((await_ sleep AUTO_REPLY_DELAY_SECONDS;
              await_ _safe_reply_text bot message apology None None; ret tt)
               wm).2
            = (_safe_reply_text bot message apology None None ws).2) as ->.
    { unfold bind, ret, sleep. fold ws.
      by destruct (_safe_reply_text bot message apology None None ws)
        as [[o|e] w']. }
    unfold dispatched_in_chat_data, dispatched_in_set in *.
    rewrite Hcr, Hsr, Hjr, Htr. subst ws. cbn [trace set_trace jobs chat_data
      COMBO_DISPATCHED_CHATS]. rewrite Hj, Ht, app_nil_r, <- app_assoc.
    repeat split; try done. by exists message.
Qed.

(** The handler on any update whatever: it returns at a guard, changing
    nothing, or admits a conversation that was not marked. *)
Lemma handle_text_cases (bot : Bot) (update : Update) (context : Context)
    (w : World) :
  handle_text_message bot update context w = (Ok tt, w)
  \/ exists c, is_private_message_of c update = true
               /\ dispatched_in_chat_data c w = false
               /\ dispatched_in_set c w = false.
Proof.
  unfold handle_text_message, is_private_message_of.
  destruct (effective_message update) as [message|]; [|by left].
  destruct (effective_chat update) as [c|]; [|by left].
  destruct (match from_user message with
            | Some from => is_bot from
            | None => false
            end); [by left|].
  destruct (String.eqb (chat_type c) "private"); [|by left].
  cbn [negb]. unfold bind at 1. unfold get_chat_data at 1.
  unfold bind at 1. unfold in_dispatched at 1.
  destruct (combo_dispatched (default empty_chat_data (chat_data w !! chat_id c)))
    eqn:Hdata; [by left|].
  destruct (bool_decide (chat_id c ∈ COMBO_DISPATCHED_CHATS w)) eqn:Hset;
    [by left|].
  right. exists (chat_id c). by rewrite Z.eqb_refl.
Qed.


(** ** The marks of a conversation through the life of the process *)

Lemma preserves_ret {A X} (obs : World -> X) (a : A) : preserves obs (ret a).
Proof. by intros w. Qed.

Lemma preserves_bind {A B X} (obs : World -> X) (m : M A) (k : A -> M B) :
  preserves obs m -> (forall a, preserves obs (k a)) -> preserves obs (bind m k).
Proof.
  intros Hm Hk w. unfold bind. specialize (Hm w).
  destruct (m w) as [[a|e] w1]; cbn [snd] in *; [|done].
  by rewrite Hk.
Qed.

Lemma marks_same_store chat w w' :
  same_store w w' -> marks chat w' = marks chat w.
Proof.
  intros (Hj & Hc & Hd). unfold marks, combo_jobs_for. by rewrite Hj, Hc, Hd.
Qed.

Lemma preserves_emits {A} chat P (m : M A) :
  emits P m -> preserves (marks chat) m.
Proof.
  intros Hm w. destruct (Hm w) as (calls & _ & _ & Hs).
  by apply marks_same_store.
Qed.

Lemma preserves_voice chat SETTINGS bot c user voice cap pm bcid :
  preserves (marks chat)
    (_safe_send_voice_prefer SETTINGS bot c user voice cap pm bcid).
Proof.
  apply (preserves_emits chat (fun _ => true)). by apply emits_voice_prefer.
Qed.

Lemma preserves_safe_send chat bot c user bcid s :
  preserves (marks chat) (safe_send bot c user bcid s).
Proof.
  apply (preserves_emits chat (fun _ => true)). by apply emits_safe_send.
Qed.

Lemma filter_alter_length {A} (f : A -> bool) (g : A -> A) (i : nat)
    (l : list A) :
  (forall x, l !! i = Some x -> f (g x) = f x) ->
  List.length (List.filter f (alter g i l)) = List.length (List.filter f l).
Proof.
  revert i. induction l as [|x l IH]; intros i Hf; [done|].
  destruct i as [|i]; cbn.
  - rewrite (Hf x eq_refl). by destruct (f x).
  - specialize (IH i (fun y Hy => Hf y Hy)).
    destruct (f x); cbn; by rewrite IH.
Qed.

Lemma marks_removal chat i w :
  marks chat (set_jobs (alter with_removed i (jobs w)) w) = marks chat w.
Proof.
  unfold marks, combo_jobs_for. cbn [jobs set_jobs chat_data
    COMBO_DISPATCHED_CHATS].
  by rewrite filter_alter_length.
Qed.

Lemma marks_counted chat i j w :
  jobs w !! i = Some j ->
  marks chat (set_jobs (alter (with_data (counted (job_data j))) i (jobs w)) w)
  = marks chat w.
Proof.
  intros Hjob. unfold marks, combo_jobs_for. cbn [jobs set_jobs chat_data
    COMBO_DISPATCHED_CHATS].
  rewrite filter_alter_length; [done|].
  intros x Hx. rewrite Hjob in Hx. by injection Hx as <-.
Qed.

Lemma marks_other_job chat w (j : Job) :
  is_combo_job j = false ->
  marks chat (set_jobs (jobs w ++ [j]) w) = marks chat w.
Proof.
  intros Hj. unfold marks, combo_jobs_for. cbn [jobs set_jobs chat_data
    COMBO_DISPATCHED_CHATS].
  rewrite List.filter_app. cbn. rewrite Hj. cbn. by rewrite app_nil_r.
Qed.

Lemma preserves_remove_if_job chat job :
  preserves (marks chat) (remove_if_job job).
Proof.
  intros w. destruct job as [[i j]|]; [apply marks_removal|done].
Qed.

Lemma preserves_send_remarketing chat SETTINGS ASSETS bot c user bcid :
  preserves (marks chat) (_send_remarketing SETTINGS ASSETS bot c user bcid).
Proof.
  apply (preserves_emits chat (fun _ => true)).
  by apply emits_send_remarketing.
Qed.

Section Marks.

Variable SETTINGS : Settings.
Variable ASSETS : Assets.
Variable chat : Z.

Lemma preserves_group_check bot context :
  preserves (marks chat) (_group_check_job SETTINGS ASSETS bot context).
Proof.
  intros w. unfold _group_check_job.
  unfold bind at 1. unfold get_job at 1.
  destruct (match ctx_job context with
            | Some i => (fun j => (i, j)) <$> jobs w !! i
            | None => None
            end) as [[i j]|] eqn:Hjob.
  - assert (jobs w !! i = Some j) as Hlookup.
    { destruct (ctx_job context) as [i'|]; [|discriminate].
      destruct (jobs w !! i') as [j'|] eqn:Hj'; [|discriminate].
      by injection Hjob as <- <-. }
    unfold bind at 1. unfold set_job_data at 1.
    rewrite <- (marks_counted chat i j w Hlookup).
    fold (counted (job_data j)).
    set (w1 := set_jobs _ w).
    destruct (if_truthy (p_chat_id (job_data j))) as [c|];
      [|apply preserves_remove_if_job].
    destruct (if_truthy (p_user_id (job_data j))) as [u|];
      [|apply preserves_remove_if_job].
    apply preserves_bind.
    + apply (preserves_emits chat (fun _ => true)).
      apply emits_try_except.
      * apply emits_bind; [by apply emits_call | intros; apply emits_ret].
      * intros e h. destruct (is_Forbidden e), (is_BadRequest e);
          intros [= <-]; apply emits_ret.
    + intros [is_member|]; [|apply preserves_ret].
      destruct is_member.
      * apply preserves_bind; [|intros; apply preserves_remove_if_job].
        apply (preserves_safe_send chat bot c (Some u) _
                 (Text GROUP_APPROVED_MESSAGE None None)).
      * destruct (_ >=? _); [|apply preserves_ret].
        apply preserves_bind; [apply preserves_remove_if_job|].
        intros _. apply preserves_send_remarketing.
  - unfold bind at 1. cbn [ret empty_payload p_chat_id if_truthy truthy_int].
    done.
Qed.

Lemma preserves_upsell bot context :
  preserves (marks chat) (_upsell_sequence_job SETTINGS ASSETS bot context).
Proof.
  unfold _upsell_sequence_job. apply preserves_bind; [by intros w|].
  intros job. destruct (if_truthy _) as [c|]; [|apply preserves_ret].
  apply preserves_bind.
  { destruct (truthy_str (AUDIO_OFERTANDO_UPSELL ASSETS));
      [|apply preserves_ret].
    apply preserves_bind; [apply preserves_voice | intros; apply preserves_ret]. }
  intros _. apply preserves_bind.
  { destruct (truthy_str (VIDEO_PREVIA_VIP ASSETS)); [|apply preserves_ret].
    apply preserves_bind; [|intros; apply preserves_ret].
    apply (preserves_safe_send chat bot c _ _ (Video _ None None)). }
  intros _. apply preserves_bind.
  { apply (preserves_safe_send chat bot c _ _ (Text _ None None)). }
  intros _. apply preserves_bind.
  { apply (preserves_safe_send chat bot c _ _ (Text _ None (Some _))). }
  intros _. destruct (_ && _); [|apply preserves_ret].
  intros w. by apply marks_other_job.
Qed.

Lemma preserves_combo bot context :
  preserves (marks chat) (_combo_delivery_beatriz_job SETTINGS ASSETS bot context).
Proof.
  unfold _combo_delivery_beatriz_job. apply preserves_bind; [by intros w|].
  intros job. destruct (if_truthy _) as [c|]; [|apply preserves_ret].
  apply preserves_bind.
  { apply (preserves_safe_send chat bot c _ _ (Text _ None None)). }
  intros _. apply preserves_bind.
  { destruct (truthy_str (AUDIO_ENTREGA_COMBO ASSETS)); [|apply preserves_ret].
    apply preserves_bind; [apply preserves_voice | intros; apply preserves_ret]. }
  intros _. apply preserves_bind.
  { intros w. apply marks_same_store, send_photos_trace. }
  intros _. apply preserves_bind.
  { intros w. apply marks_same_store, send_videos_trace. }
  intros _. apply preserves_bind.
  { destruct (truthy_str (AUDIO_POS_ENTREGA_COMBO ASSETS)).
    - apply preserves_bind; [apply preserves_voice | intros; apply preserves_ret].
    - apply preserves_bind; [|intros; apply preserves_ret].
      apply (preserves_safe_send chat bot c _ _ (Text _ None None)). }
  intros _. destruct (ctx_job_queue context); [|apply preserves_ret].
  intros w. by apply marks_other_job.
Qed.

(** No due job touches the marks of a conversation. *)
Lemma fire_marks bot i w :
  marks chat (fire SETTINGS ASSETS bot i w) = marks chat w.
Proof.
  unfold fire. destruct (jobs w !! i) as [j|]; [|done].
  destruct (job_removed j); [done|].
  assert (marks chat
            (run_callback SETTINGS ASSETS (job_callback j) bot
               {| ctx_job := Some i; ctx_job_queue := true |} w).2
          = marks chat w) as Hrun.
  { destruct (job_callback j); cbn [run_callback];
      [apply preserves_combo | apply preserves_upsell
      | apply preserves_group_check]. }
  destruct (job_trigger j); [|done].
  by rewrite marks_removal.
Qed.

End Marks.

Section Settled.

Variable SETTINGS : Settings.
Variable ASSETS : Assets.
Variable chat : Z.

(** Once a conversation is in [COMBO_DISPATCHED_CHATS], nothing the
    process does takes it out or schedules a combo delivery for it. *)
Lemma step_settled (bot : Bot) (event : Event) (w : World) :
  dispatched_in_set chat w = true ->
  dispatched_in_set chat (step SETTINGS ASSETS bot event w) = true
  /\ combo_jobs_for chat (step SETTINGS ASSETS bot event w)
     = combo_jobs_for chat w.
Proof.
  intros Hset. destruct event as [update context|update context|i];
    cbn [step].
  - destruct (handle_text_cases bot update context w)
      as [-> | (c & Hpriv & Hdata & Hsetc)]; [done|].
    assert (c <> chat) as Hne by (intros ->; congruence).
    destruct (first_message_effect bot c update context w Hdata Hsetc Hpriv)
      as (_ & _ & Hj & Hcombo & _).
    cbv zeta in Hj, Hcombo.
    unfold dispatched_in_set in *. rewrite Hcombo. split.
    + apply bool_decide_eq_true. apply bool_decide_eq_true in Hset.
      apply elem_of_union. by right.
    + unfold combo_jobs_for. rewrite Hj, List.filter_app, length_app.
      destruct (ctx_job_queue context); [|cbn; lia].
      destruct (private_message_inv c update Hpriv)
        as (message & c' & Hm & Hc & _ & _ & Hid).
      unfold combo_job_for. rewrite Hm, Hc. cbn.
      rewrite bool_decide_eq_false_2; [cbn; lia|].
      intros [= Heq]. apply Hne. by rewrite <- Hid.
  - pose proof (preserves_emits chat (fun _ => true)
                  (handle_chat_join_request SETTINGS bot update context)) as Hp.
    assert (marks chat (handle_chat_join_request SETTINGS bot update context w).2
            = marks chat w) as [= Hc _ Hd].
    { apply Hp. unfold handle_chat_join_request.
      destruct (chat_join_request update) as [jr|]; [|apply emits_ret].
      destruct (negb _); [apply emits_ret|].
      apply emits_try_except.
      - apply emits_bind; [by apply emits_call | intros; apply emits_print].
      - intros e h [= <-]. apply emits_print. }
    unfold dispatched_in_set in *. by rewrite Hd.
  - pose proof (fire_marks SETTINGS ASSETS chat bot i w) as [= Hc _ Hd].
    unfold dispatched_in_set in *. by rewrite Hd.
Qed.

Lemma run_events_settled (bot : Bot) (events : list Event) (w : World) :
  dispatched_in_set chat w = true ->
  dispatched_in_set chat (run_events SETTINGS ASSETS bot events w) = true
  /\ combo_jobs_for chat (run_events SETTINGS ASSETS bot events w)
     = combo_jobs_for chat w.
Proof.
  revert w. induction events as [|event events IH]; intros w Hset; [done|].
  cbn [run_events].
  destruct (step_settled bot event w Hset) as (Hset' & Hcount).
  destruct (IH _ Hset') as (Hset'' & Hcount'').
  split; [done|]. by rewrite Hcount''.
Qed.

End Settled.

(** ** C1 and C9: the theorems *)

(** C1, as stated, fails: the first private message of chat 5, from a
    user that is no bot, handled without a job queue, marks the
    conversation and schedules no combo delivery job. *)
Lemma no_combo_job_without_job_queue :
  is_private_message_of 5 hello = true
  /\ combo_jobs_for 5
       (process_updates bot_not_member [(hello, without_queue)] empty_world)
     = 0%nat
  /\ dispatched_in_set 5
       (process_updates bot_not_member [(hello, without_queue)] empty_world)
     = true.
Proof. vm_compute. repeat split. Qed.

(** C1, amended.  For every sequence of one or more private messages of
    one conversation from senders that are no bots, starting with the
    conversation unmarked: the first message marks it in the per-chat data
    and in [COMBO_DISPATCHED_CHATS], and schedules the combo delivery job
    when a job queue is available to it; every later message finds the
    mark and changes nothing.  So the job is scheduled at most once, and
    exactly once when the first message is handled with a job queue.
    Whatever the process does afterwards (messages of any conversation,
    join requests, due jobs), the conversation stays marked and no further
    combo delivery job is scheduled for it. *)
Theorem combo_scheduled_once_per_conversation
    (bot : Bot) (chat : Z) (w : World) (first : Update) (context : Context)
    (rest : list (Update * Context)) :
  dispatched_in_chat_data chat w = false ->
  dispatched_in_set chat w = false ->
  is_private_message_of chat first = true ->
  Forall (fun uc => is_private_message_of chat uc.1 = true) rest ->
  let w' := process_updates bot ((first, context) :: rest) w in
  w' = (handle_text_message bot first context w).2
  /\ jobs w'
     = jobs w ++ (if ctx_job_queue context then combo_job_for first else [])
  /\ combo_jobs_for chat w'
     = (combo_jobs_for chat w + (if ctx_job_queue context then 1 else 0))%nat
  /\ dispatched_in_chat_data chat w' = true
  /\ dispatched_in_set chat w' = true
  /\ forall (SETTINGS : Settings) (ASSETS : Assets) (bot' : Bot)
            (events : list Event),
       dispatched_in_set chat (run_events SETTINGS ASSETS bot' events w') = true
       /\ combo_jobs_for chat (run_events SETTINGS ASSETS bot' events w')
          = combo_jobs_for chat w'.
Proof.
  intros Hdata Hset Hpriv Hrest. cbv zeta. cbn [process_updates].
  destruct (first_message_effect bot chat first context w Hdata Hset Hpriv)
    as (Hd & Hs & Hj & _).
  cbv zeta in Hd, Hs, Hj.
  set (w1 := (handle_text_message bot first context w).2) in *.
  rewrite (process_updates_blocked bot chat rest w1);
    [|by rewrite Hd|done].
  split; [done|]. split; [done|]. split.
  { unfold combo_jobs_for at 1. rewrite Hj, List.filter_app, length_app.
    fold (combo_jobs_for chat w). f_equal.
    destruct (ctx_job_queue context); [|done].
    destruct (private_message_inv chat first Hpriv)
      as (message & c & Hm & Hc & _ & _ & <-).
    unfold combo_job_for. rewrite Hm, Hc. cbn.
    by rewrite bool_decide_eq_true_2. }
  split; [done|]. split; [done|].
  intros SETTINGS ASSETS bot' events.
  by apply run_events_settled.
Qed.

(** Three messages of chat 5 with a job queue: one combo delivery job. *)
Lemma combo_scheduled_once_per_conversation_witness :
  combo_jobs_for 5
    (process_updates bot_not_member
       [(hello, with_queue); (hello, with_queue); (hello, without_queue)]
       empty_world)
  = 1%nat.
Proof.
  destruct (combo_scheduled_once_per_conversation bot_not_member 5 empty_world
              hello with_queue [(hello, with_queue); (hello, without_queue)]
              eq_refl eq_refl eq_refl)
    as (_ & _ & Hcount & _).
  - repeat constructor.
  - exact Hcount.
Defined.

(** C9.  When a fresh conversation is admitted and the handler has no job
    queue: the conversation is marked all the same, in both places; the
    handler waits [AUTO_REPLY_DELAY_SECONDS] and replies with the apology,
    which a direct send of the same text replaces only after a
    [TypeError] of the reply; the job table is as before, so no combo,
    upsell or polling job exists for the conversation; and every later
    private message of the conversation, on any gateway and with or
    without a job queue, changes nothing, also after anything else the
    process does in between (messages of other conversations, join
    requests, due jobs), none of which schedules a combo delivery for the
    conversation. *)
Theorem no_job_queue_consumes_dispatch
    (bot : Bot) (chat : Z) (w : World) (update : Update) (context : Context) :
  dispatched_in_chat_data chat w = false ->
  dispatched_in_set chat w = false ->
  is_private_message_of chat update = true ->
  ctx_job_queue context = false ->
  let w1 := (handle_text_message bot update context w).2 in
  dispatched_in_chat_data chat w1 = true
  /\ dispatched_in_set chat w1 = true
  /\ jobs w1 = jobs w
  /\ (exists message,
        effective_message update = Some message
        /\ trace w1
           = trace w
               ++ Sleep AUTO_REPLY_DELAY_SECONDS
                  :: ReplyText (message_id message) apology None None
                       (business_connection_id message)
                  :: reply_fallback bot
                       (trace w ++ [Sleep AUTO_REPLY_DELAY_SECONDS])
                       message apology)
  /\ (forall (bot' : Bot) (later : list (Update * Context)),
        Forall (fun uc => is_private_message_of chat uc.1 = true) later ->
        process_updates bot' later w1 = w1)
  /\ forall (SETTINGS : Settings) (ASSETS : Assets) (bot' : Bot)
            (events : list Event) (update' : Update) (context' : Context),
       is_private_message_of chat update' = true ->
       let w2 := run_events SETTINGS ASSETS bot' events w1 in
       combo_jobs_for chat w2 = combo_jobs_for chat w
       /\ handle_text_message bot' update' context' w2 = (Ok tt, w2).
Proof.
  intros Hdata Hset Hpriv Hqueue.
  destruct (first_message_effect bot chat update context w Hdata Hset Hpriv)
    as (Hd & Hs & Hj & _ & message & Hm & Ht).
  cbv zeta in *. rewrite Hqueue in Hj, Ht. rewrite app_nil_r in Hj.
  split; [done|]. split; [done|]. split; [done|].
  split; [by exists message|]. split.
  { intros bot' later Hlater.
    apply (process_updates_blocked bot' chat); [by rewrite Hd|done]. }
  intros SETTINGS ASSETS bot' events update' context' Hpriv'.
  destruct (run_events_settled SETTINGS ASSETS chat bot' events _ Hs)
    as (Hs2 & Hcount).
  split.
  - rewrite Hcount. unfold combo_jobs_for. by rewrite Hj.
  - apply (handle_blocked bot' chat); [|done].
    rewrite Hs2. apply orb_true_r.
Qed.

(** The first message of chat 5 without a job queue: a wait, the apology,
    no job; a second message, now with a job queue, changes nothing. *)
Lemma no_job_queue_consumes_dispatch_witness :
  jobs (handle_text_message bot_not_member hello without_queue empty_world).2
    = []
  /\ process_updates bot_not_member [(hello, with_queue)]
       (handle_text_message bot_not_member hello without_queue empty_world).2
     = (handle_text_message bot_not_member hello without_queue empty_world).2.
Proof.
  destruct (no_job_queue_consumes_dispatch bot_not_member 5 empty_world hello
              without_queue eq_refl eq_refl eq_refl eq_refl)
    as (_ & _ & Hjobs & _ & Hlater & _).
  split; [exact Hjobs|]. apply Hlater. repeat constructor.
Defined.


(** ** The definitions at work *)

(** A gateway for an identity that may not send voice notes: the native
    send and the retry with the file URL are refused, the file resolves,
    the audio goes through. *)
Example voice_refused_ends_in_audio :
  let bot : Bot :=
    fun _ c =>
      match c with
      | SendVoice _ _ _ _ _ => Raise (BadRequest "Voice_messages_forbidden")
      | GetFile _ => Ok (RFile (Some "/voice/file_7.oga"))
      | _ => Ok (RMessage 42)
      end in
  let run := _safe_send_voice_prefer demo_settings bot 5 (Some 7)
               (FileStr "voice-id") None None None empty_world in
  run.1 = Ok (Some (RMessage 42))
  /\ trace run.2
     = [ SendVoice 5 (FileStr "voice-id") None None None;
         GetFile "voice-id";
         SendVoice 5
           (FileStr "https://api.telegram.org/file/bot123:abc/voice/file_7.oga")
           None None None;
         SendAudio 5 (FileStr "voice-id") None None None ].
Proof. vm_compute. split; reflexivity. Qed.

(** Raw bytes are never resolved: after the refusal the audio is next. *)
Example voice_bytes_skip_the_url_level :
  (_safe_send_voice_prefer demo_settings bot_blocked 5 (Some 7)
     (FileBytes []) None None None empty_world).1 = Ok None
  /\ trace (_safe_send_voice_prefer demo_settings bot_blocked 5 (Some 7)
              (FileBytes []) None None None empty_world).2
     = [ SendVoice 5 (FileBytes []) None None None;
         SendAudio 5 (FileBytes []) None None None ]
  /\ log (_safe_send_voice_prefer demo_settings bot_blocked 5 (Some 7)
            (FileBytes []) None None None empty_world).2
     = [LogBlocked (Some 7)].
Proof. vm_compute. repeat split. Qed.

(** An exception that is neither [Forbidden] nor [BadRequest] is not
    swallowed by a send helper. *)
Example unclassified_error_propagates :
  (_safe_send_message (fun _ _ => Raise (OtherError "Timed out")) 5 (Some 7)
     "hi" None None None empty_world).1
  = Raise (OtherError "Timed out").
Proof. reflexivity. Qed.

(** The whole funnel of chat 5 on a gateway where the user never joins:
    the message, the combo delivery, the upsell, five polls, the
    remarketing text; all three jobs end removed. *)
Example funnel_without_conversion :
  let w1 := process_updates bot_not_member [(hello, with_queue)] empty_world in
  let w2 := run_events demo_settings no_assets bot_not_member
              [Due 0; Due 1; Due 2; Due 2; Due 2; Due 2; Due 2; Due 2; Due 2]
              w1 in
  job_name <$> jobs w2
    = ["auto_reply:beatriz:5:1"; "upsell:beatriz:5"; "group_check:5"]
  /\ job_removed <$> jobs w2 = [true; true; true]
  /\ checks w2 = 5%nat
  /\ attempt_of 2 w2 = Some 5
  /\ List.length (trace w2) = 10%nat
  /\ last (trace w2)
     = Some (SendMessage 5
               ("Okay babe, I've already applied the discount for you 😘" +:+ nl
                +:+ "Take advantage now, because I'll delete this message later, just click here 👇")
               None
               (Some [[("I WANT THIS 🔥", EU_QUERO_LINK)]]) None).
Proof. vm_compute. repeat split. Qed.

(** A member with status "administrator" ends the polling at the first
    check with the approval text. *)
Example funnel_with_conversion :
  let bot : Bot :=
    fun _ c =>
      match c with
      | GetChatMember _ _ => Ok (RChatMember (Some "administrator") false)
      | _ => Ok (RMessage 1)
      end in
  let w := fire_n demo_settings no_assets 3 bot 0 polling_world in
  trace w
    = [ GetChatMember (-1001234567890) 7;
        SendMessage 5 GROUP_APPROVED_MESSAGE None None None ]
  /\ removed 0 w = true
  /\ attempt_of 0 w = Some 1.
Proof. vm_compute. repeat split. Qed.

Example load_settings_examples :
  _load_settings decimal_int
    {[ "TELEGRAM_BOT_TOKEN" := "123:abc"; "ID_DO_GRUPO" := "-1001234567890" ]}
  = Ok demo_settings
  /\ _load_settings decimal_int
       {[ "TELEGRAM_BOT_TOKEN" := "123:abc"; "ID_DO_GRUPO" := "my-group" ]}
     = Raise (RuntimeError
                "ID_DO_GRUPO deve ser numérico (ex.: -1001234567890).")
  /\ _load_settings decimal_int {[ "ID_DO_GRUPO" := "-1001234567890" ]}
     = Raise (RuntimeError "Variáveis faltando: TELEGRAM_BOT_TOKEN")
  /\ _load_settings decimal_int ∅
     = Raise (RuntimeError
                "Variáveis faltando: TELEGRAM_BOT_TOKEN, ID_DO_GRUPO").
Proof. vm_compute. repeat split. Qed.

(** * Further properties of the code *)

(** ** Strings *)

Lemma prefix_spec (needle hay : string) :
  String.prefix needle hay = true <-> exists rest, hay = needle +:+ rest.
Proof.
  revert hay. induction needle as [|c needle IH]; intros hay.
  - split; [|by destruct hay]. intros _. by exists hay.
  - destruct hay as [|d hay]; cbn.
    + split; [discriminate|]. intros (rest & Hrest). discriminate.
    + destruct (Ascii.ascii_dec c d) as [->|Hne].
      * rewrite IH. split; intros (rest & Hrest); exists rest.
        -- by rewrite Hrest.
        -- by injection Hrest.
      * split; [discriminate|]. intros (rest & Hrest).
        injection Hrest as Hc _. congruence.
Qed.

(** [needle in hay] is true exactly when [needle] occurs in [hay]. *)
Lemma contains_spec (needle hay : string) :
  contains needle hay = true <-> infix_of needle hay.
Proof.
  unfold infix_of. induction hay as [|d hay IH].
  - cbn [contains]. destruct (String.prefix needle "") eqn:Hp.
    + split; [|done]. intros _. apply prefix_spec in Hp as (rest & Hrest).
      by exists "", rest.
    + split; [discriminate|]. intros (before & after & Heq).
      destruct before as [|b before]; [|discriminate].
      assert (String.prefix needle "" = true) as Hp'
        by (apply prefix_spec; by exists after).
      congruence.
  - cbn [contains]. destruct (String.prefix needle (String d hay)) eqn:Hp.
    + split; [|done]. intros _. apply prefix_spec in Hp as (rest & Hrest).
      by exists "", rest.
    + rewrite IH. split.
      * intros (before & after & ->). by exists (String d before), after.
      * intros (before & after & Heq). destruct before as [|b before].
        -- assert (String.prefix needle (String d hay) = true) as Hp'
             by (apply prefix_spec; by exists after).
           congruence.
        -- injection Heq as _ ->. by exists before, after.
Qed.

(** ** The blocked-user log line *)

(** [_handle_blocking_exception] never raises and touches nothing but the
    log, to which it adds at most its one line.  It prints the line
    whenever one of "blocked", "deactivated", "chat not found" occurs in
    the text of the exception with its ASCII letters put in lower case.
    For a text of ASCII characters that is the only case: the line is
    printed exactly when one of the three words occurs in the text,
    whatever the case of its letters.  (Outside ASCII the source folds
    more letters than this embedding, so nothing is said there about
    when the line is absent.) *)
Theorem blocking_log_line (user : option Z) (exc : exn) (w : World) :
  let run := _handle_blocking_exception user exc w in
  run.1 = Ok tt
  /\ trace run.2 = trace w
  /\ same_store w run.2
  /\ (log run.2 = log w \/ log run.2 = log w ++ [LogBlocked user])
  /\ ((exists word, In word blocking_words /\ infix_of word (lower (str exc)))
      -> log run.2 = log w ++ [LogBlocked user])
  /\ (is_ascii (str exc) = true ->
      (forall word, In word blocking_words
                    -> ~ infix_of word (lower (str exc)))
      -> log run.2 = log w)
  /\ forall exc',
       is_ascii (str exc) = true -> is_ascii (str exc') = true ->
       lower (str exc') = lower (str exc) ->
       log (_handle_blocking_exception user exc' w).2 = log run.2.
Proof.
  cbv zeta. unfold _handle_blocking_exception.
  split; [by destruct (existsb _ _)|].
  split; [by destruct (existsb _ _)|].
  split; [by destruct (existsb _ _)|].
  split; [destruct (existsb _ _); [by right|by left]|].
  split.
  { intros (word & Hin & Hinfix).
    assert (existsb (fun x => contains x (lower (str exc)))
              ["blocked"; "deactivated"; "chat not found"] = true) as ->; [|done].
    apply existsb_exists. exists word. split; [done|]. by apply contains_spec. }
  split.
  { intros _ Hnone.
    assert (existsb (fun x => contains x (lower (str exc)))
              ["blocked"; "deactivated"; "chat not found"] = false) as ->; [|done].
    apply not_true_is_false. intros (word & Hin & Hc)%existsb_exists.
    apply (Hnone word Hin). by apply contains_spec. }
  intros exc' _ _ ->. done.
Qed.

(** A text of ASCII characters in capitals that holds one of the words,
    and one that holds none. *)
Example blocking_log_line_examples :
  is_ascii "Forbidden: bot was BLOCKED by the user" = true
  /\ log (_handle_blocking_exception (Some 7)
            (Forbidden "Forbidden: bot was BLOCKED by the user")
            empty_world).2
     = [LogBlocked (Some 7)]
  /\ is_ascii "Bad Request: message is too long" = true
  /\ log (_handle_blocking_exception (Some 7)
            (BadRequest "Bad Request: message is too long") empty_world).2
     = [].
Proof. vm_compute. repeat split. Qed.

(** ** The reply helper *)

(** [_safe_reply_text] hands the reply's message back when the reply goes
    through.  A [TypeError] of the reply never reaches the caller: the
    helper then sends the same text directly, once, when the message has
    a bot and a chat, and hands back [None] whatever that send raises,
    without a log line.  A [Forbidden] or [BadRequest] of the reply gives
    [None] with no second call.  The only exceptions that leave the
    helper are those of the reply that are none of the three. *)
Theorem reply_text_fallback
    (bot : Bot) (message : Message) (body : string) (pm : option string)
    (rm : option InlineKeyboardMarkup) (w : World) :
  let bcid := business_connection_id message in
  let reply := ReplyText (message_id message) body pm rm bcid in
  let run := _safe_reply_text bot message body pm rm w in
  same_store w run.2
  /\ (forall r, bot (trace w) reply = Ok r ->
        run = (Ok (Some r), set_trace (trace w ++ [reply]) w))
  /\ (forall exc, run.1 = Raise exc ->
        bot (trace w) reply = Raise exc
        /\ is_TypeError exc = false
        /\ is_Forbidden_or_BadRequest exc = false)
  /\ (forall exc, bot (trace w) reply = Raise exc -> is_TypeError exc = true ->
        log run.2 = log w
        /\ match msg_has_bot message, chat_id <$> msg_chat message with
           | true, Some c =>
               let send := SendMessage c body pm rm bcid in
               trace run.2 = trace w ++ [reply; send]
               /\ run.1 = match bot (trace w ++ [reply]) send with
                          | Ok r => Ok (Some r)
                          | Raise _ => Ok None
                          end
           | _, _ => trace run.2 = trace w ++ [reply] /\ run.1 = Ok None
           end)
  /\ (forall exc, bot (trace w) reply = Raise exc -> is_TypeError exc = false ->
        is_Forbidden_or_BadRequest exc = true ->
        run.1 = Ok None /\ trace run.2 = trace w ++ [reply]).
Proof.
  cbv zeta. unfold _safe_reply_text. unfold_monad.
  destruct (bot (trace w) (ReplyText _ _ _ _ _)) as [r|exc] eqn:Hreply.
  { repeat split; try done; try discriminate.
    by intros r' [= <-]. }
  destruct (is_TypeError exc) eqn:Htype.
  - assert (or_int (chat_id <$> msg_chat message) (chat_id <$> msg_chat message)
            = chat_id <$> msg_chat message) as ->
      by (unfold or_int; by destruct (truthy_int _)).
    destruct (msg_has_bot message), (chat_id <$> msg_chat message) as [c|];
      cbn [trace set_trace];
      try destruct (bot (trace w ++ [_]) (SendMessage _ _ _ _ _)) as [r|exc'];
      cbn [fst snd trace set_trace log];
      (split; [done|]); (split; [discriminate|]);
      (split; [discriminate|]);
      (split; [|intros exc0 [= <-]; congruence]);
      intros exc0 [= <-] _; rewrite <- ?app_assoc; done.
  - destruct (is_Forbidden_or_BadRequest exc) eqn:Hfb.
    + destruct (existsb _ _); cbn [fst snd trace set_trace set_log];
        (split; [done|]); (split; [discriminate|]);
        (split; [discriminate|]);
        (split; [intros exc0 [= <-]; congruence|]);
        intros exc0 [= <-] _ _; done.
    + cbn [fst snd]. split; [done|]. split; [discriminate|].
      split; [by intros exc0 [= <-]|].
      split; intros exc0 [= <-]; congruence.
Qed.

(** ** Updates the message handler ignores *)

(** An update that is no private-chat message from a sender that is no
    bot, for whatever conversation, leaves the world as it is: no mark, no
    job, no call. *)
Theorem other_updates_are_ignored
    (bot : Bot) (update : Update) (context : Context) (w : World) :
  (forall c, is_private_message_of c update = false) ->
  handle_text_message bot update context w = (Ok tt, w).
Proof.
  intros Hnone.
  destruct (handle_text_cases bot update context w)
    as [Hsame | (c & Hpriv & _)]; [done|].
  rewrite Hnone in Hpriv. discriminate.
Qed.

(** A message of the target group itself does not start a funnel. *)
Lemma other_updates_are_ignored_witness :
  handle_text_message bot_not_member group_message with_queue empty_world
  = (Ok tt, empty_world).
Proof.
  apply (other_updates_are_ignored bot_not_member group_message with_queue
           empty_world).
  intros c. reflexivity.
Defined.

(** ** Failure isolation *)

Lemma returns_ret {A} (a : A) : returns (ret a).
Proof. intros w. by exists a. Qed.

Lemma returns_bind {A B} (m : M A) (k : A -> M B) :
  returns m -> (forall a, returns (k a)) -> returns (bind m k).
Proof.
  intros Hm Hk w. unfold bind. destruct (Hm w) as (a & Ha).
  destruct (m w) as [[a'|e] w1]; cbn [fst] in Ha; [|discriminate].
  apply Hk.
Qed.

Lemma safe_send_returns bot chat user bcid s :
  classifiable_failures bot -> returns (safe_send bot chat user bcid s).
Proof.
  intros Hbot w.
  destruct s; cbn [safe_send];
    unfold _safe_send_message, _safe_send_photo, _safe_send_video,
      _safe_send_audio, _safe_send_media_group; unfold_monad;
    (destruct (bot (trace w) _) as [r|exc] eqn:Hcall;
     [by eexists|rewrite (Hbot _ _ _ Hcall); destruct (existsb _ _); by eexists]).
Qed.

Lemma voice_prefer_returns SETTINGS bot chat user voice cap pm bcid :
  classifiable_failures bot ->
  returns (_safe_send_voice_prefer SETTINGS bot chat user voice cap pm bcid).
Proof.
  intros Hbot w. unfold _safe_send_voice_prefer.
  unfold bind at 1. unfold try_except at 1. unfold call at 1. unfold ret at 1.
  destruct (bot (trace w) (SendVoice chat voice cap pm bcid)) as [r|exc]
    eqn:Hnative; [by eexists|].
  rewrite (Hbot _ _ _ Hnative).
  set (w1 := set_trace _ w).
  destruct (url_level_run SETTINGS bot w1 chat voice cap pm bcid)
    as (calls & retried & w2 & Hrun & _).
  unfold bind at 1. rewrite Hrun.
  destruct retried as [r|]; [by eexists|].
  unfold_monad.
  destruct (bot (trace w2) (SendAudio chat voice cap pm bcid)) as [r|exc2]
    eqn:Haudio; [by eexists|].
  rewrite (Hbot _ _ _ Haudio). destruct (existsb _ _); by eexists.
Qed.

Lemma returns_unit_step (m : M (option Reply)) :
  returns m -> returns (await_ m; ret tt).
Proof. intros Hm. apply returns_bind; [done|]. intros _. apply returns_ret. Qed.

Lemma send_remarketing_returns SETTINGS ASSETS bot chat user bcid :
  classifiable_failures bot ->
  returns (_send_remarketing SETTINGS ASSETS bot chat user bcid).
Proof.
  intros Hbot. unfold _send_remarketing. apply returns_bind.
  { destruct (truthy_str _); [|apply returns_ret].
    by apply returns_unit_step, voice_prefer_returns. }
  intros _. apply returns_bind.
  { by apply (safe_send_returns bot chat user bcid (Text _ None (Some _))). }
  intros _. destruct (truthy_str _); [|apply returns_ret].
  apply returns_bind; [by intros w; exists tt|].
  intros _. by apply returns_unit_step, voice_prefer_returns.
Qed.

Lemma send_photos_returns ASSETS bot chat user bcid :
  classifiable_failures bot -> returns (send_photos ASSETS bot chat user bcid).
Proof.
  intros Hbot. unfold send_photos.
  destruct (configured (photos_ids ASSETS)) as [|p1 [|p2 photos]];
    cbn [List.length Nat.leb Nat.eqb lookup list_lookup].
  - apply returns_ret.
  - by apply returns_unit_step,
      (safe_send_returns bot chat user bcid (Photo _ None None)).
  - by apply returns_unit_step,
      (safe_send_returns bot chat user bcid (MediaGroup _)).
Qed.

Lemma send_videos_returns ASSETS bot chat user bcid :
  classifiable_failures bot -> returns (send_videos ASSETS bot chat user bcid).
Proof.
  intros Hbot. unfold send_videos.
  destruct (configured (videos_ids ASSETS)) as [|v1 [|v2 videos]];
    cbn [List.length Nat.leb Nat.eqb lookup list_lookup].
  - apply returns_ret.
  - by apply returns_unit_step,
      (safe_send_returns bot chat user bcid (Video _ None None)).
  - by apply returns_unit_step,
      (safe_send_returns bot chat user bcid (MediaGroup _)).
Qed.

Lemma job_table_step_returns (m : M unit) :
  (forall w, (m w).1 = Ok tt) -> returns m.
Proof. intros Hm w. exists tt. apply Hm. Qed.

Lemma remove_if_job_returns job : returns (remove_if_job job).
Proof. apply job_table_step_returns. intros w. by destruct job as [[i j]|]. Qed.

Section Isolation.

Variable SETTINGS : Settings.
Variable ASSETS : Assets.
Variable bot : Bot.
Hypothesis Hbot : classifiable_failures bot.

Lemma combo_returns context :
  returns (_combo_delivery_beatriz_job SETTINGS ASSETS bot context).
Proof.
  unfold _combo_delivery_beatriz_job.
  apply returns_bind; [by intros w; eexists|]. intros job.
  destruct (if_truthy _) as [chat|]; [|apply returns_ret].
  apply returns_bind.
  { by apply (safe_send_returns bot chat _ _ (Text _ None None)). }
  intros _. apply returns_bind.
  { destruct (truthy_str _); [|apply returns_ret].
    by apply returns_unit_step, voice_prefer_returns. }
  intros _. apply returns_bind; [by apply send_photos_returns|].
  intros _. apply returns_bind; [by apply send_videos_returns|].
  intros _. apply returns_bind.
  { destruct (truthy_str _).
    - by apply returns_unit_step, voice_prefer_returns.
    - by apply returns_unit_step,
        (safe_send_returns bot chat _ _ (Text _ None None)). }
  intros _. destruct (ctx_job_queue context); [|apply returns_ret].
  by apply job_table_step_returns.
Qed.

Lemma upsell_returns context :
  returns (_upsell_sequence_job SETTINGS ASSETS bot context).
Proof.
  unfold _upsell_sequence_job.
  apply returns_bind; [by intros w; eexists|]. intros job.
  destruct (if_truthy _) as [chat|]; [|apply returns_ret].
  apply returns_bind.
  { destruct (truthy_str _); [|apply returns_ret].
    by apply returns_unit_step, voice_prefer_returns. }
  intros _. apply returns_bind.
  { destruct (truthy_str _); [|apply returns_ret].
    by apply returns_unit_step,
      (safe_send_returns bot chat _ _ (Video _ None None)). }
  intros _. apply returns_bind.
  { by apply (safe_send_returns bot chat _ _ (Text _ None None)). }
  intros _. apply returns_bind.
  { by apply (safe_send_returns bot chat _ _ (Text _ None (Some _))). }
  intros _. destruct (_ && _); [|apply returns_ret].
  by apply job_table_step_returns.
Qed.

Lemma group_check_returns context :
  returns (_group_check_job SETTINGS ASSETS bot context).
Proof.
  unfold _group_check_job.
  apply returns_bind; [by intros w; eexists|]. intros job.
  apply returns_bind.
  { apply job_table_step_returns. intros w. by destruct job as [[i j]|]. }
  intros _.
  destruct (if_truthy _) as [chat|]; [|apply remove_if_job_returns].
  destruct (if_truthy _) as [user|]; [|apply remove_if_job_returns].
  apply returns_bind.
  { intros w. unfold_monad.
    destruct (bot (trace w) _) as [member|exc]; [by eexists|].
    destruct (is_Forbidden exc), (is_BadRequest exc); by eexists. }
  intros [is_member|]; [|apply returns_ret].
  destruct is_member.
  - apply returns_bind; [|intros; apply remove_if_job_returns].
    by apply (safe_send_returns bot chat _ _ (Text _ None None)).
  - destruct (_ >=? _); [|apply returns_ret].
    apply returns_bind; [apply remove_if_job_returns|].
    intros _. by apply send_remarketing_returns.
Qed.

Lemma reply_text_returns message body pm rm :
  returns (_safe_reply_text bot message body pm rm).
Proof.
  intros w. unfold _safe_reply_text. unfold_monad.
  destruct (bot (trace w) (ReplyText _ _ _ _ _)) as [r|exc] eqn:Hreply;
    [by eexists|].
  destruct (is_TypeError exc).
  - assert (or_int (chat_id <$> msg_chat message) (chat_id <$> msg_chat message)
            = chat_id <$> msg_chat message) as ->
      by (unfold or_int; by destruct (truthy_int _)).
    destruct (msg_has_bot message), (chat_id <$> msg_chat message) as [c|];
      try by eexists.
    cbn [trace set_trace].
    destruct (bot _ (SendMessage _ _ _ _ _)); by eexists.
  - rewrite (Hbot _ _ _ Hreply). destruct (existsb _ _); by eexists.
Qed.

Lemma handle_text_returns update context :
  returns (handle_text_message bot update context).
Proof.
  unfold handle_text_message.
  destruct (effective_message update) as [message|]; [|apply returns_ret].
  destruct (effective_chat update) as [c|]; [|apply returns_ret].
  destruct (match from_user message with
            | Some from => is_bot from
            | None => false
            end); [apply returns_ret|].
  destruct (negb _); [apply returns_ret|].
  apply returns_bind; [by intros w; eexists|]. intros data.
  apply returns_bind; [by intros w; eexists|]. intros known.
  destruct (_ || _); [apply returns_ret|].
  apply returns_bind; [by apply job_table_step_returns|]. intros _.
  apply returns_bind; [by apply job_table_step_returns|]. intros _.
  apply returns_bind.
  { destruct (truthy_str _); [by apply job_table_step_returns|apply returns_ret]. }
  intros _. destruct (negb _); [|by apply job_table_step_returns].
  apply returns_bind; [by apply job_table_step_returns|]. intros _.
  apply returns_unit_step, reply_text_returns.
Qed.

End Isolation.

(** On a gateway whose failures are all [Forbidden] or [BadRequest], no
    stage of the funnel raises: the message handler, the combo delivery,
    the upsell, the polling invocation with its remarketing, and the
    join-request handler all return normally, from every world and for
    every payload. *)
Theorem classifiable_failures_never_escape
    (SETTINGS : Settings) (ASSETS : Assets) (bot : Bot) :
  classifiable_failures bot ->
  (forall callback context,
     returns (run_callback SETTINGS ASSETS callback bot context))
  /\ (forall update context, returns (handle_text_message bot update context))
  /\ (forall update context,
        returns (handle_chat_join_request SETTINGS bot update context)).
Proof.
  intros Hbot. split; [|split].
  - intros [| |] context; cbn [run_callback];
      [by apply combo_returns|by apply upsell_returns
      |by apply group_check_returns].
  - intros update context. by apply handle_text_returns.
  - intros update context w. exists tt. unfold handle_chat_join_request.
    destruct (chat_join_request update) as [jr|]; [|done].
    destruct (negb _); [done|]. unfold_monad.
    by destruct (bot (trace w) _).
Qed.

(** With every user having blocked the bot, the combo delivery of chat 5
    still runs to its end. *)
Lemma classifiable_failures_never_escape_witness :
  (_combo_delivery_beatriz_job demo_settings some_assets bot_blocked
     {| ctx_job := Some 0%nat; ctx_job_queue := true |} combo_world).1 = Ok tt.
Proof.
  assert (classifiable_failures bot_blocked) as Hbot.
  { intros h c exc [= <-]. reflexivity. }
  destruct (classifiable_failures_never_escape demo_settings some_assets
              bot_blocked Hbot) as (Hjobs & _).
  destruct (Hjobs combo_delivery_beatriz_job
              {| ctx_job := Some 0%nat; ctx_job_queue := true |} combo_world)
    as ([] & Hrun).
  exact Hrun.
Defined.

(** ** From one stage to the next *)

Lemma bind_ok_emits {A B} P (m : M A) (k : A -> M B) (w : World) (b : B) :
  emits P m ->
  (bind m k w).1 = Ok b ->
  exists a w1 calls,
    bind m k w = k a w1
    /\ trace w1 = trace w ++ calls
    /\ forallb P calls = true
    /\ same_store w w1.
Proof.
  intros Hm Hok. destruct (bind_ok_inv m k w b Hok) as (a & w1 & Hrun & Hk).
  destruct (Hm w) as (calls & Ht & HP & Hs). rewrite Hrun in Ht, Hs.
  by exists a, w1, calls.
Qed.

Lemma emits_anything_voice SETTINGS bot chat user voice cap pm bcid :
  emits (fun _ => true)
    (_safe_send_voice_prefer SETTINGS bot chat user voice cap pm bcid).
Proof. by apply emits_voice_prefer. Qed.

Lemma emits_anything_send bot chat user bcid s :
  emits (fun _ => true) (safe_send bot chat user bcid s).
Proof. by apply emits_safe_send. Qed.

Lemma emits_unit_step {A} P (m : M A) :
  emits P m -> emits P (await_ m; ret tt).
Proof. intros Hm. apply emits_bind; [done|]. intros _. apply emits_ret. Qed.

Lemma emits_anything_photos ASSETS bot chat user bcid :
  emits (fun _ => true) (send_photos ASSETS bot chat user bcid).
Proof.
  intros w. destruct (send_photos_trace ASSETS bot chat user bcid w) as (Ht & Hs).
  exists (photo_calls ASSETS chat bcid). repeat split; try apply Hs; [done|].
  by apply forallb_forall.
Qed.

Lemma emits_anything_videos ASSETS bot chat user bcid :
  emits (fun _ => true) (send_videos ASSETS bot chat user bcid).
Proof.
  intros w. destruct (send_videos_trace ASSETS bot chat user bcid w) as (Ht & Hs).
  exists (video_calls ASSETS chat bcid). repeat split; try apply Hs; [done|].
  by apply forallb_forall.
Qed.

Lemma emits_optional_voice SETTINGS bot chat user bcid (asset : option string) :
  emits (fun _ => true)
    (if truthy_str asset
     then await_ _safe_send_voice_prefer SETTINGS bot chat user
                   (FileStr (default "" asset)) None None bcid;
          ret tt
     else ret tt).
Proof.
  destruct (truthy_str asset); [|apply emits_ret].
  apply emits_unit_step, emits_anything_voice.
Qed.

Lemma emits_optional_video bot chat user bcid (asset : option string) :
  emits (fun _ => true)
    (if truthy_str asset
     then await_ _safe_send_video bot chat user (FileStr (default "" asset))
                   None None bcid;
          ret tt
     else ret tt).
Proof.
  destruct (truthy_str asset); [|apply emits_ret].
  apply emits_unit_step,
    (emits_anything_send bot chat user bcid (Video _ None None)).
Qed.

Lemma emits_closing SETTINGS bot chat user bcid (asset : option string)
    (closing : string) :
  emits (fun _ => true)
    (if truthy_str asset
     then await_ _safe_send_voice_prefer SETTINGS bot chat user
                   (FileStr (default "" asset)) None None bcid;
          ret tt
     else await_ _safe_send_message bot chat user closing None None bcid;
          ret tt).
Proof.
  destruct (truthy_str asset).
  - apply emits_unit_step, emits_anything_voice.
  - apply emits_unit_step,
      (emits_anything_send bot chat user bcid (Text closing None None)).
Qed.

(** The job table after a combo delivery that ran to its end, and its
    first call. *)
Lemma combo_completion
    (SETTINGS : Settings) (ASSETS : Assets) (bot : Bot) (w : World)
    (i : nat) (j : Job) (chat : Z) (job_queue : bool) :
  jobs w !! i = Some j ->
  if_truthy (p_chat_id (job_data j)) = Some chat ->
  let user := p_user_id (job_data j) in
  let bcid := p_business_connection_id (job_data j) in
  let run := _combo_delivery_beatriz_job SETTINGS ASSETS bot
               {| ctx_job := Some i; ctx_job_queue := job_queue |} w in
  run.1 = Ok tt ->
  jobs run.2
  = jobs w ++ (if job_queue then [upsell_job_for chat user bcid] else [])
  /\ chat_data run.2 = chat_data w
  /\ COMBO_DISPATCHED_CHATS run.2 = COMBO_DISPATCHED_CHATS w
  /\ exists rest,
       trace run.2
       = trace w
           ++ SendMessage chat "Hi, sorry for the delay. I'll send everything"
                None None bcid :: rest.
Proof.
  intros Hjob Hchat user bcid run Hok. subst run.
  rewrite (combo_run SETTINGS ASSETS bot w i j chat job_queue Hjob Hchat)
    in Hok |- *.
  cbv zeta in Hok |- *. fold user bcid in Hok |- *.
  destruct (bind_ok_inv _ _ _ _ Hok) as (a1 & w1 & E1 & K1).
  rewrite K1 in Hok |- *. clear K1.
  destruct (safe_send_trace bot chat user bcid
              (Text "Hi, sorry for the delay. I'll send everything" None None) w)
    as (Ht1 & Hj1 & Hc1 & Hd1).
  cbn [safe_send gateway_call] in Ht1, Hj1, Hc1, Hd1.
  rewrite E1 in Ht1, Hj1, Hc1, Hd1. cbn [snd] in *.
  destruct (bind_ok_emits (fun _ => true) _ _ _ _
              (emits_optional_voice SETTINGS bot chat user bcid
                 (AUDIO_ENTREGA_COMBO ASSETS)) Hok)
    as (a2 & w2 & c2 & K2 & Ht2 & _ & Hj2 & Hc2 & Hd2).
  rewrite K2 in Hok |- *. clear K2.
  destruct (bind_ok_emits (fun _ => true) _ _ _ _
              (emits_anything_photos ASSETS bot chat user bcid) Hok)
    as (a3 & w3 & c3 & K3 & Ht3 & _ & Hj3 & Hc3 & Hd3).
  rewrite K3 in Hok |- *. clear K3.
  destruct (bind_ok_emits (fun _ => true) _ _ _ _
              (emits_anything_videos ASSETS bot chat user bcid) Hok)
    as (a4 & w4 & c4 & K4 & Ht4 & _ & Hj4 & Hc4 & Hd4).
  rewrite K4 in Hok |- *. clear K4.
  destruct (bind_ok_emits (fun _ => true) _ _ _ _
              (emits_closing SETTINGS bot chat user bcid
                 (AUDIO_POS_ENTREGA_COMBO ASSETS)
                 "Depois que olhar, me fala se gostou, tá bom? 🤍") Hok)
    as (a5 & w5 & c5 & K5 & Ht5 & _ & Hj5 & Hc5 & Hd5).
  rewrite K5 in Hok |- *. clear K5.
  assert (jobs w5 = jobs w) as Hjobs by congruence.
  assert (chat_data w5 = chat_data w) as Hdata by congruence.
  assert (COMBO_DISPATCHED_CHATS w5 = COMBO_DISPATCHED_CHATS w) as Hset
    by congruence.
  assert (trace w5
          = trace w
              ++ SendMessage chat "Hi, sorry for the delay. I'll send everything"
                   None None bcid :: (c2 ++ c3 ++ c4 ++ c5)) as Htrace.
  { rewrite Ht5, Ht4, Ht3, Ht2, Ht1. by rewrite <- !app_assoc. }
  destruct job_queue; cbn [run_once ret snd jobs set_jobs trace chat_data
    COMBO_DISPATCHED_CHATS]; rewrite Hjobs, ?app_nil_r;
    repeat split; try done; by eexists.
Qed.

(** The job table after an upsell job that ran to its end. *)
Lemma upsell_completion
    (SETTINGS : Settings) (ASSETS : Assets) (bot : Bot) (w : World)
    (i : nat) (j : Job) (chat : Z) (job_queue : bool) :
  jobs w !! i = Some j ->
  if_truthy (p_chat_id (job_data j)) = Some chat ->
  let user := p_user_id (job_data j) in
  let bcid := p_business_connection_id (job_data j) in
  let run := _upsell_sequence_job SETTINGS ASSETS bot
               {| ctx_job := Some i; ctx_job_queue := job_queue |} w in
  run.1 = Ok tt ->
  jobs run.2
  = jobs w ++ (if job_queue && truthy_int user
               then [polling_job_for chat user bcid] else []).
Proof.
  intros Hjob Hchat user bcid run Hok. subst run.
  rewrite (upsell_run SETTINGS ASSETS bot w i j chat job_queue Hjob Hchat)
    in Hok |- *.
  cbv zeta in Hok |- *. fold user bcid in Hok |- *.
  destruct (bind_ok_emits (fun _ => true) _ _ _ _
              (emits_optional_voice SETTINGS bot chat user bcid
                 (AUDIO_OFERTANDO_UPSELL ASSETS)) Hok)
    as (a1 & w1 & c1 & K1 & _ & _ & Hj1 & _).
  rewrite K1 in Hok |- *. clear K1.
  destruct (bind_ok_emits (fun _ => true) _ _ _ _
              (emits_optional_video bot chat user bcid
                 (VIDEO_PREVIA_VIP ASSETS)) Hok)
    as (a2 & w2 & c2 & K2 & _ & _ & Hj2 & _).
  rewrite K2 in Hok |- *. clear K2.
  destruct (bind_ok_emits (fun _ => true) _ _ _ _
              (emits_safe_send_message (fun _ => true) bot chat user
                 upsell_text None None bcid eq_refl) Hok)
    as (a3 & w3 & c3 & K3 & _ & _ & Hj3 & _).
  rewrite K3 in Hok |- *. clear K3.
  destruct (bind_ok_emits (fun _ => true) _ _ _ _
              (emits_safe_send_message (fun _ => true) bot chat user
                 "Choose your VIP below 👇" None (Some vip_keyboard) bcid
                 eq_refl) Hok)
    as (a4 & w4 & c4 & K4 & _ & _ & Hj4 & _).
  rewrite K4 in Hok |- *. clear K4.
  assert (jobs w4 = jobs w) as Hjobs by congruence.
  destruct (job_queue && truthy_int user);
    cbn [run_repeating ret snd jobs set_jobs]; by rewrite Hjobs, ?app_nil_r.
Qed.

(** When the combo delivery of a chat runs to its end, it starts with the
    apology and, with a job queue, appends exactly one job: the upsell, due
    [VIP_OFFER_DELAY_SECONDS] later, named after the chat, with the chat,
    the user and the business connection of its own payload; without a
    job queue the job table is as before.  The marks of the dispatch guard
    are untouched. *)
Theorem combo_schedules_upsell
    (SETTINGS : Settings) (ASSETS : Assets) (bot : Bot) (w : World)
    (i : nat) (j : Job) (chat : Z) (job_queue : bool) :
  jobs w !! i = Some j ->
  if_truthy (p_chat_id (job_data j)) = Some chat ->
  let user := p_user_id (job_data j) in
  let bcid := p_business_connection_id (job_data j) in
  let run := _combo_delivery_beatriz_job SETTINGS ASSETS bot
               {| ctx_job := Some i; ctx_job_queue := job_queue |} w in
  run.1 = Ok tt ->
  jobs run.2
  = jobs w ++ (if job_queue then [upsell_job_for chat user bcid] else [])
  /\ chat_data run.2 = chat_data w
  /\ COMBO_DISPATCHED_CHATS run.2 = COMBO_DISPATCHED_CHATS w
  /\ exists rest,
       trace run.2
       = trace w
           ++ SendMessage chat "Hi, sorry for the delay. I'll send everything"
                None None bcid :: rest.
Proof. apply combo_completion. Qed.

(** The combo delivery of chat 5 on a gateway where all goes well. *)
Lemma combo_schedules_upsell_witness :
  jobs (_combo_delivery_beatriz_job demo_settings some_assets bot_not_member
          {| ctx_job := Some 0%nat; ctx_job_queue := true |} combo_world).2
  = jobs combo_world ++ [upsell_job_for 5 (Some 7) None].
Proof.
  destruct (combo_schedules_upsell demo_settings some_assets bot_not_member
              combo_world 0%nat combo_job 5 true eq_refl eq_refl eq_refl)
    as (Hjobs & _).
  exact Hjobs.
Defined.

Lemma payload_of_get_job (context : Context) (w : World) :
  match match ctx_job context with
        | Some i => (fun j => (i, j)) <$> jobs w !! i
        | None => None
        end with
  | Some (_, j) => job_data j
  | None => empty_payload
  end = payload_of context w.
Proof.
  unfold payload_of. destruct (ctx_job context) as [i|]; [|done].
  by destruct (jobs w !! i).
Qed.

(** A combo delivery or an upsell job whose payload holds no chat id
    (none, or 0), or that runs without a job object, does nothing at all:
    no call, no job, no exception. *)
Theorem jobs_without_chat_do_nothing
    (SETTINGS : Settings) (ASSETS : Assets) (bot : Bot) (context : Context)
    (w : World) :
  if_truthy (p_chat_id (payload_of context w)) = None ->
  _combo_delivery_beatriz_job SETTINGS ASSETS bot context w = (Ok tt, w)
  /\ _upsell_sequence_job SETTINGS ASSETS bot context w = (Ok tt, w).
Proof.
  intros Hchat.
  unfold _combo_delivery_beatriz_job, _upsell_sequence_job, get_job.
  unfold bind at 1. unfold bind at 2. cbn [fst snd].
  rewrite !payload_of_get_job. unfold bind. cbn.
  by rewrite !payload_of_get_job, Hchat.
Qed.

(** An upsell job for chat id 0. *)
Lemma jobs_without_chat_do_nothing_witness :
  let w := set_jobs [upsell_job_for 0 (Some 7) None] empty_world in
  _upsell_sequence_job demo_settings some_assets bot_not_member
    {| ctx_job := Some 0%nat; ctx_job_queue := true |} w = (Ok tt, w).
Proof.
  cbv zeta.
  apply (jobs_without_chat_do_nothing demo_settings some_assets bot_not_member
           {| ctx_job := Some 0%nat; ctx_job_queue := true |}
           (set_jobs [upsell_job_for 0 (Some 7) None] empty_world)).
  reflexivity.
Defined.

(** A polling invocation whose payload lacks the chat id or the user id
    puts no membership query and sends nothing: it counts the attempt and
    requests its own removal. *)
Theorem polling_without_ids_removes_itself
    (SETTINGS : Settings) (ASSETS : Assets) (bot : Bot) (w : World)
    (i : nat) (j : Job) (job_queue : bool) :
  jobs w !! i = Some j ->
  if_truthy (p_chat_id (job_data j)) = None
  \/ if_truthy (p_user_id (job_data j)) = None ->
  let run := _group_check_job SETTINGS ASSETS bot
               {| ctx_job := Some i; ctx_job_queue := job_queue |} w in
  run.1 = Ok tt
  /\ trace run.2 = trace w
  /\ log run.2 = log w
  /\ jobs run.2
     = alter with_removed i
         (alter (with_data (counted (job_data j))) i (jobs w))
  /\ removed i run.2 = true
  /\ attempt_of i run.2 = Some (default 0 (p_attempt (job_data j)) + 1).
Proof.
  intros Hjob Hmissing. cbv zeta.
  assert (_group_check_job SETTINGS ASSETS bot
            {| ctx_job := Some i; ctx_job_queue := job_queue |} w
          = (Ok tt,
             set_jobs (alter with_removed i
                         (alter (with_data (counted (job_data j))) i (jobs w)))
               w)) as ->.
  { unfold _group_check_job, get_job.
    unfold bind at 1. cbn [ctx_job]. rewrite Hjob.
    cbn [fmap option_fmap option_map]. unfold ret at 1.
    unfold bind at 1. unfold set_job_data at 1.
    destruct Hmissing as [-> | Hu].
    - reflexivity.
    - rewrite Hu. by destruct (if_truthy (p_chat_id (job_data j))). }
  cbn [fst snd trace log jobs set_jobs]. unfold removed, attempt_of.
  cbn [jobs set_jobs].
  rewrite !list_lookup_alter_eq, Hjob. done.
Qed.

(** A polling job that lost its user. *)
Lemma polling_without_ids_removes_itself_witness :
  removed 0
    (_group_check_job demo_settings no_assets bot_not_member
       {| ctx_job := Some 0%nat; ctx_job_queue := true |}
       (set_jobs [polling_job_for 5 None None] empty_world)).2 = true.
Proof.
  destruct (polling_without_ids_removes_itself demo_settings no_assets
              bot_not_member
              (set_jobs [polling_job_for 5 None None] empty_world) 0%nat
              (polling_job_for 5 None None) true eq_refl
              (or_intror eq_refl))
    as (_ & _ & _ & _ & Hremoved & _).
  exact Hremoved.
Defined.

Lemma alter_middle {A} (f : A -> A) (l1 l2 : list A) (x : A) :
  alter f (List.length l1) (l1 ++ x :: l2) = l1 ++ f x :: l2.
Proof. induction l1 as [|y l1 IH]; [done|]. cbn. by rewrite IH. Qed.

Lemma unit_result (r : Res unit) : (exists a, r = Ok a) -> r = Ok tt.
Proof. by intros ([] & ->). Qed.

(** The funnel end to end.  On a gateway whose failures are all
    classifiable, the first private message of a fresh conversation with a
    non-zero chat id, handled with a job queue, followed by the due times
    of the two jobs it leads to, leaves in the job table, after what was
    there: the combo delivery job, run and removed; the upsell job for
    the same chat, user and business connection, run and removed; and,
    when the sender is known with a non-zero id, the polling job for the
    same three, with attempt 0, still scheduled. *)
Theorem funnel_reaches_polling
    (SETTINGS : Settings) (ASSETS : Assets) (bot : Bot) (chat : Z)
    (w0 : World) (update : Update) (context : Context) :
  classifiable_failures bot ->
  dispatched_in_chat_data chat w0 = false ->
  dispatched_in_set chat w0 = false ->
  is_private_message_of chat update = true ->
  ctx_job_queue context = true ->
  chat <> 0 ->
  let n := List.length (jobs w0) in
  let user := user_id <$> effective_user update in
  let w := run_events SETTINGS ASSETS bot
             [Inbound update context; Due n; Due (S n)] w0 in
  exists message,
    effective_message update = Some message
    /\ jobs w
       = jobs w0
           ++ (with_removed <$> combo_job_for update)
           ++ [with_removed
                 (upsell_job_for chat user (business_connection_id message))]
           ++ (if truthy_int user
               then [polling_job_for chat user (business_connection_id message)]
               else []).
Proof.
  intros Hbot Hdata Hset Hpriv Hqueue Hchat n user.
  cbn [run_events step].
  destruct (first_message_effect bot chat update context w0 Hdata Hset Hpriv)
    as (_ & _ & Hj1 & _).
  cbv zeta in Hj1. rewrite Hqueue in Hj1.
  set (w1 := (handle_text_message bot update context w0).2) in *.
  destruct (private_message_inv chat update Hpriv)
    as (message & c & Hm & Hc & _ & _ & Hid).
  exists message. split; [done|].
  unfold combo_job_for in *. rewrite Hm, Hc in *. rewrite Hid in *.
  set (bcid := business_connection_id message) in *.
  set (cj := {| job_callback := combo_delivery_beatriz_job;
                job_trigger := RunOnce AUTO_REPLY_DELAY_SECONDS;
                job_name := _; job_data := _; job_removed := false |}) in *.
  assert (if_truthy (Some chat) = Some chat) as Htruthy.
  { unfold if_truthy, truthy_int.
    destruct (Z.eqb_spec chat 0); [done|reflexivity]. }
  (* the combo delivery *)
  assert (jobs (fire SETTINGS ASSETS bot n w1)
          = jobs w0 ++ [with_removed cj; upsell_job_for chat user bcid]) as Hj2.
  { unfold fire.
    assert (jobs w1 !! n = Some cj) as Hlookup
      by (rewrite Hj1; by apply list_lookup_middle).
    rewrite Hlookup. cbn [job_removed cj job_callback job_trigger run_callback].
    pose proof (unit_result _
                  (combo_returns SETTINGS ASSETS bot Hbot
                     {| ctx_job := Some n; ctx_job_queue := true |} w1)) as Hok.
    destruct (combo_completion SETTINGS ASSETS bot w1 n cj chat true
                Hlookup Htruthy Hok) as (Hjobs & _).
    cbn [jobs set_jobs]. rewrite Hjobs, Hj1. cbn [job_data cj p_user_id
      p_business_connection_id]. fold user.
    rewrite <- app_assoc. cbn [app]. unfold n. by rewrite alter_middle. }
  set (w2 := fire SETTINGS ASSETS bot n w1) in *.
  (* the upsell *)
  unfold fire.
  assert (jobs w2 !! S n = Some (upsell_job_for chat user bcid)) as Hlookup.
  { rewrite Hj2.
    change (jobs w0 ++ [with_removed cj; upsell_job_for chat user bcid])
      with (jobs w0 ++ [with_removed cj] ++ upsell_job_for chat user bcid :: []).
    rewrite app_assoc. apply list_lookup_middle.
    rewrite length_app. unfold n. cbn. lia. }
  rewrite Hlookup.
  cbn [job_removed upsell_job_for job_callback job_trigger run_callback].
  pose proof (unit_result _
                (upsell_returns SETTINGS ASSETS bot Hbot
                   {| ctx_job := Some (S n); ctx_job_queue := true |} w2))
    as Hok.
  pose proof (upsell_completion SETTINGS ASSETS bot w2 (S n)
                (upsell_job_for chat user bcid) chat true Hlookup Htruthy Hok)
    as Hjobs.
  cbv zeta in Hjobs.
  cbn [jobs set_jobs]. rewrite Hjobs, Hj2.
  cbn [job_data upsell_job_for p_user_id p_business_connection_id andb].
  replace (S n) with (List.length (jobs w0 ++ [with_removed cj]))
    by (rewrite length_app; unfold n; cbn; lia).
  change (jobs w0 ++ [with_removed cj; upsell_job_for chat user bcid])
    with (jobs w0 ++ [with_removed cj] ++ upsell_job_for chat user bcid :: []).
  rewrite (app_assoc (jobs w0)), <- (app_assoc (jobs w0 ++ [with_removed cj])).
  cbn [app]. rewrite alter_middle. by rewrite <- app_assoc.
Qed.

(** The funnel of chat 5 with every user having blocked the bot: the
    stages follow each other all the same. *)
Lemma funnel_reaches_polling_witness :
  job_callback
    <$> jobs (run_events demo_settings some_assets bot_blocked
                [Inbound hello with_queue; Due 0; Due 1] empty_world)
  = [combo_delivery_beatriz_job; upsell_sequence_job; group_check_job].
Proof.
  assert (classifiable_failures bot_blocked) as Hbot.
  { intros h c exc [= <-]. reflexivity. }
  destruct (funnel_reaches_polling demo_settings some_assets bot_blocked 5
              empty_world hello with_queue Hbot eq_refl eq_refl eq_refl
              eq_refl ltac:(discriminate))
    as (message & Hm & Hjobs).
  cbv zeta in Hjobs. cbn [jobs empty_world List.length] in Hjobs.
  rewrite Hjobs. reflexivity.
Defined.

(** ** The remarketing *)

(** The optional voice step of the remarketing, when what follows it
    returns. *)
Lemma optional_voice_step {B} SETTINGS bot chat user bcid
    (asset : option string) (k : unit -> M B) (w : World) (b : B) :
  (bind (if truthy_str asset
         then await_ _safe_send_voice_prefer SETTINGS bot chat user
                       (FileStr (default "" asset)) None None bcid;
              ret tt
         else ret tt) k w).1 = Ok b ->
  exists w1 calls,
    bind (if truthy_str asset
          then await_ _safe_send_voice_prefer SETTINGS bot chat user
                        (FileStr (default "" asset)) None None bcid;
               ret tt
          else ret tt) k w = k tt w1
    /\ trace w1 = trace w ++ calls
    /\ same_store w w1
    /\ match asset with
       | Some (String c s) =>
           exists reply,
             voice_chain SETTINGS bot (trace w) chat (FileStr (String c s))
               None None bcid calls (Ok reply)
       | _ => calls = []
       end.
Proof.
  assert (same_store w w) as Hrefl by by repeat split.
  destruct asset as [[|c s]|]; cbn [truthy_str String.eqb negb]; intros Hok.
  - exists w, []. by rewrite app_nil_r.
  - cbn [default from_option id] in Hok |- *.
    destruct (voice_chain_run SETTINGS bot w chat user (FileStr (String c s))
                None None bcid) as (calls & res & w1 & Hrun & Ht & Hs & Hchain).
    unfold bind in Hok |- *. rewrite Hrun in Hok |- *.
    destruct res as [reply|exc]; [|discriminate].
    exists w1, calls. repeat split; try apply Hs; [done|]. by exists reply.
  - exists w, []. by rewrite app_nil_r.
Qed.

(** A remarketing that runs to its end makes, in this order: the calls of
    the voice chain for the first clip to the chat, none when that clip is
    not set or set to the empty string; the discount message with its one
    button; and, only when the second clip is set to a non-empty id, a
    wait of 45 and the calls of the voice chain for that clip.  It leaves
    the job table and the dispatch marks alone. *)
Theorem remarketing_sequence
    (SETTINGS : Settings) (ASSETS : Assets) (bot : Bot) (chat : Z)
    (user : option Z) (bcid : option string) (w : World) :
  let run := _send_remarketing SETTINGS ASSETS bot chat user bcid w in
  run.1 = Ok tt ->
  same_store w run.2
  /\ exists first second,
       trace run.2
       = trace w ++ first ++ remarketing_call chat bcid :: second
       /\ match AUDIO_REMARKETING_UPSELL ASSETS with
          | Some (String c s) =>
              exists reply,
                voice_chain SETTINGS bot (trace w) chat (FileStr (String c s))
                  None None bcid first (Ok reply)
          | _ => first = []
          end
       /\ match AUDIO_REMARKETING_UPSELL_2 ASSETS with
          | Some (String c s) =>
              exists calls reply,
                second = Sleep 45 :: calls
                /\ voice_chain SETTINGS bot
                     (trace w ++ first ++ [remarketing_call chat bcid; Sleep 45])
                     chat (FileStr (String c s)) None None bcid calls (Ok reply)
          | _ => second = []
          end.
Proof.
  intros run Hok. subst run. unfold _send_remarketing in Hok |- *.
  destruct (optional_voice_step _ _ _ _ _ _ _ _ _ Hok)
    as (w1 & first & K1 & Ht1 & Hs1 & Hfirst).
  rewrite K1 in Hok |- *. clear K1.
  destruct (bind_ok_inv _ _ _ _ Hok) as (a2 & w2 & E2 & K2).
  rewrite K2 in Hok |- *. clear K2.
  destruct (safe_send_trace bot chat user bcid
              (Text remarketing_text None
                 (Some [[InlineKeyboardButton "I WANT THIS 🔥" EU_QUERO_LINK]]))
              w1) as (Ht2 & Hs2).
  cbn [safe_send gateway_call] in Ht2, Hs2.
  change (_safe_send_message bot chat user remarketing_text None
            (Some [[InlineKeyboardButton "I WANT THIS 🔥" EU_QUERO_LINK]]) bcid w1)
    with (_safe_send_message bot chat user
            ("Okay babe, I've already applied the discount for you 😘" +:+ nl
             +:+ "Take advantage now, because I'll delete this message later, just click here 👇")
            None
            (Some [[InlineKeyboardButton "I WANT THIS 🔥" EU_QUERO_LINK]]) bcid w1)
    in Ht2, Hs2.
  rewrite E2 in Ht2, Hs2. cbn [snd] in Ht2, Hs2.
  fold (remarketing_call chat bcid) in Ht2.
  assert (same_store w w2) as Hs12
    by (eapply same_store_trans; [exact Hs1|exact Hs2]).
  destruct (AUDIO_REMARKETING_UPSELL_2 ASSETS) as [[|c s]|];
    cbn [truthy_str String.eqb negb] in Hok |- *.
  - cbn [ret snd]. split; [exact Hs12|].
    exists first, []. split; [|done]. rewrite Ht2, Ht1.
    by rewrite <- !app_assoc.
  - cbn [default from_option id] in Hok |- *.
    set (w3 := set_trace (trace w2 ++ [Sleep 45]) w2).
    assert (forall k : unit -> M unit,
              bind (sleep 45) k w2 = k tt w3) as Hsleep by reflexivity.
    rewrite Hsleep in Hok |- *.
    destruct (voice_chain_run SETTINGS bot w3 chat user (FileStr (String c s))
                None None bcid) as (calls & res & w4 & Hrun & Ht4 & Hs4 & Hchain).
    unfold bind in Hok |- *. rewrite Hrun in Hok |- *.
    destruct res as [reply|exc]; [|discriminate].
    cbn [ret snd]. split.
    + eapply same_store_trans; [exact Hs12|].
      eapply same_store_trans; [|exact Hs4]. by repeat split.
    + assert (trace w3 = trace w ++ first
                           ++ [remarketing_call chat bcid; Sleep 45]) as Ht3.
      { unfold w3. cbn [trace set_trace]. rewrite Ht2, Ht1.
        by rewrite <- !app_assoc. }
      exists first, (Sleep 45 :: calls). split; [|split; [done|]].
      * rewrite Ht4, Ht3. rewrite <- !app_assoc. done.
      * exists calls, reply. split; [done|]. by rewrite <- Ht3.
  - cbn [ret snd]. split; [exact Hs12|].
    exists first, []. split; [|done]. rewrite Ht2, Ht1.
    by rewrite <- !app_assoc.
Qed.

Lemma remarketing_sequence_witness :
  let run := _send_remarketing demo_settings remarketing_assets bot_not_member
               5 (Some 7) None polling_world in
  same_store polling_world run.2
  /\ exists first second,
       trace run.2
       = trace polling_world ++ first ++ remarketing_call 5 None :: second
       /\ match AUDIO_REMARKETING_UPSELL remarketing_assets with
          | Some (String c s) =>
              exists reply,
                voice_chain demo_settings bot_not_member (trace polling_world)
                  5 (FileStr (String c s)) None None None first (Ok reply)
          | _ => first = []
          end
       /\ match AUDIO_REMARKETING_UPSELL_2 remarketing_assets with
          | Some (String c s) =>
              exists calls reply,
                second = Sleep 45 :: calls
                /\ voice_chain demo_settings bot_not_member
                     (trace polling_world ++ first
                        ++ [remarketing_call 5 None; Sleep 45])
                     5 (FileStr (String c s)) None None None calls (Ok reply)
          | _ => second = []
          end.
Proof.
  exact (remarketing_sequence demo_settings remarketing_assets bot_not_member
           5 (Some 7) None polling_world eq_refl).
Defined.

(** ** Counting the closing messages of a polling loop *)

Section Counting.

Variable q : Call -> bool.
Hypothesis q_voice : forall c, is_voice_chain_call c = true -> q c = false.
Hypothesis q_sleep : forall s, q (Sleep s) = false.
Hypothesis q_query : forall g u, q (GetChatMember g u) = false.

Lemma emits_count {A} (m : M A) (w : World) :
  emits (fun c => negb (q c)) m ->
  count_calls q (m w).2 = count_calls q w.
Proof.
  intros Hm. destruct (Hm w) as (calls & Ht & HP & _).
  unfold count_calls. rewrite Ht, List.filter_app, length_app.
  assert (List.filter q calls = []) as ->; [|cbn; lia].
  clear Ht. induction calls as [|c calls IH]; [done|].
  cbn in *. apply andb_prop in HP as [Hc HP].
  destruct (q c); [done|]. by apply IH.
Qed.

Lemma count_bind {A B} (m : M A) (k : A -> M B) (a b : nat) (w : World) :
  (forall w, (count_calls q (m w).2 <= count_calls q w + a)%nat) ->
  (forall x w, (count_calls q (k x w).2 <= count_calls q w + b)%nat) ->
  (count_calls q (bind m k w).2 <= count_calls q w + a + b)%nat.
Proof.
  intros Hm Hk. unfold bind. specialize (Hm w).
  destruct (m w) as [[x|e] w1]; cbn [snd] in *; [|lia].
  specialize (Hk x w1). lia.
Qed.

Lemma voice_chain_not_counted (c : Call) :
  is_voice_chain_call c = true -> negb (q c) = true.
Proof. intros Hc. by rewrite (q_voice c Hc). Qed.

(** One plain send adds at most one to the count, and exactly the value
    of [q] on its call. *)
Lemma safe_send_count bot chat user bcid s (w : World) :
  count_calls q (safe_send bot chat user bcid s w).2
  = (count_calls q w + if q (gateway_call chat bcid s) then 1 else 0)%nat.
Proof.
  destruct (safe_send_trace bot chat user bcid s w) as (Ht & _).
  unfold count_calls. rewrite Ht, List.filter_app, length_app.
  cbn [List.filter]. by destruct (q (gateway_call chat bcid s)).
Qed.

(** A remarketing adds at most one to the count and leaves the job table
    alone, however it ends. *)
Lemma send_remarketing_count SETTINGS ASSETS bot chat user bcid (w : World) :
  let w' := (_send_remarketing SETTINGS ASSETS bot chat user bcid w).2 in
  (count_calls q w' <= count_calls q w + 1)%nat /\ jobs w' = jobs w.
Proof.
  cbv zeta. split.
  - unfold _send_remarketing.
    eapply Nat.le_trans; [apply (count_bind _ _ 0%nat 1%nat)|lia].
    + intros w0. rewrite emits_count; [lia|].
      destruct (truthy_str _); [|apply emits_ret].
      apply emits_unit_step, emits_voice_prefer, voice_chain_not_counted.
    + intros _ w0.
      eapply Nat.le_trans; [apply (count_bind _ _ 1%nat 0%nat)|lia].
      * intros w1.
        pose proof (safe_send_count bot chat user bcid
                      (Text remarketing_text None
                         (Some [[InlineKeyboardButton "I WANT THIS 🔥"
                                   EU_QUERO_LINK]])) w1) as Hc.
        cbn [safe_send] in Hc.
        etransitivity; [apply Nat.eq_le_incl, Hc|].
        destruct (q _); lia.
      * intros _ w1. rewrite emits_count; [lia|].
        destruct (truthy_str _); [|apply emits_ret].
        apply emits_bind; [apply emits_sleep; by rewrite q_sleep|]. intros _.
        apply emits_unit_step, emits_voice_prefer, voice_chain_not_counted.
  - destruct (emits_send_remarketing (fun _ => true) SETTINGS ASSETS bot chat
                user bcid (fun _ _ => eq_refl) (fun _ _ _ => eq_refl) eq_refl w)
      as (calls & _ & _ & Hs).
    by destruct Hs as (-> & _).
Qed.

Lemma after_query_count SETTINGS i j user (w : World) :
  count_calls q (after_query SETTINGS i j user w) = count_calls q w.
Proof.
  unfold count_calls, after_query. cbn [trace set_trace set_jobs].
  rewrite List.filter_app, length_app. cbn [List.filter].
  rewrite q_query. cbn. lia.
Qed.

(** The branch of a polling invocation that found no member: nothing
    counted, or the attempts are used up, the removal is requested and at
    most one call is counted. *)
Lemma not_member_branch_count SETTINGS ASSETS bot chat user bcid (i : nat)
    (j1 : Job) (a : Z) (w1 : World) :
  jobs w1 !! i = Some j1 ->
  let branch :=
    (if a + 1 >=? GROUP_CHECK_MAX_ATTEMPTS then
       await_ schedule_removal i;
       _send_remarketing SETTINGS ASSETS bot chat user bcid
     else ret tt) in
  count_calls q (branch w1).2 = count_calls q w1
  \/ (removed i (branch w1).2 = true
      /\ (count_calls q (branch w1).2 <= count_calls q w1 + 1)%nat
      /\ GROUP_CHECK_MAX_ATTEMPTS <= a + 1).
Proof.
  intros Hj1 branch. subst branch.
  destruct (a + 1 >=? GROUP_CHECK_MAX_ATTEMPTS) eqn:Hge; [right|by left].
  set (w2 := set_jobs (alter with_removed i (jobs w1)) w1).
  assert ((await_ schedule_removal i;
           _send_remarketing SETTINGS ASSETS bot chat user bcid) w1
          = _send_remarketing SETTINGS ASSETS bot chat user bcid w2) as ->
    by reflexivity.
  destruct (send_remarketing_count SETTINGS ASSETS bot chat user bcid w2)
    as (Hn & Hjobs).
  split; [|split].
  - unfold removed. rewrite Hjobs. unfold w2. cbn [jobs set_jobs].
    by rewrite list_lookup_alter_eq, Hj1.
  - assert (count_calls q w2 = count_calls q w1) as Hw2 by reflexivity.
    lia.
  - apply Z.geb_le in Hge. lia.
Qed.

End Counting.

Section PollingVerdict.

Variable SETTINGS : Settings.
Variable ASSETS : Assets.
Variable bot : Bot.
Variable i : nat.
Variables chat user : Z.

(** One due time of a live polling job leaves the count of discount
    messages alone, or requests the removal of the job and adds at most
    one, the attempts being used up. *)
Lemma fire_remarketing_step (w : World) (a : Z) :
  polling i chat user w -> removed i w = false -> attempt_of i w = Some a ->
  let w' := fire SETTINGS ASSETS bot i w in
  remarketing_texts w' = remarketing_texts w
  \/ (removed i w' = true
      /\ (remarketing_texts w' <= remarketing_texts w + 1)%nat
      /\ GROUP_CHECK_MAX_ATTEMPTS <= a + 1).
Proof.
  intros (j & Hjob & Hcb & Htr & Hc & Hu) Hlive Hatt w'. subst w'.
  unfold removed in Hlive. unfold attempt_of in Hatt.
  rewrite Hjob in Hlive, Hatt.
  unfold fire. rewrite Hjob, Hlive, Hcb, Htr. cbn [run_callback].
  rewrite (group_check_run SETTINGS ASSETS bot w i j chat user true Hjob Hc Hu).
  cbv zeta. rewrite Hatt. cbn [default].
  unfold remarketing_texts.
  assert (forall c, is_voice_chain_call c = true -> is_remarketing_text c = false)
    as Hvoice by (by intros []).
  rewrite <- (after_query_count is_remarketing_text (fun _ _ => eq_refl)
                SETTINGS i j user w).
  set (w1 := after_query SETTINGS i j user w).
  assert (jobs w1 !! i = Some (with_data (counted (job_data j)) j)) as Hj1.
  { unfold w1, after_query. cbn [jobs set_trace set_jobs].
    by rewrite list_lookup_alter_eq, Hjob. }
  pose proof (not_member_branch_count is_remarketing_text Hvoice
                (fun _ => eq_refl) SETTINGS ASSETS bot chat (Some user)
                (p_business_connection_id (job_data j)) i _ a w1 Hj1)
    as Hbranch.
  cbv zeta in Hbranch.
  destruct (bot (trace w) (GetChatMember (group_id SETTINGS) user))
    as [member|exc].
  - destruct (status_is_member (get_status member) || get_is_member member);
      [|exact Hbranch].
    left. apply (preserves_bind (count_calls is_remarketing_text)).
    + intros w0. apply emits_count. by apply emits_safe_send_message.
    + intros _ w0. reflexivity.
  - destruct (is_Forbidden exc); [by left|exact Hbranch].
Qed.

(** The discount message of the remarketing is sent at most once, however
    often the polling job comes due: not before its fifth due time, and
    never while the job is still scheduled. *)
Theorem remarketing_sent_at_most_once (w0 : World) (n : nat) :
  polling i chat user w0 -> removed i w0 = false ->
  attempt_of i w0 = Some 0 ->
  let w := fire_n SETTINGS ASSETS n bot i w0 in
  (remarketing_texts w <= remarketing_texts w0 + 1)%nat
  /\ (removed i w = false -> remarketing_texts w = remarketing_texts w0)
  /\ ((n < 5)%nat -> remarketing_texts w = remarketing_texts w0).
Proof.
  intros Hp Hlive Hatt. induction n as [|n IH]; cbv zeta in *.
  - cbn [fire_n]. split; [lia|]. by split.
  - rewrite fire_n_S_r.
    destruct (polling_progress SETTINGS ASSETS bot i chat user w0 n Hp Hlive Hatt)
      as (Hpn & _ & _ & Hliven).
    cbv zeta in Hpn, Hliven.
    set (W := fire_n SETTINGS ASSETS n bot i w0) in *.
    destruct IH as (IH1 & IH2 & IH3).
    destruct (removed i W) eqn:Hr.
    + rewrite (fire_removed SETTINGS ASSETS bot i W Hr).
      split; [exact IH1|]. split; [by rewrite Hr|]. intros Hn. apply IH3. lia.
    + destruct (Hliven eq_refl) as (_ & Hattn).
      specialize (IH2 eq_refl).
      destruct (fire_remarketing_step W (Z.of_nat n) Hpn Hr Hattn)
        as [Hsame|(Hrem & Hle & Hmax)]; cbv zeta in *.
      * rewrite Hsame, IH2. split; [lia|]. by split.
      * split; [lia|]. split.
        -- rewrite Hrem. discriminate.
        -- unfold GROUP_CHECK_MAX_ATTEMPTS in Hmax. lia.
Qed.

(** With a gateway whose failures are classifiable, one due time of a
    live polling job sends neither closing message, or requests the
    removal of the job and sends at most one of them. *)
Lemma fire_verdict_step (w : World) :
  classifiable_failures bot ->
  polling i chat user w -> removed i w = false ->
  let w' := fire SETTINGS ASSETS bot i w in
  verdicts w' = verdicts w
  \/ (removed i w' = true /\ (verdicts w' <= verdicts w + 1)%nat).
Proof.
  intros Hbot (j & Hjob & Hcb & Htr & Hc & Hu) Hlive w'. subst w'.
  unfold removed in Hlive. rewrite Hjob in Hlive.
  unfold fire. rewrite Hjob, Hlive, Hcb, Htr. cbn [run_callback].
  rewrite (group_check_run SETTINGS ASSETS bot w i j chat user true Hjob Hc Hu).
  cbv zeta. unfold verdicts.
  assert (forall c, is_voice_chain_call c = true -> is_verdict c = false)
    as Hvoice by (by intros []).
  rewrite <- (after_query_count is_verdict (fun _ _ => eq_refl)
                SETTINGS i j user w).
  set (w1 := after_query SETTINGS i j user w).
  assert (jobs w1 !! i = Some (with_data (counted (job_data j)) j)) as Hj1.
  { unfold w1, after_query. cbn [jobs set_trace set_jobs].
    by rewrite list_lookup_alter_eq, Hjob. }
  pose proof (not_member_branch_count is_verdict Hvoice
                (fun _ => eq_refl) SETTINGS ASSETS bot chat (Some user)
                (p_business_connection_id (job_data j)) i _
                (default 0 (p_attempt (job_data j))) w1 Hj1)
    as Hbranch.
  cbv zeta in Hbranch.
  assert (forall (m : M unit),
            count_calls is_verdict (m w1).2 = count_calls is_verdict w1
            \/ (removed i (m w1).2 = true
                /\ (count_calls is_verdict (m w1).2
                    <= count_calls is_verdict w1 + 1)%nat
                /\ GROUP_CHECK_MAX_ATTEMPTS
                   <= default 0 (p_attempt (job_data j)) + 1) ->
            count_calls is_verdict (m w1).2 = count_calls is_verdict w1
            \/ (removed i (m w1).2 = true
                /\ (count_calls is_verdict (m w1).2
                    <= count_calls is_verdict w1 + 1)%nat)) as Hweak.
  { intros m [?|(? & ? & _)]; [by left|by right]. }
  destruct (bot (trace w) (GetChatMember (group_id SETTINGS) user))
    as [member|exc].
  - destruct (status_is_member (get_status member) || get_is_member member);
      [|by apply Hweak].
    right.
    set (bcid := p_business_connection_id (job_data j)).
    destruct (safe_send_returns bot chat (Some user) bcid
                (Text GROUP_APPROVED_MESSAGE None None) Hbot w1) as (r & Hr).
    destruct (safe_send_trace bot chat (Some user) bcid
                (Text GROUP_APPROVED_MESSAGE None None) w1) as (_ & Hjobs & _).
    pose proof (safe_send_count is_verdict bot chat (Some user) bcid
                  (Text GROUP_APPROVED_MESSAGE None None) w1) as Hcount.
    cbn [safe_send] in Hr, Hjobs, Hcount.
    unfold bind.
    destruct (_safe_send_message bot chat (Some user) GROUP_APPROVED_MESSAGE
                None None bcid w1) as [[x|e] w2]; [|discriminate].
    cbn [snd] in *. unfold schedule_removal. cbn [snd]. split.
    + unfold removed. cbn [jobs set_jobs].
      by rewrite Hjobs, list_lookup_alter_eq, Hj1.
    + change (count_calls is_verdict
                (set_jobs (alter with_removed i (jobs w2)) w2))
        with (count_calls is_verdict w2).
      rewrite Hcount. destruct (is_verdict _); lia.
  - destruct (is_Forbidden exc); [by left|by apply Hweak].
Qed.

(** With a gateway whose failures are classifiable, a polling job closes
    with at most one message, however often it comes due: the approval
    text or the discount text of the remarketing, never both and neither
    twice; and none of them is sent while the job is still scheduled. *)
Theorem polling_closes_with_one_message (w0 : World) (n : nat) :
  classifiable_failures bot ->
  polling i chat user w0 -> removed i w0 = false ->
  attempt_of i w0 = Some 0 ->
  let w := fire_n SETTINGS ASSETS n bot i w0 in
  (verdicts w <= verdicts w0 + 1)%nat
  /\ (removed i w = false -> verdicts w = verdicts w0).
Proof.
  intros Hbot Hp Hlive Hatt. induction n as [|n IH]; cbv zeta in *.
  - cbn [fire_n]. split; [lia|done].
  - rewrite fire_n_S_r.
    destruct (polling_progress SETTINGS ASSETS bot i chat user w0 n Hp Hlive Hatt)
      as (Hpn & _).
    cbv zeta in Hpn.
    set (W := fire_n SETTINGS ASSETS n bot i w0) in *.
    destruct IH as (IH1 & IH2).
    destruct (removed i W) eqn:Hr.
    + rewrite (fire_removed SETTINGS ASSETS bot i W Hr).
      split; [exact IH1|]. by rewrite Hr.
    + specialize (IH2 eq_refl).
      destruct (fire_verdict_step W Hbot Hpn Hr) as [Hsame|(Hrem & Hle)];
        cbv zeta in *.
      * rewrite Hsame, IH2. split; [lia|done].
      * split; [lia|]. rewrite Hrem. discriminate.
Qed.

End PollingVerdict.

Lemma remarketing_sent_at_most_once_witness :
  let w := fire_n demo_settings no_assets 9 bot_not_member 0 polling_world in
  (remarketing_texts w <= remarketing_texts polling_world + 1)%nat
  /\ (removed 0 w = false -> remarketing_texts w = remarketing_texts polling_world)
  /\ ((9 < 5)%nat -> remarketing_texts w = remarketing_texts polling_world).
Proof.
  assert (polling 0 5 7 polling_world) as Hp.
  { exists polling_job. repeat split. }
  exact (remarketing_sent_at_most_once demo_settings no_assets bot_not_member
           0%nat 5 7 polling_world 9%nat Hp eq_refl eq_refl).
Defined.

Lemma polling_closes_with_one_message_witness :
  let w := fire_n demo_settings no_assets 9 bot_not_member 0 polling_world in
  (verdicts w <= verdicts polling_world + 1)%nat
  /\ (removed 0 w = false -> verdicts w = verdicts polling_world).
Proof.
  assert (classifiable_failures bot_not_member) as Hbot.
  { intros h c exc. unfold bot_not_member. by destruct c. }
  assert (polling 0 5 7 polling_world) as Hp.
  { exists polling_job. repeat split. }
  exact (polling_closes_with_one_message demo_settings no_assets bot_not_member
           0%nat 5 7 polling_world 9%nat Hbot Hp eq_refl eq_refl).
Defined.

(** ** Strings: stripping *)

Lemma rstrip_with_split (p : ascii -> bool) (s : string) :
  exists t, s = rstrip_with p s +:+ t /\ all_chars p t = true.
Proof.
  induction s as [|c s (t & Hs & Ht)]; [by exists ""|].
  cbn [rstrip_with]. destruct (rstrip_with p s) as [|a r] eqn:Hr.
  - change (s = t) in Hs. subst t. destruct (p c) eqn:Hc.
    + exists (String c s). split; [done|]. cbn. by rewrite Hc, Ht.
    + by exists s.
  - exists t. split; [|done].
    change (String c s = String c (String a r +:+ t)). by rewrite <- Hs.
Qed.

Lemma rstrip_with_last (p : ascii -> bool) (s : string) :
  match last_char (rstrip_with p s) with
  | Some c => p c = false
  | None => rstrip_with p s = ""
  end.
Proof.
  induction s as [|c s IH]; [done|].
  cbn [rstrip_with]. destruct (rstrip_with p s) as [|a r] eqn:Hr.
  - destruct (p c) eqn:Hc; [done|]. by cbn.
  - change (last_char (String c (String a r)))
      with (last_char (String a r)).
    destruct (last_char (String a r)); [exact IH|discriminate].
Qed.

Lemma all_slashes (t : string) :
  all_chars is_slash t = true -> t = slashes (String.length t).
Proof.
  induction t as [|c t IH]; [done|]. cbn.
  intros [Hc Ht]%andb_prop. apply Ascii.eqb_eq in Hc as ->.
  by rewrite <- IH.
Qed.

(** The direct file URL has exactly one slash between the token and the
    file path, however many slashes the path Telegram gave begins with. *)
Theorem file_url_one_separator
    (SETTINGS : Settings) (k : nat) (rest : string) :
  String.prefix "/" rest = false ->
  file_url SETTINGS (slashes k +:+ rest)
  = "https://api.telegram.org/file/bot" +:+ token SETTINGS +:+ "/" +:+ rest.
Proof.
  intros Hrest. unfold file_url. by rewrite lstrip_slash_slashes.
Qed.

Lemma file_url_one_separator_witness :
  file_url demo_settings (slashes 2 +:+ "voice/file_7.oga")
  = "https://api.telegram.org/file/bot" +:+ token demo_settings +:+ "/"
      +:+ "voice/file_7.oga".
Proof.
  apply (file_url_one_separator demo_settings 2 "voice/file_7.oga").
  reflexivity.
Defined.

(** ** The start-up transport *)

Lemma set_to_absent (v : option string) : set_to v = None <-> absent v.
Proof.
  unfold absent. destruct v as [[|c s]|]; cbn.
  - split; [by right|done].
  - split; [discriminate|]. intros [?|?]; discriminate.
  - split; [by left|done].
Qed.

(** The base the code computes is the one chosen in words. *)
Lemma webhook_base_chosen (env : gmap string string) :
  match chosen_base env with
  | Some base =>
      truthy_str (webhook_base env) = true
      /\ default "" (webhook_base env) = base
  | None => truthy_str (webhook_base env) = false
  end.
Proof.
  unfold chosen_base, webhook_base, or_str, with_scheme.
  destruct (env !! "TELEGRAM_WEBHOOK_URL") as [[|c s]|];
    destruct (env !! "RAILWAY_PUBLIC_DOMAIN") as [[|c1 s1]|];
    destruct (env !! "RAILWAY_URL") as [[|c2 s2]|];
    cbn [truthy_str String.eqb negb set_to default from_option id];
    try done;
    match goal with
    | |- context [negb (String.prefix "http" ?d)] =>
        by destruct (negb (String.prefix "http" d))
    end.
Qed.

Lemma l_bind_assoc {A B C} (m : L A) (k : A -> L B) (k' : B -> L C) h :
  l_bind (l_bind m k) k' h = l_bind m (fun a => l_bind (k a) k') h.
Proof. unfold l_bind. by destruct (m h) as [[a|r] h']. Qed.

Lemma l_bind_ext {A B} (m : L A) (k k' : A -> L B) h :
  (forall a h', k a h' = k' a h') -> l_bind m k h = l_bind m k' h.
Proof. intros Hk. unfold l_bind. by destruct (m h) as [[a|r] h']. Qed.

Lemma perform_all_app {A} lib (cs cs' : list Setup) (k : unit -> L A) h :
  l_bind (perform_all lib cs) (fun _ => l_bind (perform_all lib cs') k) h
  = l_bind (perform_all lib (cs ++ cs')) k h.
Proof.
  revert h. induction cs as [|c cs IH]; intros h; [done|].
  cbn [perform_all app]. rewrite !l_bind_assoc.
  apply l_bind_ext. intros _ h'. apply IH.
Qed.

(** Calls made one after the other: all of them are made and return, or
    the first one that raises is the last one made. *)
Lemma perform_all_run lib (cs : list Setup) (h : list Setup) :
  ((forall n c, cs !! n = Some c -> answers lib (h ++ take n cs) c = None)
   /\ perform_all lib cs h = (Done tt, h ++ cs))
  \/ (exists n c r,
        cs !! n = Some c
        /\ answers lib (h ++ take n cs) c = Some r
        /\ perform_all lib cs h = (Stopped r, h ++ take (S n) cs)).
Proof.
  revert h. induction cs as [|c cs IH]; intros h.
  - left. split; [done|]. cbn. by rewrite app_nil_r.
  - cbn [perform_all]. unfold l_bind, perform.
    destruct (answers lib h c) as [r|] eqn:Hc.
    + right. exists 0%nat, c, r. cbn. by rewrite app_nil_r.
    + assert (forall l, h ++ c :: l = (h ++ [c]) ++ l) as Hmid
        by (intros l; by rewrite <- app_assoc).
      destruct (IH (h ++ [c])) as [(Hall & Hrun)|(n & c' & r & Hn & Hr & Hrun)].
      * left. split.
        -- intros [|n] c' Hn; cbn in *.
           ++ injection Hn as <-. by rewrite app_nil_r.
           ++ rewrite (Hmid (take n cs)). by apply Hall.
        -- by rewrite Hrun, (Hmid cs).
      * right. exists (S n), c', r. cbn.
        rewrite (Hmid (take n cs)), (Hmid (take (S n) cs)). by rewrite Hrun.
Qed.

(** What follows the start-up: the registration first, and after it no
    second one, and no polling beside a webhook. *)
Lemma serve_registers env lib (h : list Setup) :
  let webhook_base := webhook_base env in
  let webhook_path := webhook_path env in
  let served :=
    finally
      (if truthy_str webhook_base then
         let full_webhook_url :=
           rstrip_with is_slash (default "" webhook_base) +:+ webhook_path in
         l_bind (perform lib (SetWebhook full_webhook_url)) (fun _ =>
         l_bind (perform lib Start) (fun _ =>
         except_CancelledError_pass (sleep_loop lib)))
       else
         l_bind (except_Exception_pass (perform lib DeleteWebhook)) (fun _ =>
         l_bind (perform lib Start) (fun _ =>
         except_CancelledError_pass
           (l_bind (if updater lib then perform lib StartPolling
                    else l_raise (Exception (OtherError "AttributeError")))
                   (fun _ => sleep_loop lib)))))
      (l_bind (except_Exception_pass
                 (if updater lib then perform lib UpdaterStop else l_ret tt))
              (fun _ =>
       l_bind (except_Exception_pass (perform lib Stop)) (fun _ =>
       l_bind (except_Exception_pass (perform lib Shutdown)) (fun _ =>
       except_Exception_pass (perform lib RunnerCleanup))))) h in
  exists rest,
    served.2 = h ++ registration env :: rest
    /\ forallb (fun c => negb (is_registration c)) rest = true
    /\ (chosen_base env <> None ->
        forallb (fun c => negb (is_start_polling c)) rest = true).
Proof.
  cbv zeta. unfold registration.
  pose proof (webhook_base_chosen env) as Hbase.
  destruct (chosen_base env) as [base|].
  - destruct Hbase as (-> & ->).
    unfold finally, l_bind, perform, except_CancelledError_pass,
      except_Exception_pass, sleep_loop, l_ret.
    repeat match goal with
           | |- context [answers lib ?h ?c] =>
               destruct (answers lib h c) as [[|?]|]
           | |- context [loop_ends lib ?h] => destruct (loop_ends lib h)
           | |- context [updater lib] => destruct (updater lib)
           end;
      cbn [fst snd]; rewrite <- ?app_assoc; cbn [app];
      eexists; (split; [reflexivity|]); by split.
  - rewrite Hbase.
    unfold finally, l_bind, perform, except_CancelledError_pass,
      except_Exception_pass, sleep_loop, l_ret, l_raise.
    repeat match goal with
           | |- context [answers lib ?h ?c] =>
               destruct (answers lib h c) as [[|?]|]
           | |- context [loop_ends lib ?h] => destruct (loop_ends lib h)
           | |- context [updater lib] => destruct (updater lib)
           end;
      cbn [fst snd]; rewrite <- ?app_assoc; cbn [app];
      eexists; (split; [reflexivity|]); by split.
Qed.

(** [main] from its first statement to the choice of the transport.  When
    [int] rejects [PORT] (8080 when [PORT] is not set) nothing is called.
    Otherwise [main] makes the calls of the start-up in their order, the
    webhook endpoint mounted on the webhook path; the first of them that
    raises ends [main] at once, with no transport registered.  Only when
    all of them return does [main] settle the transport, with the next
    call: [set_webhook] when a base is chosen ([TELEGRAM_WEBHOOK_URL] as
    it is when set to something, else [RAILWAY_PUBLIC_DOMAIN], else
    [RAILWAY_URL], with [https://] before a domain that does not begin
    with [http]), on the base without its trailing slashes followed by
    the webhook path; [delete_webhook] when none of the three is set to
    something.  No second registration follows, and no polling is started
    beside a webhook. *)
Theorem transport_choice
    (int : string -> option Z) (env : gmap string string)
    (SETTINGS : Settings) (lib : Library) :
  match int (default "8080" (env !! "PORT")) with
  | None =>
      main int env SETTINGS lib []
      = (Stopped (Exception (OtherError "ValueError")), [])
  | Some port =>
      let startup := startup_calls SETTINGS env port in
      (exists n c r,
         startup !! n = Some c
         /\ answers lib (take n startup) c = Some r
         /\ main int env SETTINGS lib [] = (Stopped r, take (S n) startup))
      \/ ((forall n c, startup !! n = Some c ->
                       answers lib (take n startup) c = None)
          /\ exists rest,
               (main int env SETTINGS lib []).2
               = startup ++ registration env :: rest
               /\ forallb (fun c => negb (is_registration c)) rest = true
               /\ (chosen_base env <> None ->
                   forallb (fun c => negb (is_start_polling c)) rest = true))
  end
  /\ (chosen_base env = None
      <-> absent (env !! "TELEGRAM_WEBHOOK_URL")
          /\ absent (env !! "RAILWAY_PUBLIC_DOMAIN")
          /\ absent (env !! "RAILWAY_URL"))
  /\ (forall base, exists stem k,
        base = stem +:+ slashes k
        /\ last_char stem <> Some "/"%char
        /\ rstrip_with is_slash base = stem).
Proof.
  split; [|split].
  - unfold main. destruct (int (default "8080" (env !! "PORT"))) as [port|];
      [|done].
    cbv zeta. unfold _build_application, _build_web_app.
    set (k := fun _ : unit => finally _ _).
    assert (forall h,
              l_bind (perform_all lib
                        [ApplicationBuild (token SETTINGS);
                         AddHandler BusinessConnectionHandler;
                         AddHandler ChatJoinRequestHandler;
                         AddHandler PrivateMessageHandler;
                         AddHandler AttachmentHandler])
                (fun _ =>
                   l_bind (perform_all lib
                             [WebApplication; AddGet "/healthz";
                              AddPost (webhook_path env)])
                     (fun _ =>
                        l_bind (perform_all lib
                                  [AppRunner; RunnerSetup;
                                   TCPSite "0.0.0.0" port; SiteStart;
                                   Initialize]) k)) h
              = l_bind (perform_all lib (startup_calls SETTINGS env port)) k h)
      as Hmain.
    { intros h.
      transitivity
        (l_bind (perform_all lib
                   ([ApplicationBuild (token SETTINGS);
                     AddHandler BusinessConnectionHandler;
                     AddHandler ChatJoinRequestHandler;
                     AddHandler PrivateMessageHandler;
                     AddHandler AttachmentHandler]
                    ++ [WebApplication; AddGet "/healthz";
                        AddPost (webhook_path env)]
                    ++ [AppRunner; RunnerSetup; TCPSite "0.0.0.0" port;
                        SiteStart; Initialize])) k h); [|reflexivity].
      rewrite <- perform_all_app. apply l_bind_ext. intros _ h'.
      by rewrite <- perform_all_app. }
    rewrite Hmain. unfold l_bind.
    destruct (perform_all_run lib (startup_calls SETTINGS env port) [])
      as [(Hall & ->)|(n & c & r & Hn & Hr & ->)].
    + right. split; [exact Hall|]. subst k. cbn [app].
      apply (serve_registers env lib (startup_calls SETTINGS env port)).
    + left. by exists n, c, r.
  - unfold chosen_base. rewrite <- !set_to_absent.
    destruct (set_to (env !! "TELEGRAM_WEBHOOK_URL"));
      [split; [discriminate|by intros (? & _)]|].
    destruct (set_to (env !! "RAILWAY_PUBLIC_DOMAIN"));
      [split; [discriminate|by intros (_ & ? & _)]|].
    destruct (set_to (env !! "RAILWAY_URL"));
      [split; [discriminate|by intros (_ & _ & ?)]|].
    done.
  - intros base.
    destruct (rstrip_with_split is_slash base) as (t & Hbase & Ht).
    exists (rstrip_with is_slash base), (String.length t).
    split; [by rewrite <- (all_slashes t Ht)|]. split; [|done].
    pose proof (rstrip_with_last is_slash base) as Hlast.
    destruct (last_char (rstrip_with is_slash base)) as [c|]; [|done].
    intros [= ->]. discriminate.
Qed.

(** On a Railway deployment whose libraries all answer, and whose sleep
    loop is cancelled: the start-up, the webhook on the public domain, the
    start, the loop and the four steps of the shutdown. *)
Example main_on_railway :
  let env : gmap string string :=
    {[ "RAILWAY_PUBLIC_DOMAIN" := "clara.up.railway.app/" ]} in
  main decimal_int env demo_settings
    {| answers := fun _ _ => None; loop_ends := fun _ => CancelledError;
       updater := true |} []
  = (Done tt,
     startup_calls demo_settings env 8080
       ++ [ SetWebhook "https://clara.up.railway.app/telegram/webhook";
            Start; SleepLoop; UpdaterStop; Stop; Shutdown; RunnerCleanup ]).
Proof. vm_compute. reflexivity. Qed.

(** ** The attachment handler *)




Section Blanks.

(** A needle that begins with [a] and has no character that [p] strips. *)
Variable p : ascii -> bool.
Variable a : ascii.
Variable needle' : string.
Hypothesis needle_clean :
  all_chars (fun c => negb (p c)) (String a needle') = true.







End Blanks.




(** ** The webhook endpoint *)

Section EndpointFacts.

Variables Json Upd : Type.
Variable de_json : Json -> Res Upd.

(** The endpoint puts on the update queue exactly the updates of the
    bodies that parse, in the order in which the requests are handled and
    behind what was queued before; it answers every request, and a
    rejected body changes nothing. *)
Theorem endpoint_queues_valid_updates
    (bodies : list (Res Json)) (queue : list Upd) :
  (serve Json Upd de_json bodies queue).2
  = queue ++ omap (accepted Json Upd de_json) bodies
  /\ (serve Json Upd de_json bodies queue).1
     = map (answer_of Json Upd de_json) bodies
  /\ (forall body,
        accepted Json Upd de_json body = None ->
        (_telegram_update_handler Json Upd de_json body queue).2 = queue
        /\ exists error,
             (_telegram_update_handler Json Upd de_json body queue).1
             = json_response false (Some error) 400).
Proof.
  split; [|split].
  - revert queue. induction bodies as [|body rest IH]; intros queue.
    + cbn. by rewrite app_nil_r.
    + cbn [serve].
      destruct (_telegram_update_handler Json Upd de_json body queue)
        as [response queue'] eqn:Hh.
      specialize (IH queue').
      destruct (serve Json Upd de_json rest queue') as [responses queue''].
      cbn [snd] in *. rewrite IH. cbn [omap list_omap].
      unfold _telegram_update_handler in Hh. unfold accepted at 2.
      destruct body as [data|e]; [destruct (de_json data)|];
        injection Hh as _ <-; [|done|done].
      by rewrite <- app_assoc.
  - revert queue. induction bodies as [|body rest IH]; intros queue; [done|].
    cbn [serve].
    destruct (_telegram_update_handler Json Upd de_json body queue)
      as [response queue'] eqn:Hh.
    specialize (IH queue').
    destruct (serve Json Upd de_json rest queue') as [responses queue''].
    cbn [fst map] in *. rewrite IH. f_equal.
    unfold _telegram_update_handler in Hh. unfold answer_of.
    destruct body as [data|e]; [destruct (de_json data)|];
      by injection Hh as <- _.
  - intros body Hbody. unfold accepted in Hbody.
    unfold _telegram_update_handler.
    destruct body as [data|e]; [destruct (de_json data); [discriminate|]|];
      (split; [done|by eexists]).
Qed.

End EndpointFacts.

(** ** The dispatch guard: what an admission records *)

Lemma mark_dispatched_chat_data (chat : Z) (bcid : option string) (w : World) :
  chat_data (mark_dispatched chat bcid w).2
  = <[chat := {| combo_dispatched := true;
                 cd_business_connection_id :=
                   if truthy_str bcid then bcid
                   else cd_business_connection_id
                          (default empty_chat_data (chat_data w !! chat)) |}]>
      (chat_data w).
Proof.
  unfold mark_dispatched, bind, set_combo_dispatched, add_dispatched,
    set_chat_bcid, ret.
  cbn [fst snd].
  destruct (truthy_str bcid); cbn; [|done].
  rewrite lookup_insert_eq. cbn. by rewrite insert_insert_eq.
Qed.

(** The first message of a conversation records, in the chat data of that
    conversation only, that the combo was dispatched, and the business
    connection id of the message when it has one (an older one is kept
    otherwise); the process-wide set gains that conversation and no
    other.  This holds with or without a job queue, and however the
    apology reply ends. *)
Theorem admission_marks_only_its_conversation
    (bot : Bot) (chat : Z) (update : Update) (context : Context) (w : World) :
  dispatched_in_chat_data chat w = false ->
  dispatched_in_set chat w = false ->
  is_private_message_of chat update = true ->
  let w1 := (handle_text_message bot update context w).2 in
  exists message,
    effective_message update = Some message
    /\ chat_data w1 !! chat
       = Some {| combo_dispatched := true;
                 cd_business_connection_id :=
                   if truthy_str (business_connection_id message)
                   then business_connection_id message
                   else cd_business_connection_id
                          (default empty_chat_data (chat_data w !! chat)) |}
    /\ (forall c, c <> chat ->
          chat_data w1 !! c = chat_data w !! c
          /\ dispatched_in_set c w1 = dispatched_in_set c w).
Proof.
  intros Hdata Hset Hpriv.
  destruct (handle_admits bot chat update context w Hdata Hset Hpriv)
    as (message & Hm & ->).
  cbv zeta. exists message. split; [done|].
  pose proof (mark_dispatched_chat_data chat (business_connection_id message) w)
    as Hcd.
  destruct (mark_dispatched_effect chat (business_connection_id message) w)
    as (Hok & _ & _ & _ & _ & _ & Hset').
  cbv zeta in Hset'.
  set (k := if negb (ctx_job_queue context)
            then await_ sleep AUTO_REPLY_DELAY_SECONDS;
                 await_ _safe_reply_text bot message apology None None;
                 ret tt
            else fun w' =>
                   (Ok tt, set_jobs (jobs w' ++ combo_job_for update) w')).
  assert ((await_ mark_dispatched chat (business_connection_id message); k) w
          = k (mark_dispatched chat (business_connection_id message) w).2)
    as ->.
  { unfold bind.
    destruct (mark_dispatched chat (business_connection_id message) w)
      as [[r|e] wm']; [done|discriminate]. }
  set (wm := (mark_dispatched chat (business_connection_id message) w).2) in *.
  assert (chat_data (k wm).2 = chat_data wm
          /\ COMBO_DISPATCHED_CHATS (k wm).2 = COMBO_DISPATCHED_CHATS wm)
    as (Hkc & Hks).
  { subst k. destruct (ctx_job_queue context); cbn [negb]; [done|].
    set (ws := set_trace (trace wm ++ [Sleep AUTO_REPLY_DELAY_SECONDS]) wm).
    destruct (safe_reply_text_trace bot message apology ws)
      as (_ & _ & Hcr & Hsr).
    cbv zeta in Hcr, Hsr.
    assert (((await_ sleep AUTO_REPLY_DELAY_SECONDS;
              await_ _safe_reply_text bot message apology None None; ret tt)
               wm).2
            = (_safe_reply_text bot message apology None None ws).2) as ->.
    { unfold bind, ret, sleep. fold ws.
      by destruct (_safe_reply_text bot message apology None None ws)
        as [[o|e] w']. }
    by rewrite Hcr, Hsr. }
  rewrite Hkc, Hcd. split; [by rewrite lookup_insert_eq|].
  intros c Hc. split.
  - by rewrite lookup_insert_ne.
  - unfold dispatched_in_set. rewrite Hks, Hset'.
    apply bool_decide_ext. rewrite elem_of_union, elem_of_singleton.
    split; [by intros [?|?]|by right].
Qed.

Lemma admission_marks_only_its_conversation_witness :
  exists message,
    effective_message hello = Some message
    /\ chat_data (handle_text_message bot_not_member hello with_queue
                    combo_world).2 !! 5
       = Some {| combo_dispatched := true;
                 cd_business_connection_id :=
                   if truthy_str (business_connection_id message)
                   then business_connection_id message
                   else cd_business_connection_id
                          (default empty_chat_data
                             (chat_data combo_world !! 5)) |}
    /\ (forall c, c <> 5 ->
          chat_data (handle_text_message bot_not_member hello with_queue
                       combo_world).2 !! c
          = chat_data combo_world !! c
          /\ dispatched_in_set c
               (handle_text_message bot_not_member hello with_queue
                  combo_world).2
             = dispatched_in_set c combo_world).
Proof.
  exact (admission_marks_only_its_conversation bot_not_member 5 hello
           with_queue combo_world eq_refl eq_refl eq_refl).
Defined.

(** A photo in the group with the caption that asks for ids is answered
    with the id of its largest size. *)
Example attachment_reply_example :
  trace (handle_attachment bot_not_member (Some photo_with_caption)
           polling_world).2
  = trace polling_world ++ [ReplyText 9 "Foto: large-id" None None None].
Proof. reflexivity. Qed.

(** ** Polling under a refusing gateway *)

(** While every membership query ends in [Forbidden], the polling job is
    never removed, whatever its attempt counter: each due time puts one
    more query and nothing else, sends no message and prints nothing. *)
Theorem polling_goes_on_while_forbidden
    (SETTINGS : Settings) (ASSETS : Assets) (bot : Bot) (i : nat)
    (chat user : Z) (w0 : World) (n : nat) :
  (forall h, exists exc,
      bot h (GetChatMember (group_id SETTINGS) user) = Raise exc
      /\ is_Forbidden exc = true) ->
  polling i chat user w0 -> removed i w0 = false ->
  attempt_of i w0 = Some 0 ->
  let w := fire_n SETTINGS ASSETS n bot i w0 in
  removed i w = false
  /\ attempt_of i w = Some (Z.of_nat n)
  /\ trace w = trace w0 ++ repeat (GetChatMember (group_id SETTINGS) user) n
  /\ log w = log w0.
Proof.
  intros Hbot Hp Hlive Hatt. induction n as [|n IH]; cbv zeta in *.
  - cbn [fire_n repeat]. by rewrite app_nil_r.
  - rewrite fire_n_S_r.
    destruct (polling_progress SETTINGS ASSETS bot i chat user w0 n Hp Hlive Hatt)
      as (Hpn & _).
    cbv zeta in Hpn.
    set (W := fire_n SETTINGS ASSETS n bot i w0) in *.
    destruct IH as (Hr & Ha & Ht & Hl).
    destruct Hpn as (j & Hjob & Hcb & Htr & Hc & Hu).
    unfold removed in Hr. unfold attempt_of in Ha. rewrite Hjob in Hr, Ha.
    unfold fire. rewrite Hjob, Hr, Hcb, Htr. cbn [run_callback].
    rewrite (group_check_run SETTINGS ASSETS bot W i j chat user true
               Hjob Hc Hu).
    cbv zeta. destruct (Hbot (trace W)) as (exc & -> & ->). cbn [snd].
    unfold removed, attempt_of, after_query.
    cbn [jobs trace log set_trace set_jobs].
    rewrite list_lookup_alter_eq, Hjob. cbn. rewrite Ha. cbn.
    repeat split; [done|f_equal; lia| |done].
    rewrite Ht, <- app_assoc. f_equal.
    change (repeat (GetChatMember (group_id SETTINGS) user) n
            ++ [GetChatMember (group_id SETTINGS) user]
            = GetChatMember (group_id SETTINGS) user
              :: repeat (GetChatMember (group_id SETTINGS) user) n).
    symmetry. apply repeat_cons.
Qed.

Lemma polling_goes_on_while_forbidden_witness :
  let w := fire_n demo_settings no_assets 8 bot_forbidden 0 polling_world in
  removed 0 w = false
  /\ attempt_of 0 w = Some (Z.of_nat 8)
  /\ trace w
     = trace polling_world ++ repeat (GetChatMember (group_id demo_settings) 7) 8
  /\ log w = log polling_world.
Proof.
  assert (polling 0 5 7 polling_world) as Hp.
  { exists polling_job. repeat split. }
  apply (polling_goes_on_while_forbidden demo_settings no_assets bot_forbidden
           0%nat 5 7 polling_world 8%nat); [|exact Hp|reflexivity|reflexivity].
  intros h. eexists. split; reflexivity.
Defined.
